(** * Pairing-and-session engine: a shallow embedding and its properties

    The development follows the Python sources file by file:

    - [Py]             the fragment of Python the sources rely on (strings as
                       sequences of code points, bytes, exceptions, a state
                       and exception monad, JSON-shaped values, the strict
                       UTF-8 codec, [str(int)], hex digits);
    - [Libs]           the third-party and standard-library calls the sources
                       make (SPAKE2, Fernet, base64, json, datetime parsing),
                       as an interface;
    - [pake_handler]   [src/sdk/pake_handler.py];
    - [bitwarden_cli]  [src/utils/bitwarden_cli.py];
    - [pairing_manager] [src/server/pairing_manager.py].

    Definitions come first, the theorems about them follow. *)

From Stdlib Require Import ZArith List Lia Bool String Ascii.
From Stdlib Require Import Strings.Byte DecimalString.
From stdpp Require Import gmap list.
Import ListNotations.
Local Open Scope Z_scope.
Set Warnings "-register-all".

(* ===================================================================== *)
(** * Python values and effects                                           *)
(* ===================================================================== *)

Module Py.

(** A Python [str] is a sequence of code points, a [bytes] a sequence of
    octets. *)
Abbreviation pystr := (list Z).
Abbreviation bytes := (list byte).

(** An ASCII literal of the source as a [str]. *)
Definition py (s : string) : pystr :=
  map (fun a => Z.of_N (N_of_ascii a)) (list_ascii_of_string s).
Arguments py : simpl never.

Definition Z_of_byte (b : byte) : Z := Z.of_N (Byte.to_N b).
Definition byte_of_Z (z : Z) : byte := default Byte.x00 (Byte.of_N (Z.to_N z)).

(** ** Exceptions *)

(** The exception classes that occur.  Every class here derives from
    [Exception]; [KeyboardInterrupt] and the like are outside the model. *)
Inductive exn_class :=
| RuntimeError
| ValueError
| KeyError
| AttributeError
| TypeError
| UnicodeEncodeError
| UnicodeDecodeError
| binascii_Error
| JSONDecodeError
| BitwardenCLIError
| FileNotFoundError
| TimeoutExpired
| CalledProcessError (stderr : pystr)
| LibraryError (name : pystr).

(** An exception object: its class and the text [str(e)] gives. *)
Record exn := Exn { exn_cls : exn_class; exn_str : pystr }.

(** [isinstance(e, ValueError)]: the built-in subclasses of [ValueError]. *)
Definition is_ValueError (e : exn) : bool :=
  match exn_cls e with
  | ValueError | UnicodeEncodeError | UnicodeDecodeError
  | binascii_Error | JSONDecodeError => true
  | _ => false
  end.

Definition is_FileNotFoundError (e : exn) : bool :=
  match exn_cls e with FileNotFoundError => true | _ => false end.
Definition is_TimeoutExpired (e : exn) : bool :=
  match exn_cls e with TimeoutExpired => true | _ => false end.
Definition is_JSONDecodeError (e : exn) : bool :=
  match exn_cls e with JSONDecodeError => true | _ => false end.
Definition is_CalledProcessError (e : exn) : bool :=
  match exn_cls e with CalledProcessError _ => true | _ => false end.

(** ** Results and the state-and-exception monad *)

Inductive outcome (A : Type) :=
| Ret (a : A)
| Raise (e : exn).
Arguments Ret {A} a.
Arguments Raise {A} e.

(** A computation over a mutable object (or world) of type [S]: mutations
    made before an exception is raised stay in place. *)
Definition Py (S A : Type) : Type := S -> outcome A * S.

Definition ret {S A} (a : A) : Py S A := fun s => (Ret a, s).
Definition raise {S A} (e : exn) : Py S A := fun s => (Raise e, s).
Definition bind {S A B} (c : Py S A) (k : A -> Py S B) : Py S B :=
  fun s => match c s with
           | (Ret a, s') => k a s'
           | (Raise e, s') => (Raise e, s')
           end.
Definition get {S} : Py S S := fun s => (Ret s, s).
Definition put {S} (s : S) : Py S unit := fun _ => (Ret tt, s).
Definition modify {S} (f : S -> S) : Py S unit := fun s => (Ret tt, f s).
Definition lift {S A} (o : outcome A) : Py S A := fun s => (o, s).

(** [try: body  except C as e: handler e], where [catches] decides
    [isinstance(e, C)]. *)
Definition try_except {S A} (catches : exn -> bool)
    (body : Py S A) (handler : exn -> Py S A) : Py S A :=
  fun s => match body s with
           | (Ret a, s') => (Ret a, s')
           | (Raise e, s') => if catches e then handler e s' else (Raise e, s')
           end.

(** [except Exception]. *)
Definition any_Exception (e : exn) : bool := true.

Declare Scope py_scope.
Delimit Scope py_scope with py.
Notation "'let*' x ':=' c 'in' k" := (bind c (fun x => k))
  (at level 10, x name, c at level 100, k at level 200,
   format "'[v' 'let*'  x  ':='  c  'in' '/' k ']'") : py_scope.
Notation "c1 ';;;' c2" := (bind c1 (fun _ => c2))
  (at level 100, c2 at level 200, right associativity) : py_scope.

(** ** JSON-shaped Python values *)

(** What [json.loads] can return, and what the dictionaries of the sources
    contain.  A finite [float] is [m * 2^e]. *)
Inductive pyval :=
| PNone
| PBool (b : bool)
| PInt (n : Z)
| PFloat (m e : Z)
| PFloatSpecial (name : pystr)
| PStr (s : pystr)
| PList (l : list pyval)
| PDict (d : list (pystr * pyval)).

(** A [dict] with [str] keys, in insertion order, keys distinct. *)
Abbreviation pydict := (list (pystr * pyval)).

Fixpoint dict_lookup (d : pydict) (k : pystr) : option pyval :=
  match d with
  | [] => None
  | (k', v) :: d' => if bool_decide (k' = k) then Some v else dict_lookup d' k
  end.

Definition type_name (v : pyval) : pystr :=
  match v with
  | PNone => py "NoneType"
  | PBool _ => py "bool"
  | PInt _ => py "int"
  | PFloat _ _ | PFloatSpecial _ => py "float"
  | PStr _ => py "str"
  | PList _ => py "list"
  | PDict _ => py "dict"
  end.

Definition no_attribute (v : pyval) (attr : string) : exn :=
  Exn AttributeError
      (py "'" ++ type_name v ++ py "' object has no attribute '" ++ py attr ++ py "'").

(** [v.get(k, dflt)]. *)
Definition py_get (v : pyval) (k : string) (dflt : pyval) : outcome pyval :=
  match v with
  | PDict d => Ret (default dflt (dict_lookup d (py k)))
  | _ => Raise (no_attribute v "get")
  end.

(** [d[k]] on a dictionary. *)
Definition dict_subscript (d : pydict) (k : string) : outcome pyval :=
  match dict_lookup d (py k) with
  | Some v => Ret v
  | None => Raise (Exn KeyError (py "'" ++ py k ++ py "'"))
  end.

(** Truth value of an object ([if v], [not v]). *)
Definition truthy (v : pyval) : bool :=
  match v with
  | PNone => false
  | PBool b => b
  | PInt n => negb (n =? 0)
  | PFloat m _ => negb (m =? 0)
  | PFloatSpecial _ => true
  | PStr s => negb (bool_decide (s = []))
  | PList l => match l with [] => false | _ => true end
  | PDict d => match d with [] => false | _ => true end
  end.

(** [v == n] for an [int] literal [n]: [True == 1] and [1.0 == 1] hold. *)
Definition py_eq_int (v : pyval) (n : Z) : bool :=
  match v with
  | PInt k => k =? n
  | PBool b => (if b then 1 else 0) =? n
  | PFloat m e => if 0 <=? e then m * 2 ^ e =? n else m =? n * 2 ^ (- e)
  | _ => false
  end.

(** [v == s] for a [str] literal [s]. *)
Definition py_eq_str (v : pyval) (s : pystr) : bool :=
  match v with
  | PStr t => bool_decide (t = s)
  | _ => false
  end.

(** ** Strings *)

(** [str(n)] of an [int]. *)
Definition str_of_int (n : Z) : pystr := py (NilZero.string_of_int (Z.to_int n)).
Arguments str_of_int : simpl never.

(** [s.rstrip('Z')]: drops every trailing [Z]. *)
Fixpoint rstrip_Z (s : pystr) : pystr :=
  match s with
  | [] => []
  | c :: s' =>
      match rstrip_Z s' with
      | [] => if c =? 90 then [] else [c]
      | r => c :: r
      end
  end.

(** Code points for which [str.isspace] holds; [str.strip()] removes them. *)
Definition is_space (c : Z) : bool :=
  ((9 <=? c) && (c <=? 13)) || ((28 <=? c) && (c <=? 32)) ||
  (c =? 133) || (c =? 160) || (c =? 5760) ||
  ((8192 <=? c) && (c <=? 8202)) || (c =? 8232) || (c =? 8233) ||
  (c =? 8239) || (c =? 8287) || (c =? 12288).

Fixpoint lstrip (s : pystr) : pystr :=
  match s with
  | c :: s' => if is_space c then lstrip s' else s
  | [] => []
  end.

Definition strip (s : pystr) : pystr := rev (lstrip (rev (lstrip s))).

Fixpoint is_prefix (p s : pystr) : bool :=
  match p, s with
  | [], _ => true
  | a :: p', b :: s' => (a =? b) && is_prefix p' s'
  | _ :: _, [] => false
  end.

(** [needle in hay]. *)
Fixpoint contains (needle hay : pystr) : bool :=
  is_prefix needle hay ||
  match hay with
  | [] => false
  | _ :: hay' => contains needle hay'
  end.

(** Lower-case hexadecimal, as [bytes.hex()] writes it. *)
Definition hex_digit (d : Z) : Z := if d <? 10 then 48 + d else 87 + d.

Definition is_hex_digit (c : Z) : bool :=
  ((48 <=? c) && (c <=? 57)) || ((97 <=? c) && (c <=? 102)).

Fixpoint hexlify (b : bytes) : pystr :=
  match b with
  | [] => []
  | x :: b' =>
      hex_digit (Z_of_byte x / 16) :: hex_digit (Z_of_byte x mod 16) :: hexlify b'
  end.

(** ** The strict UTF-8 codec *)

(** Unicode scalar values: the code points that are not surrogates. *)
Definition is_scalar (c : Z) : bool :=
  (0 <=? c) && (c <=? 1114111) && negb ((55296 <=? c) && (c <=? 57343)).

Definition encode_code_point (c : Z) : option bytes :=
  if negb (is_scalar c) then None
  else if c <? 128 then Some [byte_of_Z c]
  else if c <? 2048 then
    Some [byte_of_Z (192 + c / 64); byte_of_Z (128 + c mod 64)]
  else if c <? 65536 then
    Some [byte_of_Z (224 + c / 4096); byte_of_Z (128 + c / 64 mod 64);
          byte_of_Z (128 + c mod 64)]
  else
    Some [byte_of_Z (240 + c / 262144); byte_of_Z (128 + c / 4096 mod 64);
          byte_of_Z (128 + c / 64 mod 64); byte_of_Z (128 + c mod 64)].

(** [s.encode('utf-8')]; [None] when a surrogate makes it raise. *)
Fixpoint utf8_encode (s : pystr) : option bytes :=
  match s with
  | [] => Some []
  | c :: s' =>
      match encode_code_point c, utf8_encode s' with
      | Some b, Some r => Some (b ++ r)
      | _, _ => None
      end
  end.

Definition is_cont (b : byte) : bool :=
  (128 <=? Z_of_byte b) && (Z_of_byte b <? 192).

Definition cont_bits (b : byte) : Z := Z_of_byte b - 128.

(** [b.decode('utf-8')]; [None] when it raises: a stray or missing
    continuation byte, an overlong form, a surrogate, a value above
    U+10FFFF. *)
Fixpoint utf8_decode (b : bytes) : option pystr :=
  match b with
  | [] => Some []
  | b0 :: r0 =>
      let x := Z_of_byte b0 in
      if x <? 128 then option_map (cons x) (utf8_decode r0)
      else if x <? 192 then None
      else if x <? 224 then
        match r0 with
        | b1 :: r1 =>
            let c := (x - 192) * 64 + cont_bits b1 in
            if is_cont b1 && (128 <=? c)
            then option_map (cons c) (utf8_decode r1) else None
        | _ => None
        end
      else if x <? 240 then
        match r0 with
        | b1 :: b2 :: r2 =>
            let c := (x - 224) * 4096 + cont_bits b1 * 64 + cont_bits b2 in
            if is_cont b1 && is_cont b2 && (2048 <=? c) && is_scalar c
            then option_map (cons c) (utf8_decode r2) else None
        | _ => None
        end
      else if x <? 248 then
        match r0 with
        | b1 :: b2 :: b3 :: r3 =>
            let c := (x - 240) * 262144 + cont_bits b1 * 4096
                     + cont_bits b2 * 64 + cont_bits b3 in
            if is_cont b1 && is_cont b2 && is_cont b3
               && (65536 <=? c) && is_scalar c
            then option_map (cons c) (utf8_decode r3) else None
        | _ => None
        end
      else None
  end.

(** Naive and timezone-aware [datetime] objects, as microseconds since the
    epoch (and a UTC offset). *)
Inductive datetime :=
| Naive (us : Z)
| Aware (us : Z) (offset : Z).

(** [datetime.timedelta(minutes=m)] in microseconds. *)
Definition minutes (m : Z) : Z := m * 60 * 1000000.
Arguments minutes : simpl never.

End Py.
Export Py.
Open Scope py_scope.

(* ===================================================================== *)
(** * Library calls                                                       *)
(* ===================================================================== *)

(** The calls into [spake2], [cryptography.fernet], [base64], [json] and
    [datetime] that the sources make.  A [spake2] object is mutable (it
    records that [start] and [finish] ran); the randomness a call consumes
    is its [Z] argument. *)
Class Libs := {
  spake2 : Type;
  SPAKE2_A : bytes -> spake2;
  SPAKE2_B : bytes -> spake2;
  spake2_start : Z -> Py spake2 bytes;
  spake2_finish : bytes -> Py spake2 bytes;
  fernet : Type;
  Fernet : bytes -> outcome fernet;
  fernet_encrypt : fernet -> Z -> bytes -> bytes;
  fernet_decrypt : fernet -> bytes -> outcome bytes;
  b64encode : bytes -> bytes;
  urlsafe_b64encode : bytes -> bytes;
  b64decode : pystr -> outcome bytes;
  json_loads : pystr -> outcome pyval;
  json_dumps : pyval -> outcome pystr;
  fromisoformat : pystr -> outcome datetime;
  isoformat : Z -> pystr;
  (** texts the interpreter and the libraries produce *)
  repr : pyval -> pystr;
  encode_error_text : pystr -> pystr;
  decode_error_text : bytes -> pystr;
  called_process_error_text : list pyval -> Z -> pystr
}.

Section Builtins.
Context `{L : Libs}.

Definition str_encode (s : pystr) : outcome bytes :=
  match utf8_encode s with
  | Some b => Ret b
  | None => Raise (Exn UnicodeEncodeError (encode_error_text s))
  end.

Definition bytes_decode (b : bytes) : outcome pystr :=
  match utf8_decode b with
  | Some s => Ret s
  | None => Raise (Exn UnicodeDecodeError (decode_error_text b))
  end.

(** How an f-string renders a value: [str(v)]. *)
Definition fmt (v : pyval) : pystr :=
  match v with
  | PStr s => s
  | PNone => py "None"
  | PBool true => py "True"
  | PBool false => py "False"
  | PInt n => str_of_int n
  | _ => repr v
  end.

End Builtins.

(* ===================================================================== *)
(** * src/sdk/pake_handler.py                                             *)
(* ===================================================================== *)

Module pake_handler.
Section WithLibs.
Context `{L : Libs}.

Record PAKEHandler := {
  role : pystr;
  _spake_instance : option spake2;
  _shared_key : option bytes;
  _fernet : option fernet
}.

Definition set_spake_instance (v : option spake2) (self : PAKEHandler) :=
  {| role := role self; _spake_instance := v;
     _shared_key := _shared_key self; _fernet := _fernet self |}.
Definition set_shared_key (v : option bytes) (self : PAKEHandler) :=
  {| role := role self; _spake_instance := _spake_instance self;
     _shared_key := v; _fernet := _fernet self |}.
Definition set_fernet (v : option fernet) (self : PAKEHandler) :=
  {| role := role self; _spake_instance := _spake_instance self;
     _shared_key := _shared_key self; _fernet := v |}.

(** A method call on the object [self._spake_instance] refers to. *)
Definition on_spake_instance {A} (meth : string) (m : Py spake2 A)
    : Py PAKEHandler A :=
  fun self =>
    match _spake_instance self with
    | Some inst =>
        let '(r, inst') := m inst in (r, set_spake_instance (Some inst') self)
    | None => (Raise (no_attribute PNone meth), self)
    end.

(** The fields [__init__] sets. *)
Definition fresh (r : pystr) : PAKEHandler :=
  {| role := r; _spake_instance := None; _shared_key := None; _fernet := None |}.

(** [PAKEHandler(role)]. *)
Definition init (r : pystr) : outcome PAKEHandler :=
  if bool_decide (r = py "client") || bool_decide (r = py "server") then
    Ret (fresh r)
  else
    Raise (Exn ValueError (py "Role must be 'client' or 'server', got: " ++ r)).

Definition start_exchange (seed : Z) (password : pystr) : Py PAKEHandler bytes :=
  let* self := get in
  if bool_decide (_spake_instance self <> None) then
    raise (Exn RuntimeError (py "PAKE exchange already started"))
  else
    let* password_bytes := lift (str_encode password) in
    modify (set_spake_instance
              (Some (if bool_decide (role self = py "client")
                     then SPAKE2_A password_bytes
                     else SPAKE2_B password_bytes))) ;;;
    let* msg_out := on_spake_instance "start" (spake2_start seed) in
    ret msg_out.

(** The body of the [try] in [finish_exchange]: complete SPAKE2, keep the
    shared secret, build the Fernet cipher from its first 32 bytes. *)
Definition completion (msg_in : bytes) : Py PAKEHandler unit :=
  let* key := on_spake_instance "finish" (spake2_finish msg_in) in
  modify (set_shared_key (Some key)) ;;;
  let key_bytes := take 32 key in
  let fernet_key := urlsafe_b64encode key_bytes in
  let* f := lift (Fernet fernet_key) in
  modify (set_fernet (Some f)).

Definition pake_failed_prefix : pystr :=
  py "PAKE exchange failed (wrong password or invalid message): ".

Definition finish_exchange (msg_in : bytes) : Py PAKEHandler unit :=
  let* self := get in
  if bool_decide (_spake_instance self = None) then
    raise (Exn RuntimeError (py "Must call start_exchange() first"))
  else if bool_decide (_shared_key self <> None) then
    raise (Exn RuntimeError (py "PAKE exchange already completed"))
  else
    try_except any_Exception
      (completion msg_in)
      (fun e => raise (Exn ValueError (pake_failed_prefix ++ exn_str e))).

(** The state error of [encrypt] and [decrypt]. *)
Definition not_completed : exn :=
  Exn RuntimeError
      (py "PAKE exchange not completed - call finish_exchange() first").

Definition encrypt (seed : Z) (plaintext : pystr) : Py PAKEHandler pystr :=
  let* self := get in
  match _fernet self with
  | None => raise not_completed
  | Some f =>
      let* plaintext_bytes := lift (str_encode plaintext) in
      let encrypted := fernet_encrypt f seed plaintext_bytes in
      let* encrypted_b64 := lift (bytes_decode (b64encode encrypted)) in
      ret encrypted_b64
  end.

Definition decrypt (ciphertext : pystr) : Py PAKEHandler pystr :=
  let* self := get in
  match _fernet self with
  | None => raise not_completed
  | Some f =>
      try_except any_Exception
        (let* encrypted := lift (b64decode ciphertext) in
         let* plaintext_bytes := lift (fernet_decrypt f encrypted) in
         let* plaintext := lift (bytes_decode plaintext_bytes) in
         ret plaintext)
        (fun e =>
           raise (Exn ValueError
                    (py "Decryption failed (wrong key or tampered data): "
                     ++ exn_str e)))
  end.

Definition is_ready (self : PAKEHandler) : bool :=
  bool_decide (_fernet self <> None).

End WithLibs.
End pake_handler.

(* ===================================================================== *)
(** * The host process: clock, randomness, child processes               *)
(* ===================================================================== *)

Module host.

(** What [subprocess.run(..., capture_output=True, text=True)] returns. *)
Record CompletedProcess := {
  returncode : Z;
  stdout : pystr;
  stderr : pystr
}.

(** The surroundings of the approver process.  [clock i] is what the
    [i]-th call of [datetime.utcnow()] reads (microseconds), [entropy i] the
    [i]-th draw from the operating system's randomness, [processes i args]
    what the [i]-th child process, run with [args], does; [ticks], [draws]
    and [invocations] record how much of each has been used. *)
Record Host := {
  clock : nat -> Z;
  ticks : nat;
  entropy : nat -> Z;
  draws : nat;
  processes : nat -> list pyval -> outcome CompletedProcess;
  invocations : list (list pyval)
}.

Definition tick (h : Host) : Host :=
  {| clock := clock h; ticks := S (ticks h);
     entropy := entropy h; draws := draws h;
     processes := processes h; invocations := invocations h |}.
Definition drawn (n : nat) (h : Host) : Host :=
  {| clock := clock h; ticks := ticks h;
     entropy := entropy h; draws := (draws h + n)%nat;
     processes := processes h; invocations := invocations h |}.
Definition invoked (args : list pyval) (h : Host) : Host :=
  {| clock := clock h; ticks := ticks h;
     entropy := entropy h; draws := draws h;
     processes := processes h; invocations := invocations h ++ [args] |}.

(** The reading of the [i]-th call of [utcnow] from now on. *)
Definition reading (h : Host) (i : nat) : Z := clock h (i + ticks h)%nat.

(** [datetime.datetime.utcnow()]. *)
Definition utcnow : Py Host Z :=
  fun h => (Ret (clock h (ticks h)), tick h).

(** One draw of library-internal randomness ([os.urandom]). *)
Definition urandom : Py Host Z :=
  fun h => (Ret (entropy h (draws h)), drawn 1 h).

(** [secrets.randbelow(n)] for [n > 0]: some value of [[0, n)]. *)
Definition randbelow (n : Z) : Py Host Z :=
  fun h => (Ret (entropy h (draws h) mod n), drawn 1 h).

(** [secrets.token_bytes(n)]. *)
Definition token_bytes (n : nat) : Py Host bytes :=
  fun h =>
    (Ret (map (fun i => byte_of_Z (entropy h (draws h + i)%nat mod 256)) (seq 0 n)),
     drawn n h).

(** [secrets.token_hex(n)]. *)
Definition token_hex (n : nat) : Py Host pystr :=
  let* b := token_bytes n in
  ret (hexlify b).

Section WithLibs.
Context `{L : Libs}.

(** [subprocess.run(args, capture_output=True, text=True, check=check)]. *)
Definition subprocess_run (args : list pyval) (check : bool)
    : Py Host CompletedProcess :=
  fun h =>
    let h' := invoked args h in
    match processes h (length (invocations h)) args with
    | Ret r =>
        if check && negb (returncode r =? 0) then
          (Raise (Exn (CalledProcessError (stderr r))
                      (called_process_error_text args (returncode r))), h')
        else (Ret r, h')
    | Raise e => (Raise e, h')
    end.

End WithLibs.
End host.
Export host.

(* ===================================================================== *)
(** * src/utils/bitwarden_cli.py                                          *)
(* ===================================================================== *)

Module bitwarden_cli.
Section WithLibs.
Context `{L : Libs}.

Record BitwardenCLI := { cli_path : pystr }.

Definition _check_login_status (self : BitwardenCLI) : Py Host unit :=
  try_except is_JSONDecodeError
    (let* result := subprocess_run [PStr (cli_path self); PStr (py "status")] true in
     let* status := lift (json_loads (stdout result)) in
     let* st := lift (py_get status "status" PNone) in
     if py_eq_str st (py "unauthenticated") then
       raise (Exn BitwardenCLIError
                (py "Not logged into Bitwarden CLI. "
                 ++ py "Please run 'bw login' first."))
     else ret tt)
    (fun e =>
       raise (Exn BitwardenCLIError
                (py "Failed to parse CLI status: " ++ exn_str e))).

Definition _validate_cli_installed (self : BitwardenCLI) : Py Host unit :=
  try_except (fun e => is_FileNotFoundError e || is_TimeoutExpired e)
    (let* result := subprocess_run [PStr (cli_path self); PStr (py "--version")] true in
     ret tt)
    (fun e =>
       if is_FileNotFoundError e then
         raise (Exn BitwardenCLIError
                  (py "Bitwarden CLI not found at '" ++ cli_path self ++ py "'. "
                   ++ py "Please install from https://bitwarden.com/help/cli/"))
       else
         raise (Exn BitwardenCLIError (py "Bitwarden CLI command timed out"))) ;;;
  _check_login_status self.

(** [BitwardenCLI()], with the default [cli_path="bw"]. *)
Definition init : Py Host BitwardenCLI :=
  let self := {| cli_path := py "bw" |} in
  _validate_cli_installed self ;;;
  ret self.

Definition unlock (self : BitwardenCLI) (password : pystr) : Py Host pystr :=
  try_except is_TimeoutExpired
    (let* result :=
       subprocess_run [PStr (cli_path self); PStr (py "unlock");
                       PStr password; PStr (py "--raw")] false in
     if negb (returncode result =? 0) then
       if contains (py "Invalid master password") (stderr result) then
         raise (Exn BitwardenCLIError (py "Invalid master password"))
       else
         raise (Exn BitwardenCLIError
                  (py "Failed to unlock vault: " ++ stderr result))
     else
       let session_key := strip (stdout result) in
       if bool_decide (session_key = []) then
         raise (Exn BitwardenCLIError (py "Unlock returned empty session key"))
       else ret session_key)
    (fun e => raise (Exn BitwardenCLIError (py "Vault unlock timed out"))).

Definition class_text (v : pyval) : pystr :=
  py "<class '" ++ type_name v ++ py "'>".

Definition list_items (self : BitwardenCLI) (search session_key : pyval)
    : Py Host (list pyval) :=
  try_except
    (fun e => is_CalledProcessError e || is_TimeoutExpired e || is_JSONDecodeError e)
    (let* result :=
       subprocess_run [PStr (cli_path self); PStr (py "list"); PStr (py "items");
                       PStr (py "--search"); search;
                       PStr (py "--session"); session_key] true in
     let* items := lift (json_loads (stdout result)) in
     match items with
     | PList l => ret l
     | _ =>
         raise (Exn BitwardenCLIError
                  (py "Expected list from CLI, got " ++ class_text items))
     end)
    (fun e =>
       match exn_cls e with
       | CalledProcessError err =>
           raise (Exn BitwardenCLIError (py "Failed to list items: " ++ err))
       | TimeoutExpired =>
           raise (Exn BitwardenCLIError (py "Item search timed out"))
       | _ =>
           raise (Exn BitwardenCLIError
                    (py "Failed to parse CLI output: " ++ exn_str e))
       end).

Definition lock (self : BitwardenCLI) : Py Host unit :=
  try_except (fun e => is_CalledProcessError e || is_TimeoutExpired e)
    (let* result := subprocess_run [PStr (cli_path self); PStr (py "lock")] true in
     ret tt)
    (fun e =>
       match exn_cls e with
       | CalledProcessError err =>
           raise (Exn BitwardenCLIError (py "Failed to lock vault: " ++ err))
       | _ => raise (Exn BitwardenCLIError (py "Vault lock timed out"))
       end).

Definition status (self : BitwardenCLI) : Py Host pyval :=
  try_except any_Exception
    (let* result := subprocess_run [PStr (cli_path self); PStr (py "status")] true in
     lift (json_loads (stdout result)))
    (fun e =>
       raise (Exn BitwardenCLIError (py "Failed to get status: " ++ exn_str e))).

End WithLibs.
End bitwarden_cli.

(* ===================================================================== *)
(** * src/server/pairing_manager.py                                       *)
(* ===================================================================== *)

Module PairingState.

Record t := {
  agent_id : pystr;
  agent_name : pystr;
  pairing_code : pystr;
  created_at : Z;
  expires_at : Z;
  agent_pake_message : option bytes;
  user_entered : bool;
  bitwarden_session_token : option pystr
}.

Definition set_agent_pake_message (v : option bytes) (p : t) : t :=
  {| agent_id := agent_id p; agent_name := agent_name p;
     pairing_code := pairing_code p; created_at := created_at p;
     expires_at := expires_at p; agent_pake_message := v;
     user_entered := user_entered p;
     bitwarden_session_token := bitwarden_session_token p |}.
Definition set_user_entered (v : bool) (p : t) : t :=
  {| agent_id := agent_id p; agent_name := agent_name p;
     pairing_code := pairing_code p; created_at := created_at p;
     expires_at := expires_at p; agent_pake_message := agent_pake_message p;
     user_entered := v;
     bitwarden_session_token := bitwarden_session_token p |}.
Definition set_bitwarden_session_token (v : option pystr) (p : t) : t :=
  {| agent_id := agent_id p; agent_name := agent_name p;
     pairing_code := pairing_code p; created_at := created_at p;
     expires_at := expires_at p; agent_pake_message := agent_pake_message p;
     user_entered := user_entered p;
     bitwarden_session_token := v |}.

End PairingState.

Module Session.
Section WithLibs.
Context `{L : Libs}.

Record t := {
  session_id : pystr;
  agent_id : pystr;
  agent_name : pystr;
  pake_handler : pake_handler.PAKEHandler;
  bitwarden_session_token : option pystr;
  created_at : Z;
  last_access : Z;
  expires_at : Z
}.

Definition set_last_access (v : Z) (s : t) : t :=
  {| session_id := session_id s; agent_id := agent_id s;
     agent_name := agent_name s; pake_handler := pake_handler s;
     bitwarden_session_token := bitwarden_session_token s;
     created_at := created_at s; last_access := v;
     expires_at := expires_at s |}.

End WithLibs.
End Session.

(** The object registered with [set_callback_handler]. *)
Module callback.
Section WithLibs.
Context `{L : Libs}.

Record handler := {
  on_pairing_created : PairingState.t -> outcome unit;
  handle_credential_request : Session.t -> pyval -> pyval -> outcome pydict
}.

End WithLibs.
End callback.

Module pairing_manager.
Section WithLibs.
Context `{L : Libs}.

Record PairingManager := {
  pending_pairings : gmap pystr PairingState.t;
  active_sessions : gmap pystr Session.t;
  _callback_handler : option callback.handler
}.

(** The manager object together with the process it lives in. *)
Record World := {
  manager : PairingManager;
  os : Host
}.

Definition set_pending_pairings
    (f : gmap pystr PairingState.t -> gmap pystr PairingState.t) (w : World) :=
  {| manager := {| pending_pairings := f (pending_pairings (manager w));
                   active_sessions := active_sessions (manager w);
                   _callback_handler := _callback_handler (manager w) |};
     os := os w |}.
Definition set_active_sessions
    (f : gmap pystr Session.t -> gmap pystr Session.t) (w : World) :=
  {| manager := {| pending_pairings := pending_pairings (manager w);
                   active_sessions := f (active_sessions (manager w));
                   _callback_handler := _callback_handler (manager w) |};
     os := os w |}.

(** A call that only touches the host. *)
Definition on_host {A} (m : Py Host A) : Py World A :=
  fun w => let '(r, h) := m (os w) in (r, {| manager := manager w; os := h |}).

(** A method call on a local object; the object after the call is returned
    with the result. *)
Definition call {O A} (obj : O) (m : Py O A) : Py World (A * O) :=
  fun w => match m obj with
           | (Ret a, obj') => (Ret (a, obj'), w)
           | (Raise e, _) => (Raise e, w)
           end.

Definition error_result (msg : pystr) : pydict :=
  [(py "status", PStr (py "error")); (py "error", PStr msg)].

(** [PairingManager()]. *)
Definition init : PairingManager :=
  {| pending_pairings := ∅; active_sessions := ∅; _callback_handler := None |}.

Definition set_callback_handler (handler : callback.handler) : Py World unit :=
  modify (fun w =>
    {| manager := {| pending_pairings := pending_pairings (manager w);
                     active_sessions := active_sessions (manager w);
                     _callback_handler := Some handler |};
       os := os w |}).

Definition create_pairing (agent_id agent_name : pystr) : Py World (pystr * Z) :=
  let* r := on_host (randbelow 900000) in
  let pairing_code := str_of_int (r + 100000) in
  let* now := on_host utcnow in
  let expires_at := now + minutes 5 in
  let pairing_state :=
    {| PairingState.agent_id := agent_id;
       PairingState.agent_name := agent_name;
       PairingState.pairing_code := pairing_code;
       PairingState.created_at := now;
       PairingState.expires_at := expires_at;
       PairingState.agent_pake_message := None;
       PairingState.user_entered := false;
       PairingState.bitwarden_session_token := None |} in
  modify (set_pending_pairings (insert pairing_code pairing_state)) ;;;
  let* w := get in
  match _callback_handler (manager w) with
  | Some h => lift (callback.on_pairing_created h pairing_state)
  | None => ret tt
  end ;;;
  ret (pairing_code, expires_at).

Definition mark_user_entered_code (pairing_code master_password : pystr)
    : Py World bool :=
  let* w := get in
  match pending_pairings (manager w) !! pairing_code with
  | None => ret false
  | Some pairing =>
      let* now := on_host utcnow in
      if now >? PairingState.expires_at pairing then
        modify (set_pending_pairings (delete pairing_code)) ;;;
        ret false
      else
        try_except any_Exception
          (let* cli := on_host bitwarden_cli.init in
           let* session_token := on_host (bitwarden_cli.unlock cli master_password) in
           modify (set_pending_pairings
                     (insert pairing_code
                        (PairingState.set_user_entered true
                           (PairingState.set_bitwarden_session_token
                              (Some session_token) pairing)))) ;;;
           ret true)
          (fun e => ret false)
  end.

Definition exchange_pake_message (pairing_code msg_in_a : pystr)
    : Py World pydict :=
  let* w := get in
  match pending_pairings (manager w) !! pairing_code with
  | None => ret (error_result (py "Invalid pairing code"))
  | Some pairing0 =>
      let* now := on_host utcnow in
      if now >? PairingState.expires_at pairing0 then
        modify (set_pending_pairings (delete pairing_code)) ;;;
        ret (error_result (py "Pairing code expired"))
      else
        let* msg := lift (b64decode msg_in_a) in
        let pairing := PairingState.set_agent_pake_message (Some msg) pairing0 in
        modify (set_pending_pairings (insert pairing_code pairing)) ;;;
        if negb (PairingState.user_entered pairing) then
          ret [(py "status", PStr (py "waiting"))]
        else
          let* handler0 := lift (pake_handler.init (py "server")) in
          let* seed := on_host urandom in
          let* started := call handler0 (pake_handler.start_exchange seed pairing_code) in
          let '(msg_out_b, handler1) := started in
          let* finished :=
            try_except is_ValueError
              (let* r := call handler1 (pake_handler.finish_exchange msg) in
               ret (inr (snd r)))
              (fun e => ret (inl (error_result (py "PAKE exchange failed")))) in
          match finished with
          | inl result => ret result
          | inr pake_handler =>
              let* token := on_host (token_hex 16) in
              let session_id := py "sess_" ++ token in
              let* now := on_host utcnow in
              let session :=
                {| Session.session_id := session_id;
                   Session.agent_id := PairingState.agent_id pairing;
                   Session.agent_name := PairingState.agent_name pairing;
                   Session.pake_handler := pake_handler;
                   Session.bitwarden_session_token :=
                     PairingState.bitwarden_session_token pairing;
                   Session.created_at := now;
                   Session.last_access := now;
                   Session.expires_at := now + minutes 30 |} in
              modify (set_active_sessions (insert session_id session)) ;;;
              modify (set_pending_pairings (delete pairing_code)) ;;;
              let* pake_message := lift (bytes_decode (b64encode msg_out_b)) in
              ret [(py "status", PStr (py "success"));
                   (py "session_id", PStr session_id);
                   (py "pake_message", PStr pake_message);
                   (py "agent_id", PStr (PairingState.agent_id pairing))]
          end
  end.

(** [next((item for item in items if item.get("type") == 1), None)]. *)
Fixpoint first_login (items : list pyval) : outcome (option pyval) :=
  match items with
  | [] => Ret None
  | item :: rest =>
      match py_get item "type" PNone with
      | Ret ty => if py_eq_int ty 1 then Ret (Some item) else first_login rest
      | Raise e => Raise e
      end
  end.

Definition optional_str (o : option pystr) : pyval :=
  match o with Some s => PStr s | None => PNone end.

(** The body of the [try] that fetches the credential once the human has
    approved. *)
Definition retrieve_credential (session : Session.t) (domain : pyval)
    : Py World pydict :=
  let* cli := on_host bitwarden_cli.init in
  let* items :=
    on_host (bitwarden_cli.list_items cli domain
               (optional_str (Session.bitwarden_session_token session))) in
  let* login_item := lift (first_login items) in
  match login_item with
  | None => ret (error_result (py "No credential found for " ++ fmt domain))
  | Some item =>
      if negb (truthy item) then
        ret (error_result (py "No credential found for " ++ fmt domain))
      else
        let* login := lift (py_get item "login" (PDict [])) in
        let* username := lift (py_get login "username" PNone) in
        let* login' := lift (py_get item "login" (PDict [])) in
        let* password := lift (py_get login' "password" PNone) in
        if negb (truthy username) || negb (truthy password) then
          ret (error_result
                 (py "Incomplete credential (missing username or password)"))
        else
          let* now := on_host utcnow in
          let* nonce := on_host (token_hex 8) in
          let cred_payload :=
            PDict [(py "username", username);
                   (py "password", password);
                   (py "timestamp", PStr (isoformat now ++ py "Z"));
                   (py "nonce", PStr nonce)] in
          let* text := lift (json_dumps cred_payload) in
          let* seed := on_host urandom in
          let* encrypted_cred :=
            lift (fst (pake_handler.encrypt seed text (Session.pake_handler session))) in
          ret [(py "status", PStr (py "approved"));
               (py "encrypted_payload", PStr encrypted_cred)]
  end.

(** [age > 300] for [age = (now - timestamp).total_seconds()]: both values
    are whole microseconds, and the float quotient by [10^6] exceeds [300]
    exactly when the difference exceeds [300 * 10^6]. *)
Definition too_old (now timestamp : Z) : bool :=
  now - timestamp >? 300 * 1000000.

(** The approval block of [handle_credential_request]: ask the registered
    handler, then fetch or refuse. *)
Definition request_approval (session : Session.t) (request_data : pydict)
    : Py World pydict :=
  let* w := get in
  match _callback_handler (manager w) with
  | Some h =>
      let* domain := lift (dict_subscript request_data "domain") in
      let* reason := lift (dict_subscript request_data "reason") in
      let* result :=
        lift (callback.handle_credential_request h session domain reason) in
      let* approved := lift (dict_subscript result "approved") in
      if truthy approved then
        try_except any_Exception
          (retrieve_credential session domain)
          (fun e =>
             ret (error_result (py "Vault access failed: " ++ exn_str e)))
      else
        ret [(py "status", PStr (py "denied"));
             (py "error",
              default (PStr (py "User denied"))
                      (dict_lookup result (py "error")))]
  | None => ret (error_result (py "No approval handler registered"))
  end.

Definition replay_error : pydict :=
  error_result (py "Request too old (possible replay attack)").

(** The part of [handle_credential_request] that follows the decryption:
    replay defense, then approval. *)
Definition process_request (session : Session.t) (request_data : pydict)
    : Py World pydict :=
  let* ts := lift (dict_subscript request_data "timestamp") in
  let* text :=
    match ts with
    | PStr s => ret (rstrip_Z s)
    | _ => raise (no_attribute ts "rstrip")
    end in
  let* timestamp := lift (fromisoformat text) in
  let* now := on_host utcnow in
  let* stamp :=
    match timestamp with
    | Naive us => ret us
    | Aware _ _ =>
        raise (Exn TypeError
                 (py "can't subtract offset-naive and offset-aware datetimes"))
    end in
  if too_old now stamp then ret replay_error
  else request_approval session request_data.

Definition handle_credential_request (session_id encrypted_payload : pystr)
    : Py World pydict :=
  let* w := get in
  match active_sessions (manager w) !! session_id with
  | None => ret (error_result (py "Invalid or expired session"))
  | Some session0 =>
      let* now1 := on_host utcnow in
      let session := Session.set_last_access now1 session0 in
      modify (set_active_sessions (insert session_id session)) ;;;
      let* now2 := on_host utcnow in
      if now2 >? Session.expires_at session then
        modify (set_active_sessions (delete session_id)) ;;;
        ret (error_result (py "Session expired"))
      else
        let* decrypted :=
          try_except any_Exception
            (let* plaintext :=
               lift (fst (pake_handler.decrypt encrypted_payload
                            (Session.pake_handler session))) in
             let* request_data := lift (json_loads plaintext) in
             match request_data with
             | PDict d => ret (inr d)
             | _ => raise (no_attribute request_data "get")
             end)
            (fun e => ret (inl (error_result (py "Decryption failed")))) in
        match decrypted with
        | inl result => ret result
        | inr request_data => process_request session request_data
        end
  end.

Definition get_session_status (self : PairingManager) (session_id : pystr)
    : option pydict :=
  match active_sessions self !! session_id with
  | None => None
  | Some session =>
      Some [(py "active", PBool true);
            (py "agent_name", PStr (Session.agent_name session));
            (py "last_access", PStr (isoformat (Session.last_access session) ++ py "Z"));
            (py "expires_at", PStr (isoformat (Session.expires_at session) ++ py "Z"))]
  end.

Definition active_session_count (self : PairingManager) : nat :=
  size (active_sessions self).

Definition revoke_session (session_id : pystr) : Py World unit :=
  let* w := get in
  match active_sessions (manager w) !! session_id with
  | None => ret tt
  | Some session =>
      try_except any_Exception
        (let* cli := on_host bitwarden_cli.init in
         on_host (bitwarden_cli.lock cli))
        (fun e => ret tt) ;;;
      modify (set_active_sessions (delete session_id))
  end.

(** [for x in xs: body(x)]. *)
Fixpoint for_each {S A} (xs : list A) (body : A -> Py S unit) : Py S unit :=
  match xs with
  | [] => ret tt
  | x :: rest => body x ;;; for_each rest body
  end.

(** [[k for k, v in table.items() if test(v)]].  The source walks the dict
    in insertion order, which the table does not record; the keys come here
    in the order of [map_to_list]. *)
Definition keys_where {V} (test : V -> bool) (table : gmap pystr V) : list pystr :=
  map fst (List.filter (fun kv => test (snd kv)) (map_to_list table)).

Definition cleanup_expired : Py World unit :=
  let* now := on_host utcnow in
  let* w := get in
  let expired_pairings :=
    keys_where (fun pairing => now >? PairingState.expires_at pairing)
               (pending_pairings (manager w)) in
  for_each expired_pairings
    (fun code => modify (set_pending_pairings (delete code))) ;;;
  let* w := get in
  let expired_sessions :=
    keys_where (fun session => now >? Session.expires_at session)
               (active_sessions (manager w)) in
  for_each expired_sessions revoke_session.

End WithLibs.
End pairing_manager.

(* ===================================================================== *)
(** * src/utils/credential_handler.py                                     *)
(* ===================================================================== *)

Module credential_handler.

(** A [SecureCredential] object.  An attribute that [del] has removed is
    [None]. *)
Record SecureCredential := {
  _username : option pystr;
  _password : option pystr;
  _cleared : bool
}.

(** [SecureCredential(username, password)]. *)
Definition init (username password : pystr) : SecureCredential :=
  {| _username := Some username; _password := Some password; _cleared := false |}.

(** Reading [self.<name>]. *)
Definition attribute (name : string) (v : option pystr) : outcome pystr :=
  match v with
  | Some s => Ret s
  | None =>
      Raise (Exn AttributeError
               (py "'SecureCredential' object has no attribute '" ++ py name ++ py "'"))
  end.

Definition username (self : SecureCredential) : outcome pystr :=
  if _cleared self then Raise (Exn ValueError (py "Credential has been cleared"))
  else attribute "_username" (_username self).

Definition password (self : SecureCredential) : outcome pystr :=
  if _cleared self then Raise (Exn ValueError (py "Credential has been cleared"))
  else attribute "_password" (_password self).

(** ["X" * len(s)]. *)
Definition overwritten (s : pystr) : pystr := repeat 88 (length s).

Definition set_username (v : option pystr) (self : SecureCredential) :=
  {| _username := v; _password := _password self; _cleared := _cleared self |}.
Definition set_password (v : option pystr) (self : SecureCredential) :=
  {| _username := _username self; _password := v; _cleared := _cleared self |}.
Definition set_cleared (v : bool) (self : SecureCredential) :=
  {| _username := _username self; _password := _password self; _cleared := v |}.

Definition clear : Py SecureCredential unit :=
  let* self := get in
  if _cleared self then ret tt
  else
    let* u := lift (attribute "_username" (_username self)) in
    (if negb (bool_decide (u = [])) then
       modify (set_username (Some (overwritten u)))
     else ret tt) ;;;
    let* self := get in
    let* p := lift (attribute "_password" (_password self)) in
    (if negb (bool_decide (p = [])) then
       modify (set_password (Some (overwritten p)))
     else ret tt) ;;;
    modify (set_cleared true) ;;;
    let* self := get in
    lift (attribute "_username" (_username self)) ;;;
    modify (set_username None) ;;;
    let* self := get in
    lift (attribute "_password" (_password self)) ;;;
    modify (set_password None).

(** [__exit__]: clears, and returns [False] so that an exception of the
    [with] body is not suppressed. *)
Definition __exit__ : Py SecureCredential bool :=
  clear ;;; ret false.

(** [__del__]: [try: self.clear()  except: pass]. *)
Definition __del__ : Py SecureCredential unit :=
  try_except (fun _ => true) clear (fun _ => ret tt).

Definition __repr__ (self : SecureCredential) : pystr :=
  py "SecureCredential(status=" ++
  (if _cleared self then py "cleared" else py "active") ++ py ")".

Definition __str__ (self : SecureCredential) : pystr := __repr__ self.

End credential_handler.

(* ===================================================================== *)
(** * src/server/approval_server.py                                       *)
(* ===================================================================== *)

(** The routes, from the point where Flask has parsed the request: a route
    takes what [request.get_json()] (or [request.args.get]) returned and
    gives the object passed to [jsonify] with the HTTP status.  The
    module-level [pairing_manager] is the manager of the world. *)
Module approval_server.
Import pairing_manager.
Section WithLibs.
Context `{L : Libs}.

Definition response : Type := pyval * Z.

Definition error_response (msg : pystr) (status : Z) : response :=
  (PDict [(py "error", PStr msg)], status).

(** A value of any JSON type used as a key of a dict whose keys are [str]
    ([k in d], [d.get(k)]): a list or a dict is unhashable, and any other
    value that is not a [str] is equal to no key. *)
Definition str_key (k : pyval) : outcome (option pystr) :=
  match k with
  | PStr s => Ret (Some s)
  | PList _ => Raise (Exn TypeError (py "unhashable type: 'list'"))
  | PDict _ => Raise (Exn TypeError (py "unhashable type: 'dict'"))
  | _ => Ret None
  end.

Definition health : Py World response :=
  let* w := get in
  ret (PDict [(py "status", PStr (py "ok"));
              (py "active_sessions",
               PInt (Z.of_nat (active_session_count (manager w))))], 200).

(** [pairing_manager.revoke_session(session_id)] for a [session_id] of any
    JSON type. *)
Definition revoke_session_of (session_id : pyval) : Py World unit :=
  let* key := lift (str_key session_id) in
  match key with
  | Some s => revoke_session s
  | None => ret tt
  end.

Definition session_revoke (data : pyval) : Py World response :=
  if negb (truthy data) then ret (error_response (py "Missing request body") 400)
  else
    let* session_id := lift (py_get data "session_id" PNone) in
    if negb (truthy session_id) then
      ret (error_response (py "Missing session_id") 400)
    else
      revoke_session_of session_id ;;;
      ret (PDict [(py "revoked", PBool true); (py "session_id", session_id)], 200).

(** [session_id] is [request.args.get('session_id')]: a [str] or [None]. *)
Definition session_status (session_id : option pystr) : Py World response :=
  if negb (truthy (optional_str session_id)) then
    ret (error_response (py "Missing session_id parameter") 400)
  else
    let* w := get in
    match get_session_status (manager w) (default [] session_id) with
    | None => ret (error_response (py "Session not found") 404)
    | Some status =>
        if negb (truthy (PDict status)) then
          ret (error_response (py "Session not found") 404)
        else ret (PDict status, 200)
    end.

(** [pairing_manager.exchange_pake_message(pairing_code, msg_in_a)] for
    arguments of any JSON type.  A message that is not a [str] makes
    [base64.b64decode] raise [TypeError] once the pairing has been found
    unexpired; nothing has been stored by then. *)
Definition exchange_pake_message_of (pairing_code msg_in_a : pyval)
    : Py World pydict :=
  let* key := lift (str_key pairing_code) in
  match key with
  | None => ret (error_result (py "Invalid pairing code"))
  | Some code =>
      match msg_in_a with
      | PStr msg => exchange_pake_message code msg
      | _ =>
          let* w := get in
          match pending_pairings (manager w) !! code with
          | None => ret (error_result (py "Invalid pairing code"))
          | Some pairing =>
              let* now := on_host utcnow in
              if now >? PairingState.expires_at pairing then
                modify (set_pending_pairings (delete code)) ;;;
                ret (error_result (py "Pairing code expired"))
              else
                raise (Exn TypeError
                         (py "argument should be a bytes-like object or ASCII string, not '"
                          ++ type_name msg_in_a ++ py "'"))
          end
      end
  end.

Definition pairing_exchange (data : pyval) : Py World response :=
  if negb (truthy data) then ret (error_response (py "Missing request body") 400)
  else
    let* pairing_code := lift (py_get data "pairing_code" PNone) in
    let* msg_in_a := lift (py_get data "pake_message" PNone) in
    if negb (truthy pairing_code) || negb (truthy msg_in_a) then
      ret (error_response (py "Missing pairing_code or pake_message") 400)
    else
      let* result := exchange_pake_message_of pairing_code msg_in_a in
      let* status := lift (dict_subscript result "status") in
      if py_eq_str status (py "waiting") then
        ret (PDict [(py "status", PStr (py "waiting"))], 202)
      else
        let* status := lift (dict_subscript result "status") in
        if py_eq_str status (py "success") then
          let* session_id := lift (dict_subscript result "session_id") in
          let* pake_message := lift (dict_subscript result "pake_message") in
          let* agent_id := lift (dict_subscript result "agent_id") in
          ret (PDict [(py "session_id", session_id);
                      (py "pake_message", pake_message);
                      (py "agent_id", agent_id)], 200)
        else
          let* error := lift (dict_subscript result "error") in
          ret (PDict [(py "error", error)], 400).

(** [pairing_manager.handle_credential_request(session_id, encrypted_payload)]
    for arguments of any JSON type.  On a payload that is not a [str],
    [decrypt] raises inside the manager's [try] (the handler is not ready,
    or [base64.b64decode] refuses the argument), which the manager answers
    as a failed decryption. *)
Definition handle_credential_request_of (session_id encrypted_payload : pyval)
    : Py World pydict :=
  let* key := lift (str_key session_id) in
  match key with
  | None => ret (error_result (py "Invalid or expired session"))
  | Some sid =>
      match encrypted_payload with
      | PStr payload => handle_credential_request sid payload
      | _ =>
          let* w := get in
          match active_sessions (manager w) !! sid with
          | None => ret (error_result (py "Invalid or expired session"))
          | Some session0 =>
              let* now1 := on_host utcnow in
              let session := Session.set_last_access now1 session0 in
              modify (set_active_sessions (insert sid session)) ;;;
              let* now2 := on_host utcnow in
              if now2 >? Session.expires_at session then
                modify (set_active_sessions (delete sid)) ;;;
                ret (error_result (py "Session expired"))
              else ret (error_result (py "Decryption failed"))
          end
      end
  end.

Definition credential_request (data : pyval) : Py World response :=
  if negb (truthy data) then ret (error_response (py "Missing request body") 400)
  else
    let* session_id := lift (py_get data "session_id" PNone) in
    let* encrypted_payload := lift (py_get data "encrypted_payload" PNone) in
    if negb (truthy session_id) || negb (truthy encrypted_payload) then
      ret (error_response (py "Missing session_id or encrypted_payload") 400)
    else
      let* result := handle_credential_request_of session_id encrypted_payload in
      let* status := lift (dict_subscript result "status") in
      ret (PDict result, 200).

End WithLibs.
End approval_server.

(* ===================================================================== *)
(** * Vocabulary of the theorems                                          *)
(* ===================================================================== *)

Module statements.
Import pairing_manager.
Section WithLibs.
Context `{L : Libs}.

(** [BitwardenCLI().unlock(master_password)], the two calls
    [mark_user_entered_code] makes on the vault driver. *)
Definition unlock_vault (master_password : pystr) : Py Host pystr :=
  let* cli := bitwarden_cli.init in
  bitwarden_cli.unlock cli master_password.

(** The world once [handle_credential_request] has found [session] under
    [sid], stamped [last_access] and read the clock for the expiry check. *)
Definition touched (w : World) (sid : pystr) (session : Session.t) : World :=
  {| manager :=
       {| pending_pairings := pending_pairings (manager w);
          active_sessions :=
            <[sid := Session.set_last_access (reading (os w) 0) session]>
              (active_sessions (manager w));
          _callback_handler := _callback_handler (manager w) |};
     os := tick (tick (os w)) |}.

(** The pairing [create_pairing] builds in world [w]. *)
Definition new_pairing (w : World) (agent_id agent_name : pystr) : PairingState.t :=
  {| PairingState.agent_id := agent_id;
     PairingState.agent_name := agent_name;
     PairingState.pairing_code :=
       str_of_int (entropy (os w) (draws (os w)) mod 900000 + 100000);
     PairingState.created_at := reading (os w) 0;
     PairingState.expires_at := reading (os w) 0 + minutes 5;
     PairingState.agent_pake_message := None;
     PairingState.user_entered := false;
     PairingState.bitwarden_session_token := None |}.

(** The session [exchange_pake_message] builds from [pairing]. *)
Definition promoted (pairing : PairingState.t) (sid : pystr)
    (handler : pake_handler.PAKEHandler) (now : Z) : Session.t :=
  {| Session.session_id := sid;
     Session.agent_id := PairingState.agent_id pairing;
     Session.agent_name := PairingState.agent_name pairing;
     Session.pake_handler := handler;
     Session.bitwarden_session_token := PairingState.bitwarden_session_token pairing;
     Session.created_at := now;
     Session.last_access := now;
     Session.expires_at := now + minutes 30 |}.

(** [secrets.token_hex(16)] in host state [h]. *)
Definition session_token (h : Host) : pystr :=
  hexlify (map (fun i => byte_of_Z (entropy h (draws h + i)%nat mod 256)) (seq 0 16)).

Definition waiting : pydict := [(py "status", PStr (py "waiting"))].

Definition is_dict (v : pyval) : bool :=
  match v with PDict _ => true | _ => false end.

End WithLibs.
End statements.

(** Vocabulary for the approval path and for revocation. *)
Module approvals.
Import pairing_manager statements.
Section WithLibs.
Context `{L : Libs}.

(** The world in which [handle_credential_request] turns to the approver:
    [touched], with the clock read once more for the replay check. *)
Definition asked (w : World) (sid : pystr) (session : Session.t) : World :=
  {| manager := manager (touched w sid session);
     os := tick (os (touched w sid session)) |}.

(** The session as the approver and the vault see it. *)
Definition stamped (w : World) (session : Session.t) : Session.t :=
  Session.set_last_access (reading (os w) 0) session.

(** [BitwardenCLI().list_items(domain, session.bitwarden_session_token)],
    the two calls on the vault driver after an approval. *)
Definition fetch_items (session : Session.t) (domain : pyval)
    : Py Host (list pyval) :=
  let* cli := bitwarden_cli.init in
  bitwarden_cli.list_items cli domain
    (optional_str (Session.bitwarden_session_token session)).

(** What [retrieve_credential] does with the items the vault returned. *)
Definition pick_credential (session : Session.t) (domain : pyval)
    (items : list pyval) : Py World pydict :=
  let* login_item := lift (first_login items) in
  match login_item with
  | None => ret (error_result (py "No credential found for " ++ fmt domain))
  | Some item =>
      if negb (truthy item) then
        ret (error_result (py "No credential found for " ++ fmt domain))
      else
        let* login := lift (py_get item "login" (PDict [])) in
        let* username := lift (py_get login "username" PNone) in
        let* login' := lift (py_get item "login" (PDict [])) in
        let* password := lift (py_get login' "password" PNone) in
        if negb (truthy username) || negb (truthy password) then
          ret (error_result
                 (py "Incomplete credential (missing username or password)"))
        else
          let* now := on_host utcnow in
          let* nonce := on_host (token_hex 8) in
          let cred_payload :=
            PDict [(py "username", username);
                   (py "password", password);
                   (py "timestamp", PStr (isoformat now ++ py "Z"));
                   (py "nonce", PStr nonce)] in
          let* text := lift (json_dumps cred_payload) in
          let* seed := on_host urandom in
          let* encrypted_cred :=
            lift (fst (pake_handler.encrypt seed text (Session.pake_handler session))) in
          ret [(py "status", PStr (py "approved"));
               (py "encrypted_payload", PStr encrypted_cred)]
  end.

(** [BitwardenCLI().lock()], the two calls [revoke_session] makes. *)
Definition lock_vault : Py Host unit :=
  let* cli := bitwarden_cli.init in
  bitwarden_cli.lock cli.

(** Two host states that differ at most in the child processes run. *)
Definition same_but_invocations (h h' : Host) : Prop :=
  clock h' = clock h /\ ticks h' = ticks h /\ entropy h' = entropy h /\
  draws h' = draws h /\ processes h' = processes h.

(** A computation that leaves the clock and the randomness alone. *)
Definition runs_processes_only {A} (c : Py Host A) : Prop :=
  forall h, same_but_invocations h (snd (c h)).

End WithLibs.
End approvals.

(* ===================================================================== *)
(** * What the theorems assume of the libraries                           *)
(* ===================================================================== *)

(** The three library facts used below: base64 text is ASCII, standard
    base64 decoding inverts encoding, and a Fernet token decrypts, under the
    key that made it, to the message it was made from. *)
Class LibLaws (L : Libs) : Prop := {
  b64encode_ascii : forall b : bytes,
    Forall (fun c => Z_of_byte c < 128) (b64encode b);
  b64decode_b64encode : forall b : bytes,
    b64decode (map Z_of_byte (b64encode b)) = Ret b;
  fernet_decrypt_encrypt : forall (f : fernet) (seed : Z) (m : bytes),
    fernet_decrypt f (fernet_encrypt f seed m) = Ret m
}.

(* ===================================================================== *)
(** * A small executable instance of the libraries                       *)
(* ===================================================================== *)

(** The theorems hold for every instance of [Libs]; this one is there to run
    the model on concrete inputs.  Binary-to-text encoding is base 16, the
    key agreement is a toy exchange of one number with the side checks of
    SPAKE2, the cipher prefixes a version byte, a nonce and a key check, and
    [json.loads] and [fromisoformat] are given by the table of the texts an
    example uses. *)
Module standin.

Definition hex_value (c : Z) : option Z :=
  if (48 <=? c) && (c <=? 57) then Some (c - 48)
  else if (97 <=? c) && (c <=? 102) then Some (c - 87)
  else None.

Fixpoint unhexlify (s : pystr) : option bytes :=
  match s with
  | [] => Some []
  | hi :: lo :: r =>
      match hex_value hi, hex_value lo, unhexlify r with
      | Some h, Some l, Some b => Some (byte_of_Z (16 * h + l) :: b)
      | _, _, _ => None
      end
  | _ => None
  end.

Definition b16encode (b : bytes) : bytes := map byte_of_Z (hexlify b).

Definition b16decode (s : pystr) : outcome bytes :=
  match unhexlify s with
  | Some b => Ret b
  | None => Raise (Exn binascii_Error (py "Incorrect padding"))
  end.

Definition sum_bytes (b : bytes) : Z := fold_right (fun x acc => Z_of_byte x + acc) 0 b.

Record spake := {
  side : Z;
  password : bytes;
  secret : Z;
  started : bool;
  finished : bool
}.

Definition side_A : Z := 65.
Definition side_B : Z := 66.

Definition new_spake (s : Z) (pw : bytes) : spake :=
  {| side := s; password := pw; secret := 0; started := false; finished := false |}.

Definition start (seed : Z) : Py spake bytes :=
  fun i =>
    if started i then
      (Raise (Exn (LibraryError (py "OnlyCallStartOnce"))
                  (py "start() can only be called once")), i)
    else
      (Ret [byte_of_Z (side i); byte_of_Z (seed mod 256)],
       {| side := side i; password := password i; secret := seed mod 256;
          started := true; finished := finished i |}).

Definition finish (msg : bytes) : Py spake bytes :=
  fun i =>
    if finished i then
      (Raise (Exn (LibraryError (py "OnlyCallFinishOnce"))
                  (py "finish() can only be called once")), i)
    else
      let i' := {| side := side i; password := password i; secret := secret i;
                   started := started i; finished := true |} in
      match msg with
      | [] =>
          (Raise (Exn (LibraryError (py "OffSides"))
                      (py "I don't know what side they're on")), i')
      | s :: body =>
          if negb ((Z_of_byte s =? side_A) || (Z_of_byte s =? side_B)) then
            (Raise (Exn (LibraryError (py "OffSides"))
                        (py "I don't know what side they're on")), i')
          else if Z_of_byte s =? side i then
            (Raise (Exn (LibraryError (py "OffSides"))
                        (if side i =? side_A
                         then py "I'm A, but I got a message from A (not B)."
                         else py "I'm B, but I got a message from B (not A).")), i')
          else
            match body with
            | [x] =>
                (Ret (replicate 32
                        (byte_of_Z ((sum_bytes (password i) + secret i + Z_of_byte x)
                                    mod 256))), i')
            | _ =>
                (Raise (Exn ValueError (py "element has the wrong length")), i')
            end
      end.

Definition new_fernet (key : bytes) : outcome bytes :=
  if (length key =? 64)%nat then Ret key
  else Raise (Exn ValueError
                (py "Fernet key must be 32 url-safe base64-encoded bytes.")).

Definition key_check (key : bytes) : byte := byte_of_Z (sum_bytes key mod 256).

Definition seal (key : bytes) (seed : Z) (m : bytes) : bytes :=
  Byte.x80 :: byte_of_Z (seed mod 256) :: key_check key :: m.

Definition unseal (key : bytes) (token : bytes) : outcome bytes :=
  match token with
  | v :: _ :: k :: m =>
      if (Z_of_byte v =? 128) && (Z_of_byte k =? Z_of_byte (key_check key))
      then Ret m
      else Raise (Exn (LibraryError (py "InvalidToken")) [])
  | _ => Raise (Exn (LibraryError (py "InvalidToken")) [])
  end.

Definition lookup_text {A} (what : exn) (table : list (pystr * A)) (s : pystr)
    : outcome A :=
  match find (fun kv => bool_decide (fst kv = s)) table with
  | Some kv => Ret (snd kv)
  | None => Raise what
  end.

Definition libs (json_table : list (pystr * pyval))
    (iso_table : list (pystr * datetime)) : Libs :=
  {| spake2 := spake;
     SPAKE2_A := new_spake side_A;
     SPAKE2_B := new_spake side_B;
     spake2_start := start;
     spake2_finish := finish;
     fernet := bytes;
     Fernet := new_fernet;
     fernet_encrypt := seal;
     fernet_decrypt := unseal;
     b64encode := b16encode;
     urlsafe_b64encode := b16encode;
     b64decode := b16decode;
     json_loads :=
       lookup_text (Exn JSONDecodeError (py "Expecting value")) json_table;
     json_dumps := fun _ => Ret (py "{}");
     fromisoformat :=
       lookup_text (Exn ValueError (py "Invalid isoformat string")) iso_table;
     isoformat := str_of_int;
     repr := fun _ => py "<value>";
     encode_error_text := fun _ => py "surrogates not allowed";
     decode_error_text := fun _ => py "invalid start byte";
     called_process_error_text := fun _ _ => py "non-zero exit status" |}.

End standin.

(* ===================================================================== *)
(** * Concrete runs                                                       *)
(* ===================================================================== *)

Module examples.
Import pairing_manager.

(** The text of a flat JSON object with string values, as [json.dumps]
    writes it, and the value [json.loads] gives back for it. *)
Definition quoted (s : string) : pystr := [34] ++ py s ++ [34].

Fixpoint members_text (fields : list (string * string)) : pystr :=
  match fields with
  | [] => []
  | [(k, v)] => quoted k ++ py ": " ++ quoted v
  | (k, v) :: rest => quoted k ++ py ": " ++ quoted v ++ py ", " ++ members_text rest
  end.

Definition object_text (fields : list (string * string)) : pystr :=
  py "{" ++ members_text fields ++ py "}".

Definition object_value (fields : list (string * string)) : pyval :=
  PDict (map (fun kv => (py (fst kv), PStr (py (snd kv)))) fields).

(** Requests stamped ten minutes after, ten minutes before and at
    2026-01-01T00:00:00, and a request without a timestamp. *)
Definition request (stamp : string) : list (string * string) :=
  [("domain", "example.com"); ("reason", "login"); ("agent_id", "a1");
   ("agent_name", "A1"); ("timestamp", stamp); ("nonce", "00112233aabbccdd")]%string.

Definition future_request := request "2026-01-01T00:10:00Z".
Definition old_request := request "2025-12-31T23:50:00Z".
Definition fresh_request := request "2026-01-01T00:00:00Z".
Definition unstamped_request : list (string * string) :=
  [("domain", "example.com"); ("reason", "login"); ("agent_id", "a1");
   ("agent_name", "A1"); ("nonce", "00112233aabbccdd")]%string.

Definition epoch_2026 : Z := 1767225600 * 1000000.

#[export] Instance libs : Libs :=
  standin.libs
    (map (fun o => (object_text o, object_value o))
         [future_request; old_request; fresh_request; unstamped_request;
          [("status", "locked")]%string])
    [(py "2026-01-01T00:10:00", Naive (epoch_2026 + minutes 10));
     (py "2025-12-31T23:50:00", Naive (epoch_2026 - minutes 10));
     (py "2026-01-01T00:00:00", Naive epoch_2026);
     (py "2026-01-01T00:00:00+00:00", Aware epoch_2026 0)].

(** A run of the key exchange on the pairing code 123456: the agent starts,
    the server starts, each finishes on the other's message. *)
Definition code : pystr := py "123456".

Definition client_started :=
  pake_handler.start_exchange 11 code (pake_handler.fresh (py "client")).
Definition server_started :=
  pake_handler.start_exchange 22 code (pake_handler.fresh (py "server")).

Definition message_of (r : outcome bytes * pake_handler.PAKEHandler) : bytes :=
  match fst r with Ret m => m | Raise _ => [] end.

Definition client : pake_handler.PAKEHandler :=
  snd (pake_handler.finish_exchange (message_of server_started) (snd client_started)).
Definition server : pake_handler.PAKEHandler :=
  snd (pake_handler.finish_exchange (message_of client_started) (snd server_started)).

(** The two sides of a pairing on the code 100000: the agent's first
    message as it travels (base64 text), and the responder the server builds
    with the host's first draw of randomness. *)
Definition agent_started :=
  pake_handler.start_exchange 11 (py "100000") (pake_handler.fresh (py "client")).
Definition agent_message : pystr :=
  map Z_of_byte (b64encode (message_of agent_started)).
Definition responder_started :=
  pake_handler.start_exchange 0 (py "100000") (pake_handler.fresh (py "server")).
Definition responder : pake_handler.PAKEHandler :=
  snd (pake_handler.finish_exchange (message_of agent_started) (snd responder_started)).

(** What the agent sends for a request. *)
Definition payload_of (fields : list (string * string)) : pystr :=
  match fst (pake_handler.encrypt 5 (object_text fields) client) with
  | Ret c => c
  | Raise _ => []
  end.

(** A host whose clock starts at 2026-01-01T00:00:00 and advances by one
    microsecond a reading, and on which no [bw] executable is found. *)
Definition quiet_host : Host :=
  {| clock := fun i => epoch_2026 + Z.of_nat i;
     ticks := 0;
     entropy := fun _ => 0;
     draws := 0;
     processes := fun _ _ => Raise (Exn FileNotFoundError (py "No such file or directory: 'bw'"));
     invocations := [] |}.

(** A host on which [bw] is installed and logged in, and [bw unlock] exits
    with status 1 and "Invalid master password." on its error stream. *)
Definition locked_host : Host :=
  {| clock := fun i => epoch_2026 + Z.of_nat i;
     ticks := 0;
     entropy := fun _ => 0;
     draws := 0;
     processes := fun _ args =>
       match args with
       | [_; PStr verb] =>
           if bool_decide (verb = py "--version")
           then Ret {| returncode := 0; stdout := py "2024.1.0"; stderr := [] |}
           else Ret {| returncode := 0;
                       stdout := object_text [("status", "locked")]%string;
                       stderr := [] |}
       | _ => Ret {| returncode := 1; stdout := [];
                     stderr := py "Invalid master password." |}
       end;
     invocations := [] |}.

Definition sid : pystr := py "sess_00000000000000000000000000000000".

Definition session (expires : Z) : Session.t :=
  {| Session.session_id := sid;
     Session.agent_id := py "a1";
     Session.agent_name := py "A1";
     Session.pake_handler := server;
     Session.bitwarden_session_token := Some (py "T");
     Session.created_at := epoch_2026 - minutes 1;
     Session.last_access := epoch_2026 - minutes 1;
     Session.expires_at := expires |}.

(** The approver's handler when the human answers no. *)
Definition denying : callback.handler :=
  {| callback.on_pairing_created := fun _ => Ret tt;
     callback.handle_credential_request :=
       fun _ _ _ => Ret [(py "approved", PBool false)] |}.

Definition world (expires : Z) (handler : option callback.handler) : World :=
  {| manager := {| pending_pairings := ∅;
                   active_sessions := {[ sid := session expires ]};
                   _callback_handler := handler |};
     os := quiet_host |}.

(** A live session (29 minutes left) and one that expired a minute ago. *)
Definition live (handler : option callback.handler) : World :=
  world (epoch_2026 + minutes 29) handler.
Definition expired : World := world (epoch_2026 - minutes 1) None.

Definition pairing (entered : bool) (token : option pystr) : PairingState.t :=
  {| PairingState.agent_id := py "a1";
     PairingState.agent_name := py "A1";
     PairingState.pairing_code := py "100000";
     PairingState.created_at := epoch_2026 - minutes 1;
     PairingState.expires_at := epoch_2026 + minutes 4;
     PairingState.agent_pake_message := None;
     PairingState.user_entered := entered;
     PairingState.bitwarden_session_token := token |}.

(** A manager with one pending pairing, on code 100000. *)
Definition pending (entered : bool) (token : option pystr) (h : Host) : World :=
  {| manager := {| pending_pairings := {[ py "100000" := pairing entered token ]};
                   active_sessions := ∅;
                   _callback_handler := None |};
     os := h |}.

End examples.

(** Runs that reach the vault: hosts on which [bw] answers, the JSON texts
    it prints, and an approver who says yes. *)
Module scenarios.
Import pairing_manager.

(** JSON texts, written as [json.dumps] writes them. *)
Fixpoint joined (sep : pystr) (parts : list pystr) : pystr :=
  match parts with
  | [] => []
  | [x] => x
  | x :: rest => x ++ sep ++ joined sep rest
  end.

Definition member (key : string) (value : pystr) : pystr :=
  examples.quoted key ++ py ": " ++ value.
Definition object (members : list pystr) : pystr :=
  py "{" ++ joined (py ", ") members ++ py "}".
Definition array (elements : list pystr) : pystr :=
  py "[" ++ joined (py ", ") elements ++ py "]".

(** A secure note, a login with both fields, a login without a password. *)
Definition note_text : pystr :=
  object [member "type" (py "2"); member "name" (examples.quoted "note")].
Definition note : pyval :=
  PDict [(py "type", PInt 2); (py "name", PStr (py "note"))].

Definition login_text : pystr :=
  object [member "type" (py "1");
          member "login" (object [member "username" (examples.quoted "alice");
                                  member "password" (examples.quoted "s3cret")])].
Definition login : pyval :=
  PDict [(py "type", PInt 1);
         (py "login", PDict [(py "username", PStr (py "alice"));
                             (py "password", PStr (py "s3cret"))])].

Definition partial_text : pystr :=
  object [member "type" (py "1");
          member "login" (object [member "username" (examples.quoted "alice");
                                  member "password" (py "null")])].
Definition partial : pyval :=
  PDict [(py "type", PInt 1);
         (py "login", PDict [(py "username", PStr (py "alice"));
                             (py "password", PNone)])].

Definition status_text : pystr := examples.object_text [("status", "locked")]%string.

#[export] Instance libs : Libs :=
  standin.libs
    [(examples.object_text examples.fresh_request,
      examples.object_value examples.fresh_request);
     (status_text, examples.object_value [("status", "locked")]%string);
     (array [note_text; login_text], PList [note; login]);
     (array [note_text], PList [note]);
     (array [note_text; partial_text], PList [note; partial])]
    [(py "2026-01-01T00:00:00", Naive examples.epoch_2026)].

(** A host on which [bw] is installed and logged in.  [bw unlock] prints a
    session key, with white space around it, for the master password
    "hunter2" and fails for any other; [bw list items] prints [listing];
    [bw lock] succeeds. *)
Definition vault_host (listing : pystr) : Host :=
  {| clock := fun i => examples.epoch_2026 + Z.of_nat i;
     ticks := 0;
     entropy := fun _ => 0;
     draws := 0;
     processes := fun _ args =>
       match args with
       | [_; PStr verb] =>
           if bool_decide (verb = py "--version")
           then Ret {| returncode := 0; stdout := py "2024.1.0"; stderr := [] |}
           else if bool_decide (verb = py "status")
           then Ret {| returncode := 0; stdout := status_text; stderr := [] |}
           else Ret {| returncode := 0; stdout := py "Your vault is locked.";
                       stderr := [] |}
       | [_; PStr verb; PStr pw; _] =>
           if bool_decide (pw = py "hunter2")
           then Ret {| returncode := 0; stdout := [32; 32] ++ py "TOKEN" ++ [10];
                       stderr := [] |}
           else Ret {| returncode := 1; stdout := [];
                       stderr := py "Invalid master password." |}
       | _ => Ret {| returncode := 0; stdout := listing; stderr := [] |}
       end;
     invocations := [] |}.

(** A host on which [bw --version] exits with status 1. *)
Definition broken_host : Host :=
  {| clock := fun i => examples.epoch_2026 + Z.of_nat i;
     ticks := 0;
     entropy := fun _ => 0;
     draws := 0;
     processes := fun _ _ =>
       Ret {| returncode := 1; stdout := []; stderr := py "bw: cannot execute" |};
     invocations := [] |}.

(** The key exchange on the pairing code 100000, as in [examples]. *)
Definition agent_started :=
  pake_handler.start_exchange 11 (py "100000") (pake_handler.fresh (py "client")).
Definition responder_started :=
  pake_handler.start_exchange 0 (py "100000") (pake_handler.fresh (py "server")).
Definition message_of (r : outcome bytes * pake_handler.PAKEHandler) : bytes :=
  match fst r with Ret m => m | Raise _ => [] end.
Definition agent_message : pystr :=
  map Z_of_byte (b64encode (message_of agent_started)).
Definition agent : pake_handler.PAKEHandler :=
  snd (pake_handler.finish_exchange (message_of responder_started) (snd agent_started)).
Definition responder : pake_handler.PAKEHandler :=
  snd (pake_handler.finish_exchange (message_of agent_started) (snd responder_started)).

(** The agent's request for example.com, stamped 2026-01-01T00:00:00Z. *)
Definition payload : pystr :=
  match fst (pake_handler.encrypt 5 (examples.object_text examples.fresh_request) agent)
  with
  | Ret c => c
  | Raise _ => []
  end.

Definition session : Session.t :=
  {| Session.session_id := examples.sid;
     Session.agent_id := py "a1";
     Session.agent_name := py "A1";
     Session.pake_handler := responder;
     Session.bitwarden_session_token := Some (py "TOKEN");
     Session.created_at := examples.epoch_2026 - minutes 1;
     Session.last_access := examples.epoch_2026 - minutes 1;
     Session.expires_at := examples.epoch_2026 + minutes 29 |}.

(** A session that expired a minute ago. *)
Definition stale : Session.t :=
  {| Session.session_id := py "sess_ffffffffffffffffffffffffffffffff";
     Session.agent_id := py "a2";
     Session.agent_name := py "A2";
     Session.pake_handler := responder;
     Session.bitwarden_session_token := Some (py "TOKEN");
     Session.created_at := examples.epoch_2026 - minutes 31;
     Session.last_access := examples.epoch_2026 - minutes 31;
     Session.expires_at := examples.epoch_2026 - minutes 1 |}.

(** The approver's handler when the human answers yes, and when the human
    answers no. *)
Definition approving : callback.handler :=
  {| callback.on_pairing_created := fun _ => Ret tt;
     callback.handle_credential_request :=
       fun _ _ _ => Ret [(py "approved", PBool true)] |}.
Definition denying : callback.handler :=
  {| callback.on_pairing_created := fun _ => Ret tt;
     callback.handle_credential_request :=
       fun _ _ _ => Ret [(py "approved", PBool false)] |}.

(** A manager with the live session and a handler, on a host. *)
Definition world (handler : callback.handler) (h : Host) : World :=
  {| manager := {| pending_pairings := ∅;
                   active_sessions := {[ examples.sid := session ]};
                   _callback_handler := Some handler |};
     os := h |}.

(** The live session with an approver who says yes, on a host whose vault
    lists [listing]. *)
Definition vault_world (listing : pystr) : World :=
  world approving (vault_host listing).

Definition half_login : World := vault_world (array [note_text; partial_text]).
Definition full_login : World := vault_world (array [note_text; login_text]).

(** A manager with one pending pairing, on code 100000. *)
Definition pending (entered : bool) (token : option pystr) (h : Host) : World :=
  {| manager := {| pending_pairings :=
                     {[ py "100000" := examples.pairing entered token ]};
                   active_sessions := ∅;
                   _callback_handler := None |};
     os := h |}.

(** A manager that has nothing yet. *)
Definition empty (h : Host) : World :=
  {| manager := init; os := h |}.

(** A manager with the live session, the stale one and a pending pairing. *)
Definition mixed (h : Host) : World :=
  {| manager := {| pending_pairings :=
                     {[ py "100000" := examples.pairing false None ]};
                   active_sessions :=
                     <[Session.session_id stale := stale]> {[ examples.sid := session ]};
                   _callback_handler := None |};
     os := h |}.

(** A host without [bw] whose clock starts ten minutes later, at
    2026-01-01T00:10:00. *)
Definition late_host : Host :=
  {| clock := fun i => examples.epoch_2026 + minutes 10 + Z.of_nat i;
     ticks := 0;
     entropy := fun _ => 0;
     draws := 0;
     processes := fun _ _ =>
       Raise (Exn FileNotFoundError (py "No such file or directory: 'bw'"));
     invocations := [] |}.

End scenarios.

(* ===================================================================== *)
(** * Facts about the Python layer                                        *)
(* ===================================================================== *)

Ltac zdiv := Z.to_euclidean_division_equations; lia.

(** Unfolds the monad and computes what is determined. *)
Ltac py_unfold :=
  unfold bind, get, put, modify, lift, ret, raise, try_except, any_Exception in *;
  cbn in *.

Lemma Z_of_byte_range (b : byte) : 0 <= Z_of_byte b < 256.
Proof.
  unfold Z_of_byte. pose proof (Byte.to_N_bounded b). lia.
Qed.

Lemma Z_of_byte_of_Z (z : Z) : 0 <= z < 256 -> Z_of_byte (byte_of_Z z) = z.
Proof.
  intros Hz. unfold Z_of_byte, byte_of_Z.
  destruct (Byte.of_N (Z.to_N z)) as [b|] eqn:E.
  - apply Byte.to_of_N in E. cbn. rewrite E. lia.
  - apply Byte.of_N_None_iff in E. lia.
Qed.

Lemma byte_of_Z_of_byte (b : byte) : byte_of_Z (Z_of_byte b) = b.
Proof.
  unfold Z_of_byte, byte_of_Z. rewrite N2Z.id, Byte.of_to_N. reflexivity.
Qed.

Lemma is_scalar_spec (c : Z) :
  is_scalar c = true <-> 0 <= c <= 1114111 /\ ~ (55296 <= c <= 57343).
Proof. unfold is_scalar. lia. Qed.

(** Decoding reads back the code point an encoding starts with. *)
Lemma decode_encode_code_point (c : Z) (b r : bytes) :
  encode_code_point c = Some b ->
  utf8_decode (b ++ r) = option_map (cons c) (utf8_decode r).
Proof.
  unfold encode_code_point.
  destruct (is_scalar c) eqn:Hs; cbn [negb]; [|discriminate].
  pose proof Hs as Hr. apply is_scalar_spec in Hr.
  destruct (c <? 128) eqn:H1.
  { intros [= <-]. cbn [app utf8_decode].
    rewrite Z_of_byte_of_Z by lia. rewrite H1. reflexivity. }
  destruct (c <? 2048) eqn:H2.
  { intros [= <-]. cbn [app utf8_decode]. unfold is_cont, cont_bits.
    rewrite !Z_of_byte_of_Z by zdiv.
    replace (192 + c / 64 <? 128) with false by zdiv.
    replace (192 + c / 64 <? 192) with false by zdiv.
    replace (192 + c / 64 <? 224) with true by zdiv.
    replace ((192 + c / 64 - 192) * 64 + (128 + c mod 64 - 128)) with c by zdiv.
    replace ((128 <=? 128 + c mod 64) && (128 + c mod 64 <? 192) && (128 <=? c))
      with true by zdiv.
    reflexivity. }
  destruct (c <? 65536) eqn:H3.
  { intros [= <-]. cbn [app utf8_decode]. unfold is_cont, cont_bits.
    rewrite !Z_of_byte_of_Z by zdiv.
    replace (224 + c / 4096 <? 128) with false by zdiv.
    replace (224 + c / 4096 <? 192) with false by zdiv.
    replace (224 + c / 4096 <? 224) with false by zdiv.
    replace (224 + c / 4096 <? 240) with true by zdiv.
    replace ((224 + c / 4096 - 224) * 4096 + (128 + c / 64 mod 64 - 128) * 64
             + (128 + c mod 64 - 128)) with c by zdiv.
    rewrite Hs.
    replace ((128 <=? 128 + c / 64 mod 64) && (128 + c / 64 mod 64 <? 192)
             && ((128 <=? 128 + c mod 64) && (128 + c mod 64 <? 192))
             && (2048 <=? c) && true) with true by zdiv.
    reflexivity. }
  intros [= <-]. cbn [app utf8_decode]. unfold is_cont, cont_bits.
  rewrite !Z_of_byte_of_Z by zdiv.
  replace (240 + c / 262144 <? 128) with false by zdiv.
  replace (240 + c / 262144 <? 192) with false by zdiv.
  replace (240 + c / 262144 <? 224) with false by zdiv.
  replace (240 + c / 262144 <? 240) with false by zdiv.
  replace (240 + c / 262144 <? 248) with true by zdiv.
  replace ((240 + c / 262144 - 240) * 262144 + (128 + c / 4096 mod 64 - 128) * 4096
           + (128 + c / 64 mod 64 - 128) * 64 + (128 + c mod 64 - 128))
    with c by zdiv.
  rewrite Hs.
  replace ((128 <=? 128 + c / 4096 mod 64) && (128 + c / 4096 mod 64 <? 192)
           && ((128 <=? 128 + c / 64 mod 64) && (128 + c / 64 mod 64 <? 192))
           && ((128 <=? 128 + c mod 64) && (128 + c mod 64 <? 192))
           && (65536 <=? c) && true) with true by zdiv.
  reflexivity.
Qed.

Lemma utf8_decode_encode (s : pystr) (b : bytes) :
  utf8_encode s = Some b -> utf8_decode b = Some s.
Proof.
  revert b. induction s as [|c s IH]; intros b; cbn [utf8_encode].
  - intros [= <-]. reflexivity.
  - destruct (encode_code_point c) as [bc|] eqn:Ec; [|discriminate].
    destruct (utf8_encode s) as [bs|]; [|discriminate].
    intros [= <-]. rewrite (decode_encode_code_point _ _ _ Ec).
    rewrite (IH bs eq_refl). reflexivity.
Qed.

(** A string of scalar values encodes. *)
Lemma utf8_encode_scalar (s : pystr) :
  Forall (fun c => is_scalar c = true) s -> exists b, utf8_encode s = Some b.
Proof.
  induction 1 as [|c s Hc _ [b Hb]]; cbn [utf8_encode].
  - eexists; reflexivity.
  - rewrite Hb. unfold encode_code_point. rewrite Hc. cbn [negb].
    repeat match goal with |- context [if ?t then _ else _] => destruct t end;
      eexists; reflexivity.
Qed.

(** A string with a surrogate in it does not. *)
Lemma utf8_encode_surrogate (s : pystr) :
  Exists (fun c => is_scalar c = false) s -> utf8_encode s = None.
Proof.
  induction 1 as [c s Hc|c s _ IH]; cbn [utf8_encode].
  - unfold encode_code_point. rewrite Hc. reflexivity.
  - rewrite IH. destruct (encode_code_point c); reflexivity.
Qed.

Lemma utf8_decode_ascii (b : bytes) :
  Forall (fun c => Z_of_byte c < 128) b -> utf8_decode b = Some (map Z_of_byte b).
Proof.
  induction 1 as [|c b Hc _ IH]; cbn [utf8_decode map]; [reflexivity|].
  replace (Z_of_byte c <? 128) with true by lia. rewrite IH. reflexivity.
Qed.

Lemma hexlify_length (b : bytes) : length (hexlify b) = (2 * length b)%nat.
Proof. induction b as [|x b IH]; cbn [hexlify length]; lia. Qed.

Lemma hex_digit_is_hex (d : Z) : 0 <= d < 16 -> is_hex_digit (hex_digit d) = true.
Proof. unfold is_hex_digit, hex_digit. intros. destruct (d <? 10) eqn:E; lia. Qed.

Lemma hexlify_hex (b : bytes) : Forall (fun c => is_hex_digit c = true) (hexlify b).
Proof.
  induction b as [|x b IH]; cbn [hexlify]; [constructor|].
  pose proof (Z_of_byte_range x).
  repeat constructor; [apply hex_digit_is_hex; zdiv .. | exact IH].
Qed.

(** ** Inversion of the monad's combinators *)

Lemma bind_ret_inv {S A B} (c : Py S A) (k : A -> Py S B) (s : S) (b : B) (s' : S) :
  bind c k s = (Ret b, s') ->
  exists a s1, c s = (Ret a, s1) /\ k a s1 = (Ret b, s').
Proof.
  unfold bind. destruct (c s) as [[a|e] s1]; [eauto | discriminate].
Qed.

Lemma try_except_ret_inv {S A} (catches : exn -> bool) (body : Py S A)
    (handler : exn -> Py S A) (s : S) (a : A) (s' : S) :
  try_except catches body handler s = (Ret a, s') ->
  body s = (Ret a, s') \/
  exists e s1, body s = (Raise e, s1) /\ handler e s1 = (Ret a, s').
Proof.
  unfold try_except. destruct (body s) as [[a0|e] s1]; [auto|].
  destruct (catches e); [eauto | discriminate].
Qed.

(* ===================================================================== *)
(** * src/sdk/pake_handler.py: the key-exchange wrapper                   *)
(* ===================================================================== *)

Section PakeHandlerFacts.
Context `{L : Libs}.
Import pake_handler.

Lemma encrypt_leaves_handler (seed : Z) (x : pystr) (h : PAKEHandler) :
  snd (encrypt seed x h) = h.
Proof.
  unfold encrypt. py_unfold.
  destruct (_fernet h); [|reflexivity].
  destruct (str_encode x); [|reflexivity].
  destruct (bytes_decode _); reflexivity.
Qed.

Lemma decrypt_leaves_handler (c : pystr) (h : PAKEHandler) :
  snd (decrypt c h) = h.
Proof.
  unfold decrypt. py_unfold.
  destruct (_fernet h); [|reflexivity].
  destruct (b64decode c); [|reflexivity].
  destruct (fernet_decrypt _ _); [|reflexivity].
  destruct (bytes_decode _); reflexivity.
Qed.

Lemma is_ready_fernet (h : PAKEHandler) :
  is_ready h = true <-> exists f, _fernet h = Some f.
Proof.
  unfold is_ready. rewrite bool_decide_eq_true.
  destruct (_fernet h); split; try congruence; eauto. intros [? ?]; congruence.
Qed.

Lemma init_server : init (py "server") = Ret (fresh (py "server")).
Proof. reflexivity. Qed.

Lemma start_exchange_started (seed : Z) (pw : pystr) (h : PAKEHandler) :
  _spake_instance h <> None ->
  start_exchange seed pw h =
    (Raise (Exn RuntimeError (py "PAKE exchange already started")), h).
Proof.
  intros Hs. unfold start_exchange. py_unfold.
  rewrite bool_decide_true by exact Hs. reflexivity.
Qed.

(** [start_exchange] touches [_spake_instance] only, and sets it when it
    returns. *)
Lemma start_exchange_effect (seed : Z) (pw : pystr) (h h' : PAKEHandler)
    (r : outcome bytes) :
  start_exchange seed pw h = (r, h') ->
  _fernet h' = _fernet h /\ _shared_key h' = _shared_key h /\
  (forall out, r = Ret out -> _spake_instance h' <> None).
Proof.
  unfold start_exchange, on_spake_instance. py_unfold.
  case_bool_decide as Hs.
  - intros [= <- <-]. repeat split. discriminate.
  - destruct (str_encode pw); [|intros [= <- <-]; repeat split; discriminate].
    cbn. destruct (spake2_start _ _) as [[out|e] inst']; intros [= <- <-]; cbn;
    repeat split; try discriminate.
Qed.

Lemma finish_exchange_not_started (m : bytes) (h : PAKEHandler) :
  _spake_instance h = None ->
  finish_exchange m h =
    (Raise (Exn RuntimeError (py "Must call start_exchange() first")), h).
Proof.
  intros Hs. unfold finish_exchange. py_unfold.
  rewrite bool_decide_true by exact Hs. reflexivity.
Qed.

Lemma finish_exchange_completed (m : bytes) (h : PAKEHandler) :
  _spake_instance h <> None -> _shared_key h <> None ->
  finish_exchange m h =
    (Raise (Exn RuntimeError (py "PAKE exchange already completed")), h).
Proof.
  intros Hs Hk. unfold finish_exchange. py_unfold.
  rewrite bool_decide_false by exact Hs.
  rewrite bool_decide_true by exact Hk. reflexivity.
Qed.

(** Past its two state checks, [finish_exchange] is [completion] with every
    exception turned into a [ValueError]. *)
Lemma finish_exchange_started (m : bytes) (h : PAKEHandler) :
  _spake_instance h <> None -> _shared_key h = None ->
  finish_exchange m h =
    match completion m h with
    | (Ret tt, h') => (Ret tt, h')
    | (Raise e, h') => (Raise (Exn ValueError (pake_failed_prefix ++ exn_str e)), h')
    end.
Proof.
  intros Hs Hk. unfold finish_exchange. py_unfold.
  rewrite bool_decide_false by exact Hs. rewrite Hk. cbn.
  destruct (completion m h) as [[[]|e] h1]; reflexivity.
Qed.

(** [completion] sets [_fernet] last: when it raises, [_fernet] is as
    before; when it returns, the key and the cipher are set. *)
Lemma completion_effect (m : bytes) (h h' : PAKEHandler) (r : outcome unit) :
  _spake_instance h <> None ->
  completion m h = (r, h') ->
  _spake_instance h' <> None /\
  match r with
  | Ret _ => _shared_key h' <> None /\ _fernet h' <> None
  | Raise _ => _fernet h' = _fernet h
  end.
Proof.
  intros Hs. unfold completion, on_spake_instance. py_unfold.
  destruct (_spake_instance h) as [inst|]; [|congruence].
  destruct (spake2_finish m inst) as [[key|e] inst']; cbn.
  - destruct (Fernet (urlsafe_b64encode (take 32 key))) as [f|e]; cbn;
      intros [= <- <-]; cbn; repeat split; discriminate.
  - intros [= <- <-]. cbn. split; [discriminate | reflexivity].
Qed.

Lemma finish_exchange_returns (m : bytes) (h h' : PAKEHandler) :
  finish_exchange m h = (Ret tt, h') ->
  _spake_instance h' <> None /\ _shared_key h' <> None /\ _fernet h' <> None.
Proof.
  destruct (_spake_instance h) as [inst|] eqn:Hs.
  2: { rewrite (finish_exchange_not_started _ _ Hs). discriminate. }
  assert (Hs' : _spake_instance h <> None) by congruence.
  destruct (_shared_key h) as [k|] eqn:Hk.
  { rewrite finish_exchange_completed by congruence. discriminate. }
  rewrite (finish_exchange_started _ _ Hs' Hk).
  destruct (completion m h) as [[[]|e] h1] eqn:Hc; [|discriminate].
  intros [= <-]. destruct (completion_effect _ _ _ _ Hs' Hc) as (? & ? & ?). auto.
Qed.

Lemma finish_exchange_raises (m : bytes) (h h' : PAKEHandler) (e : exn) :
  finish_exchange m h = (Raise e, h') -> _fernet h' = _fernet h.
Proof.
  destruct (_spake_instance h) as [inst|] eqn:Hs.
  2: { rewrite (finish_exchange_not_started _ _ Hs). by intros [= _ <-]. }
  assert (Hs' : _spake_instance h <> None) by congruence.
  destruct (_shared_key h) as [k|] eqn:Hk.
  { rewrite finish_exchange_completed by congruence. by intros [= _ <-]. }
  rewrite (finish_exchange_started _ _ Hs' Hk).
  destruct (completion m h) as [[[]|e0] h1] eqn:Hc; [discriminate|].
  intros [= _ <-]. by destruct (completion_effect _ _ _ _ Hs' Hc).
Qed.

Lemma encrypt_not_ready (seed : Z) (x : pystr) (h : PAKEHandler) :
  is_ready h = false -> encrypt seed x h = (Raise not_completed, h).
Proof.
  unfold is_ready. rewrite bool_decide_eq_false. intros Hf.
  unfold encrypt. py_unfold.
  destruct (_fernet h); [exfalso; apply Hf; discriminate | reflexivity].
Qed.

Lemma decrypt_not_ready (c : pystr) (h : PAKEHandler) :
  is_ready h = false -> decrypt c h = (Raise not_completed, h).
Proof.
  unfold is_ready. rewrite bool_decide_eq_false. intros Hf.
  unfold decrypt. py_unfold.
  destruct (_fernet h); [exfalso; apply Hf; discriminate | reflexivity].
Qed.

(** C8.  Outside the order new, started, ready every operation raises the
    state error [RuntimeError] and leaves the handler as it was: a second
    [start_exchange]; [finish_exchange] before [start_exchange]; a second
    [finish_exchange] after one that returned; [encrypt] and [decrypt] while
    [is_ready] is false.  And [is_ready] is false on a new handler, is not
    changed by [start_exchange], and is not changed by a [finish_exchange]
    that raises: it becomes true only when [finish_exchange] returns. *)
Theorem state_machine_boundaries (h : PAKEHandler) :
  (forall seed pw, _spake_instance h <> None ->
     start_exchange seed pw h =
       (Raise (Exn RuntimeError (py "PAKE exchange already started")), h)) /\
  (forall seed pw out h', start_exchange seed pw h = (Ret out, h') ->
     forall seed' pw', start_exchange seed' pw' h' =
       (Raise (Exn RuntimeError (py "PAKE exchange already started")), h')) /\
  (forall m, _spake_instance h = None ->
     finish_exchange m h =
       (Raise (Exn RuntimeError (py "Must call start_exchange() first")), h)) /\
  (forall m h', finish_exchange m h = (Ret tt, h') ->
     forall m', finish_exchange m' h' =
       (Raise (Exn RuntimeError (py "PAKE exchange already completed")), h')) /\
  (is_ready h = false ->
     forall seed x c,
       encrypt seed x h = (Raise not_completed, h) /\
       decrypt c h = (Raise not_completed, h)) /\
  (forall r, init r = Ret h -> is_ready h = false) /\
  (forall seed pw r h', start_exchange seed pw h = (r, h') ->
     is_ready h' = is_ready h) /\
  (forall m e h', finish_exchange m h = (Raise e, h') ->
     is_ready h' = is_ready h) /\
  (forall m h', finish_exchange m h = (Ret tt, h') -> is_ready h' = true).
Proof.
  repeat apply conj.
  - intros. by apply start_exchange_started.
  - intros seed pw out h' Hst seed' pw'.
    apply start_exchange_started.
    destruct (start_exchange_effect _ _ _ _ _ Hst) as (_ & _ & Hi). by apply (Hi out).
  - intros. by apply finish_exchange_not_started.
  - intros m h' Hf m'.
    destruct (finish_exchange_returns _ _ _ Hf) as (Hs & Hk & _).
    by apply finish_exchange_completed.
  - intros Hr seed x c. split; [by apply encrypt_not_ready | by apply decrypt_not_ready].
  - intros r. unfold init. case_match; intros [= <-]. reflexivity.
  - intros seed pw r h' Hst. unfold is_ready.
    destruct (start_exchange_effect _ _ _ _ _ Hst) as (-> & _). reflexivity.
  - intros m e h' Hf. unfold is_ready.
    by rewrite (finish_exchange_raises _ _ _ _ Hf).
  - intros m h' Hf. unfold is_ready. apply bool_decide_eq_true.
    by destruct (finish_exchange_returns _ _ _ Hf) as (_ & _ & ?).
Qed.

(** C9, in the form the code supports.  On a handler that is ready, and for a
    string of Unicode scalar values (no lone surrogate), [encrypt] returns a
    ciphertext that [decrypt] turns back into the string; neither call changes
    the handler.  The libraries are assumed to satisfy [LibLaws]. *)
Theorem encrypt_decrypt_roundtrip `{!LibLaws L} (h : PAKEHandler) (seed : Z)
    (x : pystr) :
  is_ready h = true ->
  Forall (fun c => is_scalar c = true) x ->
  exists c, encrypt seed x h = (Ret c, h) /\ decrypt c h = (Ret x, h).
Proof.
  intros [f Hf]%is_ready_fernet [b Hb]%utf8_encode_scalar.
  exists (map Z_of_byte (b64encode (fernet_encrypt f seed b))).
  unfold encrypt, decrypt, bind, get, lift, ret, try_except, str_encode, bytes_decode.
  rewrite Hf, Hb.
  rewrite (utf8_decode_ascii _ (b64encode_ascii _)).
  rewrite b64decode_b64encode, fernet_decrypt_encrypt.
  rewrite (utf8_decode_encode _ _ Hb). split; reflexivity.
Qed.

(** [encrypt] raises on every string that holds a surrogate, whatever the
    libraries do. *)
Lemma encrypt_surrogate (h : PAKEHandler) (seed : Z) (x : pystr) :
  is_ready h = true ->
  Exists (fun c => is_scalar c = false) x ->
  encrypt seed x h = (Raise (Exn UnicodeEncodeError (encode_error_text x)), h).
Proof.
  intros [f Hf]%is_ready_fernet Hx%utf8_encode_surrogate.
  unfold encrypt, bind, get, lift, str_encode. rewrite Hf, Hx. reflexivity.
Qed.


End PakeHandlerFacts.

(* ===================================================================== *)
(** * src/server/pairing_manager.py: pairings and sessions                *)
(* ===================================================================== *)

Section PairingManagerFacts.
Context `{L : Libs}.
Import pairing_manager statements.

Lemma token_hex_spec (n : nat) (h : Host) :
  exists t, token_hex n h = (Ret t, drawn n h) /\
            length t = (2 * n)%nat /\ Forall (fun c => is_hex_digit c = true) t.
Proof.
  unfold token_hex, token_bytes. py_unfold. eexists. split; [reflexivity|].
  split; [|apply hexlify_hex].
  rewrite hexlify_length, length_map, length_seq. reflexivity.
Qed.

(** ** [create_pairing] *)

(** C6, in the form the code supports.  [create_pairing] draws
    [randbelow(900000) + 100000], a number of [[100000, 999999]], and stores the
    new pairing under its decimal text with no check for a pairing already
    stored there: the table afterwards is the old one with that entry inserted,
    so an entry of the same code is replaced.  Sessions are untouched, and the
    call returns the code and [now + 5 minutes] when no handler is registered or
    the handler's [on_pairing_created] returns. *)
Theorem create_pairing_inserts (w : World) (agent_id agent_name : pystr) :
  let n := entropy (os w) (draws (os w)) mod 900000 + 100000 in
  let st := new_pairing w agent_id agent_name in
  let out := create_pairing agent_id agent_name w in
  100000 <= n <= 999999 /\
  pending_pairings (manager (snd out)) =
    <[str_of_int n := st]> (pending_pairings (manager w)) /\
  pending_pairings (manager (snd out)) !! str_of_int n = Some st /\
  active_sessions (manager (snd out)) = active_sessions (manager w) /\
  ((forall h, _callback_handler (manager w) = Some h ->
              callback.on_pairing_created h st = Ret tt) ->
   fst out = Ret (str_of_int n, reading (os w) 0 + minutes 5)).
Proof.
  cbn zeta. split; [zdiv|].
  assert (Hins : pending_pairings
                   (manager (snd (create_pairing agent_id agent_name w))) =
                 <[str_of_int (entropy (os w) (draws (os w)) mod 900000 + 100000)
                   := new_pairing w agent_id agent_name]>
                   (pending_pairings (manager w))).
  { unfold create_pairing, on_host, randbelow, utcnow, new_pairing, reading. py_unfold.
    destruct (_callback_handler (manager w)) as [h|]; cbn; [|reflexivity].
    destruct (callback.on_pairing_created h _) as [[]|e]; reflexivity. }
  split; [exact Hins|]. split; [rewrite Hins; apply lookup_insert_eq|].
  unfold create_pairing, on_host, randbelow, utcnow, new_pairing, reading. py_unfold.
  destruct (_callback_handler (manager w)) as [h|] eqn:Hh; cbn.
  - destruct (callback.on_pairing_created h _) as [[]|e] eqn:Hcb; cbn;
      (split; [reflexivity|]); intros Hok; [reflexivity|].
    specialize (Hok h eq_refl). congruence.
  - split; reflexivity.
Qed.

(** ** [mark_user_entered_code] and a poll of [exchange_pake_message] *)

Lemma exchange_pake_message_waiting (w : World) (code msg_in : pystr)
    (pairing : PairingState.t) (msg : bytes) :
  pending_pairings (manager w) !! code = Some pairing ->
  reading (os w) 0 <= PairingState.expires_at pairing ->
  PairingState.user_entered pairing = false ->
  b64decode msg_in = Ret msg ->
  fst (exchange_pake_message code msg_in w) = Ret waiting.
Proof.
  intros Hp Hexp Hu Hb.
  unfold exchange_pake_message, on_host, utcnow. py_unfold.
  rewrite Hp. cbn. unfold reading in Hexp. cbn in Hexp.
  replace (_ >? _) with false by lia.
  rewrite Hb. cbn. rewrite Hu. reflexivity.
Qed.

(** Once the human has entered the code, the exchange goes on to the PAKE
    completion: it never asks the agent to wait. *)
Lemma exchange_pake_message_entered (w : World) (code msg_in : pystr)
    (pairing : PairingState.t) (msg : bytes) :
  pending_pairings (manager w) !! code = Some pairing ->
  reading (os w) 0 <= PairingState.expires_at pairing ->
  PairingState.user_entered pairing = true ->
  b64decode msg_in = Ret msg ->
  fst (exchange_pake_message code msg_in w) <> Ret waiting.
Proof.
  intros Hp Hexp Hu Hb.
  destruct (exchange_pake_message code msg_in w) as [[r|e] w'] eqn:Hx; [|discriminate].
  cbn. intros [= ->]. revert Hx.
  unfold exchange_pake_message.
  intros (w0 & w1 & [= <- <-] & H)%bind_ret_inv.
  rewrite Hp in H.
  apply bind_ret_inv in H as (now & w2 & [= <- <-] & H).
  unfold reading in Hexp. cbn in Hexp, H.
  replace (_ >? _) with false in H by lia.
  apply bind_ret_inv in H as (msg' & w3 & Hd & H).
  apply bind_ret_inv in H as (? & w4 & _ & H).
  cbn in H. rewrite Hu in H. cbn in H.
  apply bind_ret_inv in H as ([msg_out handler1] & w5 & _ & H).
  apply bind_ret_inv in H as ([result|ph] & w6 & Hf & H).
  - unfold ret in H. injection H as -> _.
    apply try_except_ret_inv in Hf as [Hf | (e & w7 & _ & Hf)].
    + apply bind_ret_inv in Hf as (? & ? & _ & Hf). discriminate Hf.
    + unfold ret in Hf. injection Hf as Hf _. vm_compute in Hf. discriminate Hf.
  - apply bind_ret_inv in H as (token & w7 & _ & H).
    apply bind_ret_inv in H as (now' & w8 & _ & H).
    apply bind_ret_inv in H as (? & w9 & _ & H).
    apply bind_ret_inv in H as (? & w10 & _ & H).
    apply bind_ret_inv in H as (pm & w11 & _ & H).
    unfold ret in H. injection H as H _. vm_compute in H. discriminate H.
Qed.

(** C7, in the form the code supports.  For a pairing that is known and not
    expired, when the vault driver raises (constructing [BitwardenCLI] or in
    [unlock], whatever the error), [mark_user_entered_code] returns [False]
    and the manager is as before: the pairing is still pending, with the
    [user_entered] and the vault token it had.  A later
    [exchange_pake_message] on the code, made within the pairing's lifetime
    with a message that is base64, returns waiting exactly when the
    pairing's [user_entered] was false: a failed attempt after a successful
    one does not take the pairing back. *)
Theorem unlock_failure_leaves_pairing (w : World) (code pw : pystr)
    (pairing : PairingState.t) (e : exn) (h' : Host) :
  pending_pairings (manager w) !! code = Some pairing ->
  reading (os w) 0 <= PairingState.expires_at pairing ->
  unlock_vault pw (tick (os w)) = (Raise e, h') ->
  let w' := {| manager := manager w; os := h' |} in
  mark_user_entered_code code pw w = (Ret false, w') /\
  pending_pairings (manager w') !! code = Some pairing /\
  forall msg_in msg,
    b64decode msg_in = Ret msg ->
    reading h' 0 <= PairingState.expires_at pairing ->
    fst (exchange_pake_message code msg_in w') = Ret waiting <->
    PairingState.user_entered pairing = false.
Proof.
  intros Hp Hexp Hun w'. split; [|split].
  - unfold mark_user_entered_code, on_host, utcnow. py_unfold.
    rewrite Hp. cbn. unfold reading in Hexp. cbn in Hexp.
    replace (_ >? _) with false by lia.
    revert Hun. unfold unlock_vault. py_unfold.
    destruct (bitwarden_cli.init (tick (os w))) as [[cli|e0] h0]; cbn.
    + intros ->. cbn. destruct w as [[] ?]; reflexivity.
    + intros [= -> ->]. destruct w as [[] ?]; reflexivity.
  - exact Hp.
  - intros msg_in msg Hb Hexp'. split.
    + intros Hwait. destruct (PairingState.user_entered pairing) eqn:Hu; [|done].
      by destruct (exchange_pake_message_entered w' code msg_in pairing msg).
    + intros Hu.
      by apply (exchange_pake_message_waiting w' code msg_in pairing msg).
Qed.

(** A [bw unlock] that exits with a non-zero status makes [unlock] raise
    [BitwardenCLIError]: a wrong master password is one such error. *)
Lemma unlock_nonzero_exit (cli : bitwarden_cli.BitwardenCLI) (pw : pystr)
    (h : Host) (r : CompletedProcess) :
  let args := [PStr (bitwarden_cli.cli_path cli); PStr (py "unlock");
               PStr pw; PStr (py "--raw")] in
  processes h (length (invocations h)) args = Ret r ->
  returncode r <> 0 ->
  exists text,
    bitwarden_cli.unlock cli pw h =
      (Raise (Exn BitwardenCLIError text), invoked args h).
Proof.
  cbn zeta. intros Hp Hr. unfold bitwarden_cli.unlock, subprocess_run. py_unfold.
  rewrite Hp. cbn.
  replace (returncode r =? 0) with false by lia. cbn.
  destruct (contains _ _); eexists; reflexivity.
Qed.

(** ** [exchange_pake_message]: promotion *)

(** C4.  On a known, unexpired pairing whose [user_entered] flag is set,
    with a decodable message, when the responder's [start_exchange] and
    [finish_exchange] return, [exchange_pake_message] returns success with a
    session id made of [sess_] and 32 hexadecimal characters, stores under it
    a session that carries the pairing's vault token and expires 30 minutes
    after the clock reading taken at its creation, and removes the pairing. *)
Theorem promotion_creates_session `{!LibLaws L} (w : World) (code msg_in : pystr)
    (pairing : PairingState.t) (msg msg_out : bytes)
    (h1 h2 : pake_handler.PAKEHandler) :
  pending_pairings (manager w) !! code = Some pairing ->
  reading (os w) 0 <= PairingState.expires_at pairing ->
  PairingState.user_entered pairing = true ->
  b64decode msg_in = Ret msg ->
  pake_handler.start_exchange (entropy (os w) (draws (os w))) code
    (pake_handler.fresh (py "server")) = (Ret msg_out, h1) ->
  pake_handler.finish_exchange msg h1 = (Ret tt, h2) ->
  exists token w',
    length token = 32%nat /\
    Forall (fun c => is_hex_digit c = true) token /\
    exchange_pake_message code msg_in w =
      (Ret [(py "status", PStr (py "success"));
            (py "session_id", PStr (py "sess_" ++ token));
            (py "pake_message", PStr (map Z_of_byte (b64encode msg_out)));
            (py "agent_id", PStr (PairingState.agent_id pairing))], w') /\
    active_sessions (manager w') !! (py "sess_" ++ token) =
      Some (promoted pairing (py "sess_" ++ token) h2 (reading (os w) 1)) /\
    Session.bitwarden_session_token
      (promoted pairing (py "sess_" ++ token) h2 (reading (os w) 1)) =
      PairingState.bitwarden_session_token pairing /\
    Session.expires_at
      (promoted pairing (py "sess_" ++ token) h2 (reading (os w) 1)) =
      reading (os w) 1 + minutes 30 /\
    pending_pairings (manager w') !! code = None.
Proof.
  intros Hp Hexp Hu Hb Hst Hfin.
  exists (session_token (drawn 1 (tick (os w)))). eexists.
  split; [|split].
  { unfold session_token. rewrite hexlify_length, length_map, length_seq. reflexivity. }
  { apply hexlify_hex. }
  unfold exchange_pake_message, on_host, utcnow, urandom, call, token_hex, token_bytes.
  rewrite init_server. py_unfold.
  rewrite Hp. cbn. unfold reading in *. cbn in Hexp.
  replace (_ >? _) with false by lia.
  rewrite Hb. cbn. rewrite Hu. cbn. rewrite Hst. cbn. rewrite Hfin. cbn.
  unfold bytes_decode. rewrite (utf8_decode_ascii _ (b64encode_ascii _)). cbn.
  split; [reflexivity|]. cbn.
  split; [apply lookup_insert_eq|].
  split; [reflexivity|]. split; [reflexivity|].
  apply lookup_delete_eq.
Qed.


(** ** [get_session_status] and [handle_credential_request] *)

Lemma get_session_status_None (self : PairingManager) (sid : pystr) :
  get_session_status self sid = None <-> active_sessions self !! sid = None.
Proof.
  unfold get_session_status. destruct (active_sessions self !! sid); split; congruence.
Qed.

(** C5, in the form the code supports.  [get_session_status] answers from the
    table alone: for a session that is stored it returns a status with [active]
    true, expired or not, and it returns null exactly for an id that is not
    stored. [handle_credential_request] on a stored session whose [expires_at]
    is before the clock reading of its expiry check returns the error "Session
    expired" and removes the session, after which the status is null. *)
Theorem session_expiry (w : World) (sid : pystr) (session : Session.t) :
  active_sessions (manager w) !! sid = Some session ->
  (exists status, get_session_status (manager w) sid = Some status /\
                  dict_lookup status (py "active") = Some (PBool true)) /\
  (forall payload, reading (os w) 1 > Session.expires_at session ->
     exists w',
       handle_credential_request sid payload w =
         (Ret (error_result (py "Session expired")), w') /\
       active_sessions (manager w') = delete sid (active_sessions (manager w)) /\
       get_session_status (manager w') sid = None).
Proof.
  intros Hs. split.
  - unfold get_session_status. rewrite Hs. eexists. split; reflexivity.
  - intros payload Hexp.
    unfold handle_credential_request, on_host, utcnow. py_unfold.
    rewrite Hs. cbn. unfold reading in Hexp. cbn in Hexp.
    replace (_ >? _) with true by lia.
    eexists. split; [reflexivity|]. cbn. split.
    + by rewrite delete_insert_eq.
    + apply get_session_status_None. cbn. apply lookup_delete_eq.
Qed.

(** What [handle_credential_request] does with a session that is stored and
    not expired. *)
Lemma handle_credential_request_live (w : World) (sid payload : pystr)
    (session : Session.t) :
  active_sessions (manager w) !! sid = Some session ->
  reading (os w) 1 <= Session.expires_at session ->
  handle_credential_request sid payload w =
    match fst (pake_handler.decrypt payload (Session.pake_handler session)) with
    | Ret plaintext =>
        match json_loads plaintext with
        | Ret (PDict d) =>
            process_request
              (Session.set_last_access (reading (os w) 0) session) d
              (touched w sid session)
        | _ => (Ret (error_result (py "Decryption failed")), touched w sid session)
        end
    | Raise _ => (Ret (error_result (py "Decryption failed")), touched w sid session)
    end.
Proof.
  intros Hs Hexp. unfold handle_credential_request, on_host, utcnow. py_unfold.
  rewrite Hs. cbn.
  unfold reading in *. cbn in Hexp.
  replace (_ >? _) with false by lia.
  unfold touched, reading. cbn.
  destruct (fst _) as [plaintext|e]; cbn; [|reflexivity].
  destruct (json_loads plaintext) as [[]|e]; reflexivity.
Qed.

(** [process_request] reads three fields of the request and no other. *)
Lemma process_request_fields (session : Session.t) (d d' : pydict) (w : World) :
  dict_lookup d (py "timestamp") = dict_lookup d' (py "timestamp") ->
  dict_lookup d (py "domain") = dict_lookup d' (py "domain") ->
  dict_lookup d (py "reason") = dict_lookup d' (py "reason") ->
  process_request session d w = process_request session d' w.
Proof.
  intros Ht Hd Hr.
  unfold process_request, request_approval, dict_subscript.
  rewrite Ht, Hd, Hr. reflexivity.
Qed.

(** C2, in the form the code supports.  For a stored, unexpired session,
    [handle_credential_request] returns [{"status": "error", "error":
    "Decryption failed"}] when the payload does not decrypt, when the plaintext
    is not JSON, and when it is JSON but not an object; the session stays, with
    [last_access] updated.  The fields of an object are not checked at this step,
    and only [timestamp], [domain] and [reason] are ever read: two requests that
    agree on these three are handled alike, whatever they hold under [agent_id],
    [agent_name] and [nonce]. *)
Theorem decryption_failure_cases (w : World) (sid : pystr) (session : Session.t) :
  active_sessions (manager w) !! sid = Some session ->
  reading (os w) 1 <= Session.expires_at session ->
  let decrypt payload :=
    fst (pake_handler.decrypt payload (Session.pake_handler session)) in
  let failed := (Ret (error_result (py "Decryption failed")), touched w sid session) in
  (forall payload e, decrypt payload = Raise e ->
     handle_credential_request sid payload w = failed) /\
  (forall payload plaintext e,
     decrypt payload = Ret plaintext -> json_loads plaintext = Raise e ->
     handle_credential_request sid payload w = failed) /\
  (forall payload plaintext v,
     decrypt payload = Ret plaintext -> json_loads plaintext = Ret v ->
     is_dict v = false ->
     handle_credential_request sid payload w = failed) /\
  (forall payload payload' plaintext plaintext' d d',
     decrypt payload = Ret plaintext -> json_loads plaintext = Ret (PDict d) ->
     decrypt payload' = Ret plaintext' -> json_loads plaintext' = Ret (PDict d') ->
     dict_lookup d (py "timestamp") = dict_lookup d' (py "timestamp") ->
     dict_lookup d (py "domain") = dict_lookup d' (py "domain") ->
     dict_lookup d (py "reason") = dict_lookup d' (py "reason") ->
     handle_credential_request sid payload w =
     handle_credential_request sid payload' w).
Proof.
  intros Hs Hexp decrypt failed. subst decrypt failed. cbn beta.
  repeat apply conj.
  - intros payload e He.
    by rewrite (handle_credential_request_live _ _ _ _ Hs Hexp), He.
  - intros payload plaintext e Hd He.
    by rewrite (handle_credential_request_live _ _ _ _ Hs Hexp), Hd, He.
  - intros payload plaintext v Hd Hv Hnd.
    rewrite (handle_credential_request_live _ _ _ _ Hs Hexp), Hd, Hv.
    destruct v; try reflexivity. discriminate.
  - intros payload payload' plaintext plaintext' d d' Hd Hj Hd' Hj' Ht Hdo Hr.
    rewrite !(handle_credential_request_live _ _ _ _ Hs Hexp), Hd, Hj, Hd', Hj'.
    by apply process_request_fields.
Qed.

Lemma error_result_inj (m1 m2 : pystr) :
  error_result m1 = error_result m2 -> m1 = m2.
Proof. unfold error_result. congruence. Qed.

(** No result of the retrieval is the replay error. *)
Lemma retrieve_credential_not_replay (session : Session.t) (domain : pyval)
    (w w' : World) (r : pydict) :
  retrieve_credential session domain w = (Ret r, w') -> r <> replay_error.
Proof.
  unfold retrieve_credential.
  intros (cli & w1 & _ & H)%bind_ret_inv.
  apply bind_ret_inv in H as (items & w2 & _ & H).
  apply bind_ret_inv in H as (login_item & w3 & _ & H).
  assert (Hno : forall x : pystr,
    error_result (py "No credential found for " ++ x) <> replay_error).
  { intros x Heq. apply error_result_inj in Heq. vm_compute (py _) in Heq.
    cbn in Heq. discriminate Heq. }
  destruct login_item as [item|]; [|injection H as <- _; apply Hno].
  destruct (truthy item); cbn [negb] in H; [|injection H as <- _; apply Hno].
  apply bind_ret_inv in H as (login & w4 & _ & H).
  apply bind_ret_inv in H as (username & w5 & _ & H).
  apply bind_ret_inv in H as (login' & w6 & _ & H).
  apply bind_ret_inv in H as (password & w7 & _ & H).
  destruct (negb (truthy username) || negb (truthy password)).
  { injection H as <- _. intros Heq. apply error_result_inj in Heq.
    vm_compute in Heq. discriminate Heq. }
  apply bind_ret_inv in H as (now & w8 & _ & H).
  apply bind_ret_inv in H as (nonce & w9 & _ & H).
  apply bind_ret_inv in H as (text & w10 & _ & H).
  apply bind_ret_inv in H as (seed & w11 & _ & H).
  apply bind_ret_inv in H as (enc & w12 & _ & H).
  injection H as <- _. intros Heq. unfold replay_error, error_result in Heq.
  injection Heq as Heq _. vm_compute in Heq. discriminate Heq.
Qed.

(** Nor is any result of the approval block. *)
Lemma request_approval_not_replay (session : Session.t) (d : pydict)
    (w w' : World) (r : pydict) :
  request_approval session d w = (Ret r, w') -> r <> replay_error.
Proof.
  unfold request_approval.
  intros (w0 & w1 & _ & H)%bind_ret_inv.
  destruct (_callback_handler (manager w0)) as [h|].
  2: { injection H as <- _. intros Heq. apply error_result_inj in Heq.
       vm_compute in Heq. discriminate Heq. }
  apply bind_ret_inv in H as (domain & w2 & _ & H).
  apply bind_ret_inv in H as (reason & w3 & _ & H).
  apply bind_ret_inv in H as (result & w4 & _ & H).
  apply bind_ret_inv in H as (approved & w5 & _ & H).
  destruct (truthy approved).
  - apply try_except_ret_inv in H as [H | (e & w6 & _ & H)].
    + eapply retrieve_credential_not_replay, H.
    + injection H as <- _. intros Heq. apply error_result_inj in Heq.
      vm_compute (py _) in Heq. cbn in Heq. discriminate Heq.
  - injection H as <- _. intros Heq. unfold replay_error, error_result in Heq.
    injection Heq as Heq _. vm_compute in Heq. discriminate Heq.
Qed.

(** C1, in the form the code supports.  For a stored, unexpired session and a
    payload that decrypts to a JSON object, [handle_credential_request]
    returns the error "Request too old (possible replay attack)" exactly when
    the object's [timestamp] is a string that, without its trailing [Z],
    parses to a datetime with no UTC offset which lies more than 5 minutes
    before the clock reading taken for the check.  So a timestamp in the
    future, however far, is not rejected by this check, nor is one that is at
    most 5 minutes old; and no request whose timestamp is missing, is not a
    string, does not parse or carries a UTC offset gets this answer. *)
Theorem replay_rejected_iff_older_than_five_minutes (w : World)
    (sid payload : pystr) (session : Session.t) (plaintext : pystr) (d : pydict) :
  active_sessions (manager w) !! sid = Some session ->
  reading (os w) 1 <= Session.expires_at session ->
  fst (pake_handler.decrypt payload (Session.pake_handler session)) = Ret plaintext ->
  json_loads plaintext = Ret (PDict d) ->
  fst (handle_credential_request sid payload w) = Ret replay_error <->
  exists s t,
    dict_lookup d (py "timestamp") = Some (PStr s) /\
    fromisoformat (rstrip_Z s) = Ret (Naive t) /\
    reading (os w) 2 - t > minutes 5.
Proof.
  intros Hs Hexp Hdec Hjson.
  rewrite (handle_credential_request_live _ _ _ _ Hs Hexp), Hdec, Hjson.
  unfold process_request, dict_subscript, on_host, utcnow, too_old.
  unfold bind at 1 2 3 4 5. unfold lift, ret, raise; cbn.
  destruct (dict_lookup d (py "timestamp")) as [ts|] eqn:Hts; cbn.
  2: { split; [discriminate | intros (s & t & [=] & _)]. }
  destruct ts as [| | | | |s| |]; cbn;
    try (split; [discriminate | intros (s' & t & [=] & _)]).
  destruct (fromisoformat (rstrip_Z s)) as [[t|t o]|e] eqn:Hiso; cbn.
  - unfold reading, minutes. cbn.
    destruct (_ >? _) eqn:Hage.
    + split; [|reflexivity]. intros _. exists s, t. repeat split; [done|lia].
    + split.
      * intros Hr.
        destruct (request_approval _ _ _) as [[r|e] w'] eqn:Hreq; cbn in Hr;
          [|discriminate].
        injection Hr as ->. exfalso. eapply request_approval_not_replay; eauto.
      * intros (s' & t' & [= <-] & Hiso' & Hold). rewrite Hiso in Hiso'.
        injection Hiso' as <-. lia.
  - split; [discriminate|].
    intros (s' & t' & [= <-] & Hiso' & _). rewrite Hiso in Hiso'. discriminate.
  - split; [discriminate|].
    intros (s' & t' & [= <-] & Hiso' & _). rewrite Hiso in Hiso'. discriminate.
Qed.

(** C10.  With no handler registered, for a stored, unexpired session and a
    payload that decrypts to a JSON object with a parseable timestamp that
    is not more than 5 minutes old, [handle_credential_request] returns
    [{"status": "error", "error": "No approval handler registered"}]; no
    child process is run (the vault is not contacted), the pairings are as
    before, and the sessions are as before except for [last_access] of the
    session used. *)
Theorem no_handler_registered (w : World) (sid payload : pystr)
    (session : Session.t) (plaintext : pystr) (d : pydict) (s : pystr) (t : Z) :
  _callback_handler (manager w) = None ->
  active_sessions (manager w) !! sid = Some session ->
  reading (os w) 1 <= Session.expires_at session ->
  fst (pake_handler.decrypt payload (Session.pake_handler session)) = Ret plaintext ->
  json_loads plaintext = Ret (PDict d) ->
  dict_lookup d (py "timestamp") = Some (PStr s) ->
  fromisoformat (rstrip_Z s) = Ret (Naive t) ->
  reading (os w) 2 - t <= minutes 5 ->
  exists w',
    handle_credential_request sid payload w =
      (Ret (error_result (py "No approval handler registered")), w') /\
    invocations (os w') = invocations (os w) /\
    active_sessions (manager w') =
      <[sid := Session.set_last_access (reading (os w) 0) session]>
        (active_sessions (manager w)) /\
    pending_pairings (manager w') = pending_pairings (manager w) /\
    _callback_handler (manager w') = None.
Proof.
  intros Hcb Hs Hexp Hdec Hjson Hts Hiso Hage.
  rewrite (handle_credential_request_live _ _ _ _ Hs Hexp), Hdec, Hjson.
  unfold process_request, request_approval, dict_subscript, on_host, utcnow, too_old.
  py_unfold.
  rewrite Hts. cbn. rewrite Hiso. cbn.
  unfold reading, minutes in Hage. cbn in Hage.
  replace (_ >? _) with false by lia.
  rewrite Hcb. eexists. split; [reflexivity|]. cbn. auto.
Qed.

End PairingManagerFacts.

(* ===================================================================== *)
(** * src/utils/bitwarden_cli.py: the vault driver                        *)
(* ===================================================================== *)

Section BitwardenCLIFacts.
Context `{L : Libs}.
Import bitwarden_cli.

(** A child process that exits with status 0, or any exit when the call
    does not check it, comes back as it is. *)
Lemma subprocess_run_returns (args : list pyval) (check : bool) (h : Host)
    (r : CompletedProcess) :
  processes h (length (invocations h)) args = Ret r ->
  check && negb (returncode r =? 0) = false ->
  subprocess_run args check h = (Ret r, invoked args h).
Proof. intros Hp Hc. unfold subprocess_run. rewrite Hp, Hc. reflexivity. Qed.

(** With [check=True] a non-zero exit raises [CalledProcessError], which
    carries the error stream. *)
Lemma subprocess_run_checked (args : list pyval) (h : Host) (r : CompletedProcess) :
  processes h (length (invocations h)) args = Ret r ->
  returncode r <> 0 ->
  subprocess_run args true h =
    (Raise (Exn (CalledProcessError (stderr r))
                (called_process_error_text args (returncode r))), invoked args h).
Proof.
  intros Hp Hr. unfold subprocess_run. rewrite Hp.
  replace (returncode r =? 0) with false by lia. reflexivity.
Qed.

Lemma subprocess_run_raises (args : list pyval) (check : bool) (h : Host) (e : exn) :
  processes h (length (invocations h)) args = Raise e ->
  subprocess_run args check h = (Raise e, invoked args h).
Proof. intros Hp. unfold subprocess_run. rewrite Hp. reflexivity. Qed.

(** [BitwardenCLI()] when no [bw] executable is found: one child process is
    attempted, the login status is not asked for, and the error names the
    path. *)
Theorem init_cli_not_found (h : Host) (e : exn) :
  processes h (length (invocations h)) [PStr (py "bw"); PStr (py "--version")]
    = Raise e ->
  is_FileNotFoundError e = true ->
  init h =
    (Raise (Exn BitwardenCLIError
              (py "Bitwarden CLI not found at 'bw'. "
               ++ py "Please install from https://bitwarden.com/help/cli/")),
     invoked [PStr (py "bw"); PStr (py "--version")] h).
Proof.
  intros Hp He. unfold init, _validate_cli_installed. py_unfold.
  rewrite (subprocess_run_raises _ _ _ _ Hp). cbn. rewrite He. cbn. reflexivity.
Qed.

(** [BitwardenCLI()] when [bw --version] exits with a non-zero status: the
    [CalledProcessError] of the checked call is not among the errors the
    constructor translates, and reaches the caller as it is. *)
Theorem init_version_failure_escapes (h : Host) (r : CompletedProcess) :
  let args := [PStr (py "bw"); PStr (py "--version")] in
  processes h (length (invocations h)) args = Ret r ->
  returncode r <> 0 ->
  init h =
    (Raise (Exn (CalledProcessError (stderr r))
                (called_process_error_text args (returncode r))),
     invoked args h).
Proof.
  cbn zeta. intros Hp Hr. unfold init, _validate_cli_installed. py_unfold.
  rewrite (subprocess_run_checked _ _ _ Hp Hr). reflexivity.
Qed.

(** [BitwardenCLI()] when both child processes exit with status 0 and
    [bw status] prints a JSON object: the constructor returns exactly when
    the object's [status] is not "unauthenticated", after two child
    processes. *)
Theorem init_login_status (h : Host) (r0 r1 : CompletedProcess) (d : pydict) :
  let version := [PStr (py "bw"); PStr (py "--version")] in
  let status := [PStr (py "bw"); PStr (py "status")] in
  processes h (length (invocations h)) version = Ret r0 ->
  returncode r0 = 0 ->
  processes h (S (length (invocations h))) status = Ret r1 ->
  returncode r1 = 0 ->
  json_loads (stdout r1) = Ret (PDict d) ->
  init h =
    (if py_eq_str (default PNone (dict_lookup d (py "status")))
                  (py "unauthenticated")
     then Raise (Exn BitwardenCLIError
                   (py "Not logged into Bitwarden CLI. Please run 'bw login' first."))
     else Ret {| cli_path := py "bw" |},
     invoked status (invoked version h)).
Proof.
  cbn zeta. intros Hp0 Hr0 Hp1 Hr1 Hj.
  unfold init, _validate_cli_installed, _check_login_status. py_unfold.
  rewrite (subprocess_run_returns _ true _ _ Hp0) by (rewrite Hr0; reflexivity). cbn.
  assert (Hlen : length (invocations (invoked [PStr (py "bw"); PStr (py "--version")] h))
                 = S (length (invocations h))).
  { cbn. rewrite length_app. cbn. lia. }
  rewrite (subprocess_run_returns _ true (invoked _ h) r1)
    by (rewrite ?Hlen, ?Hr1; first [exact Hp1 | reflexivity]).
  cbn. rewrite Hj. cbn.
  destruct (py_eq_str _ _); reflexivity.
Qed.

(** What [lstrip] removes is whitespace, and what it leaves does not start
    with whitespace. *)
Lemma lstrip_spec (s : pystr) :
  exists p, s = p ++ lstrip s /\ Forall (fun c => is_space c = true) p /\
            (forall c, head (lstrip s) = Some c -> is_space c = false).
Proof.
  induction s as [|c s (p & Hs & Hp & Hh)]; cbn [lstrip].
  - exists []. repeat split; [constructor | discriminate].
  - destruct (is_space c) eqn:Hc.
    + exists (c :: p). split; [cbn; congruence|]. split; [by constructor | exact Hh].
    + exists []. repeat split; [constructor|]. cbn. congruence.
Qed.

Lemma last_lstrip (s : pystr) :
  lstrip s <> [] -> last (lstrip s) = last s.
Proof.
  destruct (lstrip_spec s) as (p & Hs & _). intros Hn.
  rewrite Hs at 2. destruct (lstrip s) as [|c r] eqn:E; [done|].
  by rewrite last_app_cons.
Qed.

(** [s.strip()] neither starts nor ends with whitespace. *)
Lemma strip_spec (s : pystr) :
  (forall c, head (strip s) = Some c -> is_space c = false) /\
  (forall c, last (strip s) = Some c -> is_space c = false).
Proof.
  unfold strip. split; intros c.
  - rewrite <- (rev_involutive (lstrip (rev (lstrip s)))) at 1.
    rewrite rev_involutive.
    replace (head (rev (lstrip (rev (lstrip s))))) with (last (lstrip (rev (lstrip s)))).
    2:{ generalize (lstrip (rev (lstrip s))). intros l.
        induction l as [|x l IH] using rev_ind; [reflexivity|].
        rewrite rev_app_distr, last_snoc. reflexivity. }
    intros Hl.
    assert (Hn : lstrip (rev (lstrip s)) <> []) by (intros E; rewrite E in Hl; discriminate).
    rewrite (last_lstrip _ Hn) in Hl.
    assert (Hh : head (lstrip s) = Some c).
    { revert Hl. generalize (lstrip s). intros l.
      destruct l as [|x l]; [discriminate|]. cbn [rev]. rewrite last_snoc.
      intros [= ->]. reflexivity. }
    destruct (lstrip_spec s) as (_ & _ & _ & H). by apply H.
  - replace (last (rev (lstrip (rev (lstrip s))))) with (head (lstrip (rev (lstrip s)))).
    2:{ generalize (lstrip (rev (lstrip s))). intros l.
        destruct l as [|x l]; [reflexivity|]. cbn [rev]. by rewrite last_snoc. }
    destruct (lstrip_spec (rev (lstrip s))) as (_ & _ & _ & H). apply H.
Qed.

(** [unlock] when [bw unlock] exits with status 0: the session key is the
    output without the surrounding whitespace, and an output of whitespace
    alone is an error, so that a key that is returned is not empty and
    neither starts nor ends with whitespace. *)
Theorem unlock_session_key (cli : BitwardenCLI) (pw : pystr) (h : Host)
    (r : CompletedProcess) :
  let args := [PStr (cli_path cli); PStr (py "unlock"); PStr pw; PStr (py "--raw")] in
  processes h (length (invocations h)) args = Ret r ->
  returncode r = 0 ->
  unlock cli pw h =
    (if bool_decide (strip (stdout r) = [])
     then Raise (Exn BitwardenCLIError (py "Unlock returned empty session key"))
     else Ret (strip (stdout r)),
     invoked args h) /\
  (forall key h', unlock cli pw h = (Ret key, h') ->
     key <> [] /\
     (forall c, head key = Some c -> is_space c = false) /\
     (forall c, last key = Some c -> is_space c = false)).
Proof.
  cbn zeta. intros Hp Hr.
  assert (Heq : unlock cli pw h =
    (if bool_decide (strip (stdout r) = [])
     then Raise (Exn BitwardenCLIError (py "Unlock returned empty session key"))
     else Ret (strip (stdout r)),
     invoked [PStr (cli_path cli); PStr (py "unlock"); PStr pw; PStr (py "--raw")] h)).
  { unfold unlock. py_unfold.
    rewrite (subprocess_run_returns _ false _ _ Hp) by reflexivity. cbn.
    rewrite Hr. cbn. case_bool_decide; reflexivity. }
  split; [exact Heq|].
  intros key h'. rewrite Heq. case_bool_decide as Hk; intros [= <- <-].
  split; [exact Hk|]. apply strip_spec.
Qed.

(** [list_items] turns the errors of the child process and of the JSON
    parser into [BitwardenCLIError], each class with its own text: a
    [TimeoutExpired] of [bw list items] becomes "Item search timed out", a
    non-zero exit "Failed to list items: " and the error stream, output that
    [json.loads] rejects with [JSONDecodeError] "Failed to parse CLI
    output: " and the parser's text.  An error of the child process of any
    other class (no executable, say) reaches the caller as it is.  So
    nothing [list_items] raises is a [CalledProcessError], a
    [TimeoutExpired] or a [JSONDecodeError]. *)
Theorem list_items_translates_errors (cli : BitwardenCLI) (search key : pyval)
    (h : Host) :
  let args := [PStr (cli_path cli); PStr (py "list"); PStr (py "items");
               PStr (py "--search"); search; PStr (py "--session"); key] in
  let failed text := (Raise (Exn BitwardenCLIError text), invoked args h) in
  (forall e0, processes h (length (invocations h)) args = Raise e0 ->
     is_TimeoutExpired e0 = true ->
     list_items cli search key h = failed (py "Item search timed out")) /\
  (forall r, processes h (length (invocations h)) args = Ret r ->
     returncode r <> 0 ->
     list_items cli search key h = failed (py "Failed to list items: " ++ stderr r)) /\
  (forall r e0, processes h (length (invocations h)) args = Ret r ->
     returncode r = 0 ->
     json_loads (stdout r) = Raise e0 ->
     is_JSONDecodeError e0 = true ->
     list_items cli search key h =
       failed (py "Failed to parse CLI output: " ++ exn_str e0)) /\
  (forall e0, processes h (length (invocations h)) args = Raise e0 ->
     is_CalledProcessError e0 || is_TimeoutExpired e0 || is_JSONDecodeError e0 = false ->
     list_items cli search key h = (Raise e0, invoked args h)) /\
  (forall e h', list_items cli search key h = (Raise e, h') ->
     is_CalledProcessError e || is_TimeoutExpired e || is_JSONDecodeError e = false).
Proof.
  cbn zeta. split; [|split; [|split; [|split]]].
  - intros e0 Hp He. unfold list_items. py_unfold.
    rewrite (subprocess_run_raises _ _ _ _ Hp). cbn.
    rewrite He, orb_true_r. cbn.
    destruct e0 as [c t]. destruct c; try discriminate He. reflexivity.
  - intros r Hp Hr. unfold list_items. py_unfold.
    rewrite (subprocess_run_checked _ _ _ Hp Hr). reflexivity.
  - intros r e0 Hp Hr Hj He. unfold list_items. py_unfold.
    rewrite (subprocess_run_returns _ true _ _ Hp) by (rewrite Hr; reflexivity).
    cbn. rewrite Hj. cbn. rewrite He, orb_true_r. cbn.
    destruct e0 as [c t]. destruct c; try discriminate He. reflexivity.
  - intros e0 Hp He. unfold list_items. py_unfold.
    rewrite (subprocess_run_raises _ _ _ _ Hp). cbn. rewrite He. reflexivity.
  - intros e h'. unfold list_items, try_except.
    destruct (bind _ _ h) as [[l|e0] h0] eqn:Hb; [discriminate|].
    destruct (is_CalledProcessError e0 || is_TimeoutExpired e0 || is_JSONDecodeError e0)
      eqn:Hc.
    + unfold raise. destruct (exn_cls e0); intros [= <- <-]; reflexivity.
    + intros [= <- <-]. exact Hc.
Qed.

(** The outcomes of [list_items] once [bw list items] has run: a non-zero
    exit is an error that carries the error stream, a JSON list is returned
    as it is, and any other JSON value is an error that names its type. *)
Theorem list_items_outcomes (cli : BitwardenCLI) (search key : pyval) (h : Host)
    (r : CompletedProcess) :
  let args := [PStr (cli_path cli); PStr (py "list"); PStr (py "items");
               PStr (py "--search"); search; PStr (py "--session"); key] in
  processes h (length (invocations h)) args = Ret r ->
  (returncode r <> 0 ->
   list_items cli search key h =
     (Raise (Exn BitwardenCLIError (py "Failed to list items: " ++ stderr r)),
      invoked args h)) /\
  (forall l, returncode r = 0 -> json_loads (stdout r) = Ret (PList l) ->
   list_items cli search key h = (Ret l, invoked args h)) /\
  (forall v, returncode r = 0 -> json_loads (stdout r) = Ret v ->
   (forall l, v <> PList l) ->
   list_items cli search key h =
     (Raise (Exn BitwardenCLIError
               (py "Expected list from CLI, got <class '" ++ type_name v ++ py "'>")),
      invoked args h)).
Proof.
  cbn zeta. intros Hp. repeat split.
  - intros Hr. unfold list_items. py_unfold.
    rewrite (subprocess_run_checked _ _ _ Hp Hr). reflexivity.
  - intros l Hr Hj. unfold list_items. py_unfold.
    rewrite (subprocess_run_returns _ true _ _ Hp) by (rewrite Hr; reflexivity).
    cbn. rewrite Hj. reflexivity.
  - intros v Hr Hj Hv. unfold list_items. py_unfold.
    rewrite (subprocess_run_returns _ true _ _ Hp) by (rewrite Hr; reflexivity).
    cbn. rewrite Hj. cbn. destruct v; try reflexivity. by destruct (Hv l).
Qed.

(** [lock] runs one child process; it returns on exit status 0, and a
    non-zero exit or a timeout is a [BitwardenCLIError]. *)
Theorem lock_outcomes (cli : BitwardenCLI) (h : Host) :
  let args := [PStr (cli_path cli); PStr (py "lock")] in
  (forall r, processes h (length (invocations h)) args = Ret r ->
     lock cli h =
       (if returncode r =? 0 then Ret tt
        else Raise (Exn BitwardenCLIError (py "Failed to lock vault: " ++ stderr r)),
        invoked args h)) /\
  (forall e, processes h (length (invocations h)) args = Raise e ->
     is_TimeoutExpired e = true ->
     lock cli h =
       (Raise (Exn BitwardenCLIError (py "Vault lock timed out")), invoked args h)).
Proof.
  cbn zeta. split.
  - intros r Hp. unfold lock. py_unfold.
    destruct (returncode r =? 0) eqn:Hr.
    + rewrite (subprocess_run_returns _ true _ _ Hp) by (rewrite Hr; reflexivity).
      reflexivity.
    + rewrite (subprocess_run_checked _ _ _ Hp) by lia. reflexivity.
  - intros e Hp He. unfold lock. py_unfold.
    rewrite (subprocess_run_raises _ _ _ _ Hp). cbn.
    rewrite He, orb_true_r. cbn.
    destruct e as [c t]. destruct c; try discriminate He. reflexivity.
Qed.

(** [status] runs [bw status] and wraps whatever goes wrong, naming the
    cause: when the child process cannot be run or times out, the text is
    "Failed to get status: " and the text of that error; on a non-zero exit,
    the prefix and the text of the [CalledProcessError] of the checked call;
    on exit 0 with output [json.loads] rejects, the prefix and the parser's
    text.  On exit 0 with JSON output the parsed value is returned.  So every
    error of [status] is a [BitwardenCLIError] with that prefix. *)
Theorem status_wraps_every_error (cli : BitwardenCLI) (h : Host) :
  let args := [PStr (cli_path cli); PStr (py "status")] in
  let failed cause :=
    (Raise (Exn BitwardenCLIError (py "Failed to get status: " ++ cause)),
     invoked args h) in
  (forall e0, processes h (length (invocations h)) args = Raise e0 ->
     status cli h = failed (exn_str e0)) /\
  (forall r, processes h (length (invocations h)) args = Ret r ->
     returncode r <> 0 ->
     status cli h = failed (called_process_error_text args (returncode r))) /\
  (forall r e0, processes h (length (invocations h)) args = Ret r ->
     returncode r = 0 ->
     json_loads (stdout r) = Raise e0 ->
     status cli h = failed (exn_str e0)) /\
  (forall r v, processes h (length (invocations h)) args = Ret r ->
     returncode r = 0 ->
     json_loads (stdout r) = Ret v ->
     status cli h = (Ret v, invoked args h)) /\
  (forall e h', status cli h = (Raise e, h') ->
     exists text, e = Exn BitwardenCLIError (py "Failed to get status: " ++ text)).
Proof.
  cbn zeta. split; [|split; [|split; [|split]]].
  - intros e0 Hp. unfold status. py_unfold.
    rewrite (subprocess_run_raises _ _ _ _ Hp). reflexivity.
  - intros r Hp Hr. unfold status. py_unfold.
    rewrite (subprocess_run_checked _ _ _ Hp Hr). reflexivity.
  - intros r e0 Hp Hr Hj. unfold status. py_unfold.
    rewrite (subprocess_run_returns _ true _ _ Hp) by (rewrite Hr; reflexivity).
    cbn. rewrite Hj. reflexivity.
  - intros r v Hp Hr Hj. unfold status. py_unfold.
    rewrite (subprocess_run_returns _ true _ _ Hp) by (rewrite Hr; reflexivity).
    cbn. rewrite Hj. reflexivity.
  - intros e h'. unfold status, try_except, any_Exception.
    destruct (bind _ _ h) as [[v|e0] h0]; [discriminate|].
    unfold raise. intros [= <- <-]. by exists (exn_str e0).
Qed.

End BitwardenCLIFacts.

(* ===================================================================== *)
(** * src/sdk/pake_handler.py: errors of [decrypt], and two handlers      *)
(* ===================================================================== *)

Section PakeHandlerPairs.
Context `{L : Libs}.
Import pake_handler.

(** On a handler that is ready, [decrypt] wraps each failure in a
    [ValueError] that names the cause and leaves the handler as it was:
    for text that is not base64, the fixed prefix and the text of the
    [base64] error; for a token the cipher does not open, the prefix and
    the text of the [Fernet] error; for a plaintext that is not UTF-8, the
    prefix and the text of the [UnicodeDecodeError].  When all three steps
    succeed the decoded plaintext is returned.  So every error of [decrypt]
    on a ready handler is a [ValueError] with that prefix. *)
Theorem decrypt_failure_is_ValueError (c : pystr) (h : PAKEHandler) :
  is_ready h = true ->
  let failed cause :=
    (Raise (Exn ValueError
              (py "Decryption failed (wrong key or tampered data): " ++ cause)), h) in
  (forall e0, b64decode c = Raise e0 -> decrypt c h = failed (exn_str e0)) /\
  (forall f enc e0, _fernet h = Some f ->
     b64decode c = Ret enc -> fernet_decrypt f enc = Raise e0 ->
     decrypt c h = failed (exn_str e0)) /\
  (forall f enc pb, _fernet h = Some f ->
     b64decode c = Ret enc -> fernet_decrypt f enc = Ret pb ->
     utf8_decode pb = None ->
     decrypt c h = failed (decode_error_text pb)) /\
  (forall f enc pb x, _fernet h = Some f ->
     b64decode c = Ret enc -> fernet_decrypt f enc = Ret pb ->
     utf8_decode pb = Some x ->
     decrypt c h = (Ret x, h)) /\
  (forall e h', decrypt c h = (Raise e, h') ->
     h' = h /\
     exists text,
       e = Exn ValueError
             (py "Decryption failed (wrong key or tampered data): " ++ text)).
Proof.
  intros [f Hf]%is_ready_fernet. cbn zeta. split; [|split; [|split; [|split]]].
  - intros e0 Hb. unfold decrypt. py_unfold. rewrite Hf, Hb. reflexivity.
  - intros f' enc e0 Hf' Hb Hd. unfold decrypt. py_unfold.
    rewrite Hf', Hb. cbn. rewrite Hd. reflexivity.
  - intros f' enc pb Hf' Hb Hd Hu. unfold decrypt, bytes_decode. py_unfold.
    rewrite Hf', Hb. cbn. rewrite Hd. cbn. rewrite Hu. reflexivity.
  - intros f' enc pb x Hf' Hb Hd Hu. unfold decrypt, bytes_decode. py_unfold.
    rewrite Hf', Hb. cbn. rewrite Hd. cbn. rewrite Hu. reflexivity.
  - intros e h' Hd.
    split; [by rewrite <- (decrypt_leaves_handler c h), Hd|].
    revert Hd. unfold decrypt, bind at 1, get. rewrite Hf.
    unfold try_except, any_Exception.
    destruct (bind _ _ h) as [[p|e0] h0]; [discriminate|].
    unfold raise. intros [= <- _]. by exists (exn_str e0).
Qed.

(** What a completed exchange leaves in the handler: the shared secret, and
    the Fernet cipher built from its first 32 bytes. *)
Lemma finish_exchange_cipher (m : bytes) (h h' : PAKEHandler) :
  finish_exchange m h = (Ret tt, h') ->
  exists key f,
    _shared_key h' = Some key /\
    Fernet (urlsafe_b64encode (take 32 key)) = Ret f /\
    _fernet h' = Some f.
Proof.
  unfold finish_exchange, bind at 1, get.
  case_bool_decide as Hs; [discriminate|].
  case_bool_decide as Hk; [discriminate|].
  unfold try_except, any_Exception.
  destruct (completion m h) as [[[]|e] h0] eqn:Hc; [|discriminate].
  intros [= <-]. revert Hc.
  unfold completion, on_spake_instance. py_unfold.
  destruct (_spake_instance h) as [i|]; [|done].
  destruct (spake2_finish m i) as [[key|e] i']; cbn; [|discriminate].
  destruct (Fernet (urlsafe_b64encode (take 32 key))) as [f|e] eqn:Hf; cbn;
    [|discriminate].
  intros [= <-]. cbn. eauto.
Qed.

(** Two handlers that completed their exchanges with the same shared
    secret, as the agent and the server do: what one encrypts, the other
    decrypts, for every string of Unicode scalar values. *)
Theorem encrypt_decrypt_across_handlers `{!LibLaws L}
    (a0 a b0 b : PAKEHandler) (ma mb : bytes) (seed : Z) (x : pystr) :
  finish_exchange ma a0 = (Ret tt, a) ->
  finish_exchange mb b0 = (Ret tt, b) ->
  _shared_key a = _shared_key b ->
  Forall (fun c => is_scalar c = true) x ->
  exists c, encrypt seed x a = (Ret c, a) /\ decrypt c b = (Ret x, b).
Proof.
  intros (ka & fa & Hka & Hfa & Ha)%finish_exchange_cipher
         (kb & fb & Hkb & Hfb & Hb)%finish_exchange_cipher Hk [bs Hbs]%utf8_encode_scalar.
  assert (fa = fb) as <- by congruence.
  exists (map Z_of_byte (b64encode (fernet_encrypt fa seed bs))).
  unfold encrypt, decrypt, bind, get, lift, ret, try_except, str_encode, bytes_decode.
  rewrite Ha, Hb, Hbs.
  rewrite (utf8_decode_ascii _ (b64encode_ascii _)).
  rewrite b64decode_b64encode, fernet_decrypt_encrypt.
  rewrite (utf8_decode_encode _ _ Hbs). split; reflexivity.
Qed.

End PakeHandlerPairs.

(* ===================================================================== *)
(** * src/server/pairing_manager.py: revocation and cleanup               *)
(* ===================================================================== *)

Section Revocation.
Context `{L : Libs}.
Import pairing_manager statements approvals.

Lemma same_but_invocations_refl (h : Host) : same_but_invocations h h.
Proof. by repeat split. Qed.

Lemma same_but_invocations_trans (h1 h2 h3 : Host) :
  same_but_invocations h1 h2 -> same_but_invocations h2 h3 ->
  same_but_invocations h1 h3.
Proof.
  unfold same_but_invocations.
  intros (? & ? & ? & ? & ?) (? & ? & ? & ? & ?). repeat split; congruence.
Qed.

Lemma runs_processes_only_ret {A} (a : A) : runs_processes_only (ret a).
Proof. intros h. apply same_but_invocations_refl. Qed.

Lemma runs_processes_only_raise {A} (e : exn) : runs_processes_only (@raise Host A e).
Proof. intros h. apply same_but_invocations_refl. Qed.

Lemma runs_processes_only_lift {A} (o : outcome A) : runs_processes_only (lift o).
Proof. intros h. apply same_but_invocations_refl. Qed.

Lemma runs_processes_only_bind {A B} (c : Py Host A) (k : A -> Py Host B) :
  runs_processes_only c -> (forall a, runs_processes_only (k a)) ->
  runs_processes_only (bind c k).
Proof.
  intros Hc Hk h. unfold bind. specialize (Hc h).
  destruct (c h) as [[a|e] h1]; cbn in *; [|exact Hc].
  eapply same_but_invocations_trans; [exact Hc | apply Hk].
Qed.

Lemma runs_processes_only_try {A} (catches : exn -> bool) (body : Py Host A)
    (handler : exn -> Py Host A) :
  runs_processes_only body -> (forall e, runs_processes_only (handler e)) ->
  runs_processes_only (try_except catches body handler).
Proof.
  intros Hb Hh h. unfold try_except. specialize (Hb h).
  destruct (body h) as [[a|e] h1]; cbn in *; [exact Hb|].
  destruct (catches e); cbn; [|exact Hb].
  eapply same_but_invocations_trans; [exact Hb | apply Hh].
Qed.

Lemma runs_processes_only_run (args : list pyval) (check : bool) :
  runs_processes_only (subprocess_run args check).
Proof.
  intros h. unfold subprocess_run.
  destruct (processes h _ args) as [r|e]; [destruct (_ && _)|]; by repeat split.
Qed.

Ltac processes_only :=
  repeat first
    [ apply runs_processes_only_bind; [|intros ?]
    | apply runs_processes_only_try; [|intros ?]
    | apply runs_processes_only_run
    | apply runs_processes_only_ret
    | apply runs_processes_only_raise
    | apply runs_processes_only_lift
    | match goal with |- runs_processes_only (match ?x with _ => _ end) => destruct x end
    | match goal with |- runs_processes_only (if ?x then _ else _) => destruct x end ].

(** The vault driver touches nothing of the host but the record of child
    processes. *)
Lemma init_host : runs_processes_only bitwarden_cli.init.
Proof.
  unfold bitwarden_cli.init, bitwarden_cli._validate_cli_installed,
    bitwarden_cli._check_login_status. processes_only.
Qed.

Lemma lock_vault_host (h : Host) : same_but_invocations h (snd (lock_vault h)).
Proof.
  revert h. change (runs_processes_only lock_vault).
  unfold lock_vault. apply runs_processes_only_bind; [apply init_host|].
  intros cli. unfold bitwarden_cli.lock. processes_only.
Qed.

(** What [revoke_session] does to the world. *)
Lemma revoke_session_effect (w : World) (sid : pystr) :
  exists h',
    revoke_session sid w =
      (Ret tt,
       {| manager := {| pending_pairings := pending_pairings (manager w);
                        active_sessions := delete sid (active_sessions (manager w));
                        _callback_handler := _callback_handler (manager w) |};
          os := h' |}) /\
    same_but_invocations (os w) h' /\
    (active_sessions (manager w) !! sid = None -> h' = os w).
Proof.
  unfold revoke_session, bind at 1, get.
  destruct (active_sessions (manager w) !! sid) as [s|] eqn:Hs.
  - exists (snd (lock_vault (os w))). split; [|split; [apply lock_vault_host | done]].
    unfold lock_vault. unfold bind, try_except, any_Exception, on_host, modify, ret,
      set_active_sessions. cbn.
    destruct (bitwarden_cli.init (os w)) as [[cli|e] h1]; cbn; [|reflexivity].
    destruct (bitwarden_cli.lock cli h1) as [[[]|e] h2]; reflexivity.
  - exists (os w). split; [|split; [apply same_but_invocations_refl | done]].
    unfold ret. rewrite delete_id by done. by destruct w as [[] ?].
Qed.

(** [revoke_session] never raises.  Afterwards the session is not stored,
    whether it was or not and whether or not the vault could be locked; the
    pairings, the other sessions and the registered handler are as before,
    and of the host only the record of child processes may have grown (an
    id that is not stored starts no child process at all).  From then on
    the id has no status, and a request on it is refused. *)
Theorem revoke_session_removes (w : World) (sid : pystr) :
  exists w',
    revoke_session sid w = (Ret tt, w') /\
    active_sessions (manager w') = delete sid (active_sessions (manager w)) /\
    pending_pairings (manager w') = pending_pairings (manager w) /\
    _callback_handler (manager w') = _callback_handler (manager w) /\
    same_but_invocations (os w) (os w') /\
    (active_sessions (manager w) !! sid = None -> w' = w) /\
    get_session_status (manager w') sid = None /\
    (forall payload,
       handle_credential_request sid payload w' =
         (Ret (error_result (py "Invalid or expired session")), w')).
Proof.
  destruct (revoke_session_effect w sid) as (h' & Heq & Hh & Hnone).
  eexists. split; [exact Heq|]. cbn.
  repeat (split; [done|]).
  split; [|split].
  - intros Hs. rewrite (Hnone Hs), delete_id by done. by destruct w as [[] ?].
  - apply get_session_status_None. cbn. apply lookup_delete_eq.
  - intros payload. unfold handle_credential_request. py_unfold.
    rewrite lookup_delete_eq. reflexivity.
Qed.

(** Which keys [keys_where] lists. *)
Lemma elem_of_keys_where {V} (test : V -> bool) (table : gmap pystr V) (k : pystr) :
  k ∈ keys_where test table <-> exists v, table !! k = Some v /\ test v = true.
Proof.
  unfold keys_where. rewrite list_elem_of_In, in_map_iff. split.
  - intros ([k' v] & <- & Hin). apply filter_In in Hin as [Hin Ht].
    apply list_elem_of_In, elem_of_map_to_list in Hin. by exists v.
  - intros (v & Hk & Ht). exists (k, v). split; [done|].
    apply filter_In. split; [|done].
    by apply list_elem_of_In, elem_of_map_to_list.
Qed.

Lemma bind_modify {S B} (f : S -> S) (k : unit -> Py S B) (s : S) :
  bind (modify f) k s = k tt (f s).
Proof. reflexivity. Qed.

(** Deleting pairings one after the other. *)
Lemma for_each_delete_pairing (codes : list pystr) (w : World) :
  exists w',
    for_each codes (fun code => modify (set_pending_pairings (delete code))) w
      = (Ret tt, w') /\
    (forall k, pending_pairings (manager w') !! k =
               if bool_decide (k ∈ codes) then None
               else pending_pairings (manager w) !! k) /\
    active_sessions (manager w') = active_sessions (manager w) /\
    _callback_handler (manager w') = _callback_handler (manager w) /\
    os w' = os w.
Proof.
  revert w. induction codes as [|c codes IH]; intros w; cbn [for_each].
  - exists w. split; [reflexivity|]. split; [|done].
    intros k. case_bool_decide as Hk; [|done]. by apply elem_of_nil in Hk.
  - rewrite bind_modify.
    destruct (IH (set_pending_pairings (delete c) w)) as (w' & -> & Hp & Hs & Hc & Ho).
    exists w'. split; [reflexivity|]. split; [|done].
    intros k. rewrite Hp. cbn.
    destruct (decide (k = c)) as [->|Hne].
    + rewrite lookup_delete_eq.
      rewrite (bool_decide_eq_true_2 (c ∈ c :: codes)) by apply list_elem_of_here.
      by case_bool_decide.
    + rewrite lookup_delete_ne by done.
      repeat case_bool_decide; try done.
      * exfalso. by apply H0, list_elem_of_further.
      * exfalso. apply elem_of_cons in H0 as [?|?]; done.
Qed.

(** Revoking sessions one after the other, in any order. *)
Lemma for_each_revoke_session (sids : list pystr) (w : World) :
  exists w',
    for_each sids revoke_session w = (Ret tt, w') /\
    (forall k, active_sessions (manager w') !! k =
               if bool_decide (k ∈ sids) then None
               else active_sessions (manager w) !! k) /\
    pending_pairings (manager w') = pending_pairings (manager w) /\
    _callback_handler (manager w') = _callback_handler (manager w) /\
    same_but_invocations (os w) (os w').
Proof.
  revert w. induction sids as [|c sids IH]; intros w; cbn [for_each].
  - exists w. split; [reflexivity|]. split; [|by repeat split].
    intros k. case_bool_decide as Hk; [|done]. by apply elem_of_nil in Hk.
  - unfold bind at 1.
    destruct (revoke_session_effect w c) as (h1 & -> & Hh1 & _).
    match goal with |- context [for_each sids revoke_session ?w1] =>
      destruct (IH w1) as (w' & -> & Hs & Hp & Hc & Ho) end.
    exists w'. split; [reflexivity|]. cbn in *.
    split; [|split; [done|split; [done|]]].
    + intros k. rewrite Hs.
      destruct (decide (k = c)) as [->|Hne].
      * rewrite lookup_delete_eq.
        rewrite (bool_decide_eq_true_2 (c ∈ c :: sids)) by apply list_elem_of_here.
        by case_bool_decide.
      * rewrite lookup_delete_ne by done.
        repeat case_bool_decide; try done.
        -- exfalso. by apply H0, list_elem_of_further.
        -- exfalso. apply elem_of_cons in H0 as [?|?]; done.
    + by eapply same_but_invocations_trans.
Qed.

(** [cleanup_expired] reads the clock once and never raises.  Afterwards
    exactly the pairings and the sessions whose [expires_at] is not before
    that reading are left, each as it was; an entry that expires at the very
    reading stays.  The registered handler is untouched. *)
Theorem cleanup_expired_keeps_unexpired (w : World) :
  exists w',
    cleanup_expired w = (Ret tt, w') /\
    (forall code,
       pending_pairings (manager w') !! code =
         match pending_pairings (manager w) !! code with
         | Some pairing =>
             if reading (os w) 0 >? PairingState.expires_at pairing
             then None else Some pairing
         | None => None
         end) /\
    (forall sid,
       active_sessions (manager w') !! sid =
         match active_sessions (manager w) !! sid with
         | Some session =>
             if reading (os w) 0 >? Session.expires_at session
             then None else Some session
         | None => None
         end) /\
    _callback_handler (manager w') = _callback_handler (manager w) /\
    same_but_invocations (tick (os w)) (os w').
Proof.
  unfold cleanup_expired. unfold bind at 1. unfold on_host at 1, utcnow at 1.
  cbv beta iota. unfold bind at 1, get at 1. cbv beta iota.
  set (w0 := {| manager := manager w; os := tick (os w) |}).
  set (now := clock (os w) (ticks (os w))).
  unfold bind at 1.
  destruct (for_each_delete_pairing
              (keys_where (fun pairing => now >? PairingState.expires_at pairing)
                          (pending_pairings (manager w0))) w0)
    as (w1 & -> & Hp1 & Hs1 & Hc1 & Ho1).
  unfold bind at 1, get at 1. cbv beta iota.
  destruct (for_each_revoke_session
              (keys_where (fun session => now >? Session.expires_at session)
                          (active_sessions (manager w1))) w1)
    as (w' & -> & Hs2 & Hp2 & Hc2 & Ho2).
  exists w'. split; [reflexivity|].
  change (reading (os w) 0) with now. subst w0. cbn in *.
  split; [|split; [|split]].
  - intros code. rewrite Hp2, Hp1.
    case_bool_decide as Hk.
    + apply elem_of_keys_where in Hk as (v & -> & ->). reflexivity.
    + destruct (pending_pairings (manager w) !! code) as [v|] eqn:Hv; [|done].
      destruct (_ >? _) eqn:Ht; [|done].
      exfalso. apply Hk, elem_of_keys_where. eauto.
  - intros sid. rewrite Hs2, Hs1.
    case_bool_decide as Hk.
    + apply elem_of_keys_where in Hk as (v & Hv & Ht). by rewrite Hv, Ht.
    + destruct (active_sessions (manager w) !! sid) as [v|] eqn:Hv; [|done].
      destruct (_ >? _) eqn:Ht; [|done].
      exfalso. apply Hk, elem_of_keys_where. eauto.
  - congruence.
  - by rewrite Ho1 in Ho2.
Qed.

End Revocation.

(* ===================================================================== *)
(** * src/server/pairing_manager.py: the pairing flow                     *)
(* ===================================================================== *)

Section PairingFlow.
Context `{L : Libs}.
Import pairing_manager statements approvals.

(** [mark_user_entered_code] on a code that is not pending, or whose
    pairing has expired: the answer is [False], the vault is not contacted,
    and an expired pairing is removed. *)
Theorem mark_user_entered_code_rejects (w : World) (code pw : pystr) :
  (pending_pairings (manager w) !! code = None ->
   mark_user_entered_code code pw w = (Ret false, w)) /\
  (forall pairing,
     pending_pairings (manager w) !! code = Some pairing ->
     reading (os w) 0 > PairingState.expires_at pairing ->
     mark_user_entered_code code pw w =
       (Ret false,
        {| manager := {| pending_pairings := delete code (pending_pairings (manager w));
                         active_sessions := active_sessions (manager w);
                         _callback_handler := _callback_handler (manager w) |};
           os := tick (os w) |})).
Proof.
  split.
  - intros Hp. unfold mark_user_entered_code. py_unfold. rewrite Hp. reflexivity.
  - intros pairing Hp Hexp. unfold mark_user_entered_code, on_host, utcnow. py_unfold.
    rewrite Hp. cbn. unfold reading in Hexp. cbn in Hexp.
    replace (_ >? _) with true by lia. reflexivity.
Qed.

(** What a successful [mark_user_entered_code] leaves. *)
Lemma mark_user_entered_code_success (w : World) (code pw token : pystr)
    (pairing : PairingState.t) (h' : Host) :
  pending_pairings (manager w) !! code = Some pairing ->
  reading (os w) 0 <= PairingState.expires_at pairing ->
  unlock_vault pw (tick (os w)) = (Ret token, h') ->
  mark_user_entered_code code pw w =
    (Ret true,
     {| manager :=
          {| pending_pairings :=
               <[code := PairingState.set_user_entered true
                           (PairingState.set_bitwarden_session_token (Some token)
                              pairing)]> (pending_pairings (manager w));
             active_sessions := active_sessions (manager w);
             _callback_handler := _callback_handler (manager w) |};
        os := h' |}).
Proof.
  intros Hp Hexp Hu. unfold mark_user_entered_code, on_host, utcnow. py_unfold.
  rewrite Hp. cbn. unfold reading in Hexp. cbn in Hexp.
  replace (_ >? _) with false by lia.
  revert Hu. unfold unlock_vault. py_unfold.
  destruct (bitwarden_cli.init (tick (os w))) as [[cli|e] h1]; cbn; [|discriminate].
  destruct (bitwarden_cli.unlock cli pw h1) as [[t|e] h2]; cbn; [|discriminate].
  intros [= -> ->]. reflexivity.
Qed.

(** [mark_user_entered_code] when the vault opens: the answer is [True],
    and the pairing now carries the session token [bw unlock] printed and
    the [user_entered] flag; the other pairings and the sessions are as
    before.  The master password goes to the vault driver and is stored
    nowhere in the manager. *)
Theorem mark_user_entered_code_unlocks (w : World) (code pw token : pystr)
    (pairing : PairingState.t) (h' : Host) :
  pending_pairings (manager w) !! code = Some pairing ->
  reading (os w) 0 <= PairingState.expires_at pairing ->
  unlock_vault pw (tick (os w)) = (Ret token, h') ->
  exists w',
    mark_user_entered_code code pw w = (Ret true, w') /\
    pending_pairings (manager w') !! code =
      Some (PairingState.set_user_entered true
              (PairingState.set_bitwarden_session_token (Some token) pairing)) /\
    (forall other, other <> code ->
       pending_pairings (manager w') !! other = pending_pairings (manager w) !! other) /\
    active_sessions (manager w') = active_sessions (manager w) /\
    _callback_handler (manager w') = _callback_handler (manager w) /\
    os w' = h'.
Proof.
  intros Hp Hexp Hu. eexists.
  split; [exact (mark_user_entered_code_success _ _ _ _ _ _ Hp Hexp Hu)|]. cbn.
  split; [apply lookup_insert_eq|].
  split; [|done].
  intros other Hne. by apply lookup_insert_ne.
Qed.

(** [exchange_pake_message] on a code that is not pending, or whose pairing
    has expired: the answer is an error, the message is not looked at, and
    an expired pairing is removed. *)
Theorem exchange_pake_message_rejects (w : World) (code msg_in : pystr) :
  (pending_pairings (manager w) !! code = None ->
   exchange_pake_message code msg_in w =
     (Ret (error_result (py "Invalid pairing code")), w)) /\
  (forall pairing,
     pending_pairings (manager w) !! code = Some pairing ->
     reading (os w) 0 > PairingState.expires_at pairing ->
     exchange_pake_message code msg_in w =
       (Ret (error_result (py "Pairing code expired")),
        {| manager := {| pending_pairings := delete code (pending_pairings (manager w));
                         active_sessions := active_sessions (manager w);
                         _callback_handler := _callback_handler (manager w) |};
           os := tick (os w) |})).
Proof.
  split.
  - intros Hp. unfold exchange_pake_message. py_unfold. rewrite Hp. reflexivity.
  - intros pairing Hp Hexp. unfold exchange_pake_message, on_host, utcnow. py_unfold.
    rewrite Hp. cbn. unfold reading in Hexp. cbn in Hexp.
    replace (_ >? _) with true by lia. reflexivity.
Qed.

(** [exchange_pake_message] on a message that is not base64: the error of
    [base64.b64decode] reaches the caller, and the pairing is as it was
    (the message is stored only once decoded). *)
Theorem exchange_pake_message_undecodable (w : World) (code msg_in : pystr)
    (pairing : PairingState.t) (e : exn) :
  pending_pairings (manager w) !! code = Some pairing ->
  reading (os w) 0 <= PairingState.expires_at pairing ->
  b64decode msg_in = Raise e ->
  exchange_pake_message code msg_in w =
    (Raise e, {| manager := manager w; os := tick (os w) |}).
Proof.
  intros Hp Hexp Hb. unfold exchange_pake_message, on_host, utcnow. py_unfold.
  rewrite Hp. cbn. unfold reading in Hexp. cbn in Hexp.
  replace (_ >? _) with false by lia. rewrite Hb. reflexivity.
Qed.

(** The world [create_pairing] leaves, whatever the handler answers. *)
Lemma create_pairing_world (w : World) (agent_id agent_name : pystr) :
  snd (create_pairing agent_id agent_name w) =
    {| manager :=
         {| pending_pairings :=
              <[str_of_int (entropy (os w) (draws (os w)) mod 900000 + 100000)
                := new_pairing w agent_id agent_name]> (pending_pairings (manager w));
            active_sessions := active_sessions (manager w);
            _callback_handler := _callback_handler (manager w) |};
       os := tick (drawn 1 (os w)) |}.
Proof.
  unfold create_pairing, on_host, randbelow, utcnow, new_pairing, reading,
    set_pending_pairings. py_unfold.
  destruct (_callback_handler (manager w)) as [h|] eqn:Hh; cbn; rewrite ?Hh;
    [|reflexivity].
  destruct (callback.on_pairing_created h _) as [[]|e]; cbn; rewrite ?Hh; reflexivity.
Qed.

(** The promotion of a pairing, with the world it leaves. *)
Lemma exchange_pake_message_promotes `{!LibLaws L} (w : World) (code msg_in : pystr)
    (pairing : PairingState.t) (msg msg_out : bytes)
    (h1 h2 : pake_handler.PAKEHandler) :
  pending_pairings (manager w) !! code = Some pairing ->
  reading (os w) 0 <= PairingState.expires_at pairing ->
  PairingState.user_entered pairing = true ->
  b64decode msg_in = Ret msg ->
  pake_handler.start_exchange (entropy (os w) (draws (os w))) code
    (pake_handler.fresh (py "server")) = (Ret msg_out, h1) ->
  pake_handler.finish_exchange msg h1 = (Ret tt, h2) ->
  let sid := py "sess_" ++ session_token (drawn 1 (tick (os w))) in
  exchange_pake_message code msg_in w =
    (Ret [(py "status", PStr (py "success"));
          (py "session_id", PStr sid);
          (py "pake_message", PStr (map Z_of_byte (b64encode msg_out)));
          (py "agent_id", PStr (PairingState.agent_id pairing))],
     {| manager :=
          {| pending_pairings :=
               delete code
                 (<[code := PairingState.set_agent_pake_message (Some msg) pairing]>
                    (pending_pairings (manager w)));
             active_sessions :=
               <[sid := promoted pairing sid h2 (reading (os w) 1)]>
                 (active_sessions (manager w));
             _callback_handler := _callback_handler (manager w) |};
        os := tick (drawn 16 (drawn 1 (tick (os w)))) |}).
Proof.
  intros Hp Hexp Hu Hb Hst Hfin. cbn zeta.
  unfold exchange_pake_message, on_host, utcnow, urandom, call, token_hex, token_bytes.
  rewrite init_server. py_unfold.
  rewrite Hp. cbn. unfold reading in *. cbn in Hexp.
  replace (_ >? _) with false by lia.
  rewrite Hb. cbn. rewrite Hu. cbn. rewrite Hst. cbn. rewrite Hfin. cbn.
  unfold bytes_decode. rewrite (utf8_decode_ascii _ (b64encode_ascii _)). cbn.
  reflexivity.
Qed.

(** The whole pairing, step by step: a pairing is created for an agent, the
    human confirms its code with a master password that opens the vault,
    and the agent's message completes the key exchange, all within the five
    minutes the pairing lasts.  The session that results is that agent's,
    carries the token [bw unlock] printed, and lasts 30 minutes from the
    clock reading of its creation; the code can not be used again. *)
Theorem pairing_flow `{!LibLaws L} (w : World)
    (agent_id agent_name pw token msg_in : pystr) (msg msg_out : bytes)
    (h2 : Host) (s1 s2 : pake_handler.PAKEHandler) :
  let code := str_of_int (entropy (os w) (draws (os w)) mod 900000 + 100000) in
  let w1 := snd (create_pairing agent_id agent_name w) in
  reading (os w1) 0 <= reading (os w) 0 + minutes 5 ->
  unlock_vault pw (tick (os w1)) = (Ret token, h2) ->
  reading h2 0 <= reading (os w) 0 + minutes 5 ->
  b64decode msg_in = Ret msg ->
  pake_handler.start_exchange (entropy h2 (draws h2)) code
    (pake_handler.fresh (py "server")) = (Ret msg_out, s1) ->
  pake_handler.finish_exchange msg s1 = (Ret tt, s2) ->
  exists w2 sid session w3,
    mark_user_entered_code code pw w1 = (Ret true, w2) /\
    exchange_pake_message code msg_in w2 =
      (Ret [(py "status", PStr (py "success"));
            (py "session_id", PStr sid);
            (py "pake_message", PStr (map Z_of_byte (b64encode msg_out)));
            (py "agent_id", PStr agent_id)], w3) /\
    active_sessions (manager w3) !! sid = Some session /\
    Session.agent_id session = agent_id /\
    Session.agent_name session = agent_name /\
    Session.bitwarden_session_token session = Some token /\
    Session.pake_handler session = s2 /\
    Session.expires_at session = reading h2 1 + minutes 30 /\
    pending_pairings (manager w3) !! code = None.
Proof.
  cbn zeta. rewrite create_pairing_world. cbn [os].
  set (code := str_of_int _). set (st := new_pairing w agent_id agent_name).
  intros Hexp1 Hu Hexp2 Hb Hst Hfin.
  eexists. eexists. eexists. eexists.
  split.
  { apply (mark_user_entered_code_success _ code pw token st h2); cbn.
    - apply lookup_insert_eq.
    - exact Hexp1.
    - exact Hu. }
  split.
  { apply (exchange_pake_message_promotes _ code msg_in
             (PairingState.set_user_entered true
                (PairingState.set_bitwarden_session_token (Some token) st))
             msg msg_out s1 s2); cbn; try done.
    apply lookup_insert_eq. }
  cbn. split; [apply lookup_insert_eq|]. cbn.
  repeat (split; [reflexivity|]).
  apply lookup_delete_eq.
Qed.

End PairingFlow.

(* ===================================================================== *)
(** * src/server/pairing_manager.py: approval and retrieval               *)
(* ===================================================================== *)

Section Approval.
Context `{L : Libs}.
Import pairing_manager statements approvals.

(** A timely request on a live session reaches the approval block, in the
    world [asked]. *)
Lemma handle_credential_request_asks (w : World) (sid payload : pystr)
    (session : Session.t) (plaintext : pystr) (d : pydict) (s : pystr) (t : Z) :
  active_sessions (manager w) !! sid = Some session ->
  reading (os w) 1 <= Session.expires_at session ->
  fst (pake_handler.decrypt payload (Session.pake_handler session)) = Ret plaintext ->
  json_loads plaintext = Ret (PDict d) ->
  dict_lookup d (py "timestamp") = Some (PStr s) ->
  fromisoformat (rstrip_Z s) = Ret (Naive t) ->
  reading (os w) 2 - t <= minutes 5 ->
  handle_credential_request sid payload w =
    request_approval (stamped w session) d (asked w sid session).
Proof.
  intros Hs Hexp Hdec Hjson Hts Hiso Hage.
  rewrite (handle_credential_request_live _ _ _ _ Hs Hexp), Hdec, Hjson.
  unfold process_request, dict_subscript, on_host, utcnow, too_old.
  unfold bind at 1 2 3 4 5. unfold lift, ret; cbn.
  rewrite Hts. cbn. rewrite Hiso. cbn.
  unfold reading, minutes in Hage. cbn in Hage.
  replace (_ >? _) with false by lia. reflexivity.
Qed.

(** When the human denies a timely request, the answer is "denied" with
    the handler's [error] (or "User denied"); no child process is started,
    so the vault is not contacted, and the session stays. *)
Theorem denial_keeps_vault_closed (w : World) (sid payload : pystr)
    (session : Session.t) (plaintext : pystr) (d : pydict) (s : pystr) (t : Z)
    (handler : callback.handler) (domain reason approved : pyval) (result : pydict) :
  active_sessions (manager w) !! sid = Some session ->
  reading (os w) 1 <= Session.expires_at session ->
  fst (pake_handler.decrypt payload (Session.pake_handler session)) = Ret plaintext ->
  json_loads plaintext = Ret (PDict d) ->
  dict_lookup d (py "timestamp") = Some (PStr s) ->
  fromisoformat (rstrip_Z s) = Ret (Naive t) ->
  reading (os w) 2 - t <= minutes 5 ->
  _callback_handler (manager w) = Some handler ->
  dict_lookup d (py "domain") = Some domain ->
  dict_lookup d (py "reason") = Some reason ->
  callback.handle_credential_request handler (stamped w session) domain reason
    = Ret result ->
  dict_lookup result (py "approved") = Some approved ->
  truthy approved = false ->
  exists w',
    handle_credential_request sid payload w =
      (Ret [(py "status", PStr (py "denied"));
            (py "error", default (PStr (py "User denied"))
                                 (dict_lookup result (py "error")))], w') /\
    invocations (os w') = invocations (os w) /\
    active_sessions (manager w') !! sid = Some (stamped w session).
Proof.
  intros Hs Hexp Hdec Hjson Hts Hiso Hage Hcb Hdom Hrsn Hres Happ Hno.
  rewrite (handle_credential_request_asks _ _ _ _ _ _ _ _ Hs Hexp Hdec Hjson Hts Hiso Hage).
  exists (asked w sid session).
  split; [|split; [reflexivity | apply lookup_insert_eq]].
  unfold request_approval, dict_subscript. py_unfold.
  rewrite Hcb, Hdom. cbn. rewrite Hrsn. cbn. rewrite Hres. cbn.
  rewrite Happ. cbn. rewrite Hno. reflexivity.
Qed.

(** The item [first_login] picks is the first one whose [type] equals 1. *)
Theorem first_login_picks_first (items : list pyval) (item : pyval) :
  first_login items = Ret (Some item) ->
  exists before after ty,
    items = before ++ item :: after /\
    py_get item "type" PNone = Ret ty /\ py_eq_int ty 1 = true /\
    Forall (fun i => exists t, py_get i "type" PNone = Ret t /\ py_eq_int t 1 = false)
           before.
Proof.
  induction items as [|i items IH]; cbn [first_login]; [discriminate|].
  destruct (py_get i "type" PNone) as [ty|e] eqn:Hi; [|discriminate].
  destruct (py_eq_int ty 1) eqn:Ht.
  - intros [= <-]. exists [], items, ty. repeat split; [done..|constructor].
  - intros (before & after & ty' & -> & Hty & H1 & Hb)%IH.
    exists (i :: before), after, ty'. repeat split; [done..|].
    constructor; [eauto | done].
Qed.

Lemma first_login_type (items : list pyval) (item : pyval) :
  first_login items = Ret (Some item) ->
  exists ty, py_get item "type" PNone = Ret ty /\ py_eq_int ty 1 = true.
Proof.
  induction items as [|i items IH]; cbn [first_login]; [discriminate|].
  destruct (py_get i "type" PNone) as [ty|e] eqn:Hi; [|discriminate].
  destruct (py_eq_int ty 1) eqn:Ht; [|exact IH].
  intros [= <-]. eauto.
Qed.

(** What [encrypt] returns, a handler that holds the same cipher decrypts
    to the text that was encrypted. *)
Lemma encrypt_then_decrypt `{!LibLaws L} (a a' b : pake_handler.PAKEHandler)
    (seed : Z) (x c : pystr) :
  pake_handler.encrypt seed x a = (Ret c, a') ->
  pake_handler._fernet b = pake_handler._fernet a ->
  pake_handler.decrypt c b = (Ret x, b).
Proof.
  unfold pake_handler.encrypt, pake_handler.decrypt, bind, get, lift, ret,
    try_except, str_encode, bytes_decode.
  intros He Hf. rewrite Hf.
  destruct (pake_handler._fernet a) as [f|]; [|discriminate].
  destruct (utf8_encode x) as [bs|] eqn:Hx; [|discriminate].
  rewrite (utf8_decode_ascii _ (b64encode_ascii _)) in He.
  injection He as <- _.
  rewrite b64decode_b64encode, fernet_decrypt_encrypt.
  rewrite (utf8_decode_encode _ _ Hx). reflexivity.
Qed.

Lemma bind_on_host {A B} (c : Py Host A) (k : A -> Py World B) (w : World) :
  bind (on_host c) k w =
    match c (os w) with
    | (Ret a, h) => k a {| manager := manager w; os := h |}
    | (Raise e, h) => (Raise e, {| manager := manager w; os := h |})
    end.
Proof. unfold bind, on_host. by destruct (c (os w)) as [[a|e] h]. Qed.

(** [retrieve_credential] asks the vault, then picks. *)
Lemma retrieve_credential_fetch (session : Session.t) (domain : pyval) (w : World) :
  retrieve_credential session domain w =
    match fetch_items session domain (os w) with
    | (Ret items, h) =>
        pick_credential session domain items {| manager := manager w; os := h |}
    | (Raise e, h) => (Raise e, {| manager := manager w; os := h |})
    end.
Proof.
  change (fetch_items session domain (os w)) with
    (match bitwarden_cli.init (os w) with
     | (Ret cli, h) =>
         bitwarden_cli.list_items cli domain
           (optional_str (Session.bitwarden_session_token session)) h
     | (Raise e, h) => (Raise e, h)
     end).
  unfold retrieve_credential. rewrite bind_on_host.
  destruct (bitwarden_cli.init (os w)) as [[cli|e] h]; [|reflexivity].
  rewrite bind_on_host. cbn [os manager].
  destruct (bitwarden_cli.list_items cli domain _ h) as [[l|e] h']; reflexivity.
Qed.

Section Approved.

Variables (w : World) (sid payload : pystr) (session : Session.t)
  (plaintext : pystr) (d : pydict) (s : pystr) (t : Z)
  (handler : callback.handler) (domain reason approved : pyval) (result : pydict).

Hypothesis stored : active_sessions (manager w) !! sid = Some session.
Hypothesis unexpired : reading (os w) 1 <= Session.expires_at session.
Hypothesis decrypts :
  fst (pake_handler.decrypt payload (Session.pake_handler session)) = Ret plaintext.
Hypothesis parses : json_loads plaintext = Ret (PDict d).
Hypothesis has_timestamp : dict_lookup d (py "timestamp") = Some (PStr s).
Hypothesis timestamp_parses : fromisoformat (rstrip_Z s) = Ret (Naive t).
Hypothesis timely : reading (os w) 2 - t <= minutes 5.
Hypothesis registered : _callback_handler (manager w) = Some handler.
Hypothesis has_domain : dict_lookup d (py "domain") = Some domain.
Hypothesis has_reason : dict_lookup d (py "reason") = Some reason.
Hypothesis answered :
  callback.handle_credential_request handler (stamped w session) domain reason
    = Ret result.
Hypothesis has_approved : dict_lookup result (py "approved") = Some approved.
Hypothesis approves : truthy approved = true.

(** An approved request goes on to the vault. *)
Lemma approved_request_fetches :
  handle_credential_request sid payload w =
    try_except any_Exception
      (retrieve_credential (stamped w session) domain)
      (fun e => ret (error_result (py "Vault access failed: " ++ exn_str e)))
      (asked w sid session).
Proof.
  rewrite (handle_credential_request_asks _ _ _ _ _ _ _ _
             stored unexpired decrypts parses has_timestamp timestamp_parses timely).
  unfold request_approval, dict_subscript. unfold bind at 1, get at 1.
  cbv beta iota. cbn [asked manager touched _callback_handler].
  rewrite registered.
  unfold bind at 1, lift at 1. rewrite has_domain. cbv beta iota.
  unfold bind at 1, lift at 1. rewrite has_reason. cbv beta iota.
  unfold bind at 1, lift at 1. rewrite answered. cbv beta iota.
  unfold bind at 1, lift at 1. rewrite has_approved. cbv beta iota.
  rewrite approves. reflexivity.
Qed.

(** After an approval, an error of the vault driver (no [bw], not logged
    in, a failed or timed out search, output that is not a JSON list) is
    not raised: the answer is an error that carries its text, and the
    session stays. *)
Theorem vault_failure_is_answered (e : exn) (h' : Host) :
  fetch_items (stamped w session) domain (os (asked w sid session)) = (Raise e, h') ->
  handle_credential_request sid payload w =
    (Ret (error_result (py "Vault access failed: " ++ exn_str e)),
     {| manager := manager (asked w sid session); os := h' |}).
Proof.
  intros Hf. rewrite approved_request_fetches.
  unfold try_except, any_Exception. rewrite retrieve_credential_fetch, Hf.
  reflexivity.
Qed.

Variables (items : list pyval) (h1 : Host).
Hypothesis fetched :
  fetch_items (stamped w session) domain (os (asked w sid session)) = (Ret items, h1).

(** Once the items are there, what is left is to pick one. *)
Lemma approved_request_picks :
  handle_credential_request sid payload w =
    try_except any_Exception
      (pick_credential (stamped w session) domain items)
      (fun e => ret (error_result (py "Vault access failed: " ++ exn_str e)))
      {| manager := manager (asked w sid session); os := h1 |}.
Proof.
  rewrite approved_request_fetches.
  unfold try_except, any_Exception. rewrite retrieve_credential_fetch, fetched.
  reflexivity.
Qed.


Variables (item login username password : pyval).
Hypothesis picked : first_login items = Ret (Some item).
Hypothesis has_login : py_get item "login" (PDict []) = Ret login.
Hypothesis has_username : py_get login "username" PNone = Ret username.
Hypothesis has_password : py_get login "password" PNone = Ret password.

Lemma picked_is_truthy : truthy item = true.
Proof.
  destruct (first_login_type _ _ picked) as (ty & Hty & H1).
  destruct item as [| | | | | | |dd]; try discriminate Hty.
  destruct dd; [|reflexivity]. cbn in Hty. injection Hty as <-. discriminate H1.
Qed.

(** After an approval, a login item without a user name or without a
    password (absent, null or empty) gives the answer "Incomplete
    credential"; nothing is encrypted. *)
Theorem incomplete_credential_is_answered :
  truthy username && truthy password = false ->
  handle_credential_request sid payload w =
    (Ret (error_result (py "Incomplete credential (missing username or password)")),
     {| manager := manager (asked w sid session); os := h1 |}).
Proof.
  intros Hi. rewrite approved_request_picks.
  unfold try_except, pick_credential, bind, lift.
  rewrite picked, picked_is_truthy. cbn [negb].
  rewrite has_login, has_username, has_password.
  replace (negb (truthy username) || negb (truthy password)) with true
    by (destruct (truthy username), (truthy password); done).
  reflexivity.
Qed.

(** After an approval, with a login item that has a user name and a
    password: the answer is "approved", and its payload is the encryption,
    under the session's key, of the JSON text of the user name, the
    password, a timestamp and a nonce of 16 hexadecimal characters.  Any
    handler that holds the same cipher, as the agent's does, decrypts the
    payload to that text.  The vault was asked with the session's token. *)
Theorem approved_credential_is_encrypted `{!LibLaws L} (text c : pystr) :
  let nonce := hexlify (map (fun i => byte_of_Z (entropy h1 (draws h1 + i)%nat mod 256))
                            (seq 0 8)) in
  let cred :=
    PDict [(py "username", username); (py "password", password);
           (py "timestamp", PStr (isoformat (reading h1 0) ++ py "Z"));
           (py "nonce", PStr nonce)] in
  truthy username && truthy password = true ->
  json_dumps cred = Ret text ->
  fst (pake_handler.encrypt (entropy h1 (draws h1 + 8)%nat) text
         (Session.pake_handler session)) = Ret c ->
  handle_credential_request sid payload w =
    (Ret [(py "status", PStr (py "approved")); (py "encrypted_payload", PStr c)],
     {| manager := manager (asked w sid session);
        os := drawn 1 (drawn 8 (tick h1)) |}) /\
  length nonce = 16%nat /\
  (forall agent,
     pake_handler._fernet agent
       = pake_handler._fernet (Session.pake_handler session) ->
     pake_handler.decrypt c agent = (Ret text, agent)).
Proof.
  cbn zeta. intros Hc Hj He. split; [|split].
  - rewrite approved_request_picks.
    unfold try_except, pick_credential, bind, lift.
  rewrite picked, picked_is_truthy. cbn [negb].
    rewrite has_login, has_username, has_password.
    replace (negb (truthy username) || negb (truthy password)) with false
      by (destruct (truthy username), (truthy password); done).
    unfold on_host, utcnow, token_hex, token_bytes, urandom, bind, ret.
    cbn -[pake_handler.encrypt].
    unfold reading in Hj. cbn in Hj. rewrite Hj. cbn -[pake_handler.encrypt].
    rewrite He. reflexivity.
  - rewrite hexlify_length, length_map, length_seq. reflexivity.
  - intros agent Hf.
    destruct (pake_handler.encrypt _ text (Session.pake_handler session))
      as [r a'] eqn:Henc. cbn in He. subst r.
    by eapply encrypt_then_decrypt.
Qed.

End Approved.

End Approval.

(* ===================================================================== *)
(** * src/utils/credential_handler.py                                     *)
(* ===================================================================== *)

Section SecureCredentialFacts.
Import credential_handler.

(** A credential is readable until it is cleared.  [clear], and so the
    end of a [with] block ([__exit__], which does not suppress an
    exception) and [__del__], leave an object that holds neither the user
    name nor the password and whose accessors raise [ValueError]; clearing
    it again changes nothing. *)
Theorem clear_makes_credential_unreadable (u p : pystr) :
  let cleared := {| _username := None; _password := None; _cleared := true |} in
  username (init u p) = Ret u /\
  password (init u p) = Ret p /\
  clear (init u p) = (Ret tt, cleared) /\
  __exit__ (init u p) = (Ret false, cleared) /\
  __del__ (init u p) = (Ret tt, cleared) /\
  username cleared = Raise (Exn ValueError (py "Credential has been cleared")) /\
  password cleared = Raise (Exn ValueError (py "Credential has been cleared")) /\
  clear cleared = (Ret tt, cleared) /\
  __exit__ cleared = (Ret false, cleared) /\
  __repr__ cleared = py "SecureCredential(status=cleared)" /\
  __repr__ (init u p) = py "SecureCredential(status=active)".
Proof.
  cbn zeta.
  assert (Hc : clear (init u p) =
                 (Ret tt, {| _username := None; _password := None; _cleared := true |})).
  { unfold clear, init. py_unfold. destruct u, p; reflexivity. }
  repeat split; try reflexivity; try exact Hc.
  - unfold __exit__, bind. rewrite Hc. reflexivity.
  - unfold __del__, try_except. rewrite Hc. reflexivity.
Qed.

End SecureCredentialFacts.

(* ===================================================================== *)
(** * src/server/approval_server.py: the routes                           *)
(* ===================================================================== *)

Section Routes.
Context `{L : Libs}.
Import pairing_manager statements approvals approval_server.

(** [GET /session/status]: 400 without a [session_id], 404 for an id that
    is not stored, and 200 with the manager's status for one that is
    (expired or not).  The route changes nothing. *)
Theorem session_status_codes (w : World) :
  session_status None w =
    (Ret (error_response (py "Missing session_id parameter") 400), w) /\
  session_status (Some []) w =
    (Ret (error_response (py "Missing session_id parameter") 400), w) /\
  (forall sid, sid <> [] ->
     session_status (Some sid) w =
       (match active_sessions (manager w) !! sid with
        | None => Ret (error_response (py "Session not found") 404)
        | Some session =>
            Ret (PDict [(py "active", PBool true);
                        (py "agent_name", PStr (Session.agent_name session));
                        (py "last_access",
                         PStr (isoformat (Session.last_access session) ++ py "Z"));
                        (py "expires_at",
                         PStr (isoformat (Session.expires_at session) ++ py "Z"))],
                 200)
        end, w)).
Proof.
  repeat split.
  intros sid Hsid. unfold session_status, get_session_status. py_unfold.
  case_bool_decide; [done|]. cbn.
  destruct (active_sessions (manager w) !! sid); reflexivity.
Qed.

(** [GET /health] counts the stored sessions and changes nothing. *)
Lemma health_counts (w : World) :
  health w =
    (Ret (PDict [(py "status", PStr (py "ok"));
                 (py "active_sessions",
                  PInt (Z.of_nat (size (active_sessions (manager w)))))], 200), w).
Proof. reflexivity. Qed.

(** [POST /session/revoke], from the value [request.get_json()] returned.
    A parsed body that is falsy (JSON null, false, 0, an empty string, list
    or object) is answered 400 "Missing request body", and an object whose
    [session_id] is absent or falsy 400 "Missing session_id"; nothing
    changes.  With a [session_id] that is a non-empty string the answer is
    200 and [revoked: true] whether or not such a session was stored, and
    afterwards it is not.  What [get_json] does with a request that has no
    JSON body is Flask's and is not part of the statement. *)
Theorem session_revoke_codes (w : World) :
  (forall data, truthy data = false ->
     session_revoke data w = (Ret (error_response (py "Missing request body") 400), w)) /\
  (forall d v, d <> [] ->
     default PNone (dict_lookup d (py "session_id")) = v -> truthy v = false ->
     session_revoke (PDict d) w =
       (Ret (error_response (py "Missing session_id") 400), w)) /\
  (forall d sid, dict_lookup d (py "session_id") = Some (PStr sid) -> sid <> [] ->
     exists w',
       session_revoke (PDict d) w =
         (Ret (PDict [(py "revoked", PBool true); (py "session_id", PStr sid)], 200),
          w') /\
       revoke_session sid w = (Ret tt, w') /\
       active_sessions (manager w') !! sid = None).
Proof.
  split; [|split].
  - intros data Hd. unfold session_revoke. rewrite Hd. reflexivity.
  - intros d v Hd Hv Hf. unfold session_revoke. py_unfold.
    destruct d; [done|]. cbn in *. rewrite Hv, Hf. reflexivity.
  - intros d sid Hd Hsid.
    destruct (revoke_session_effect w sid) as (h' & Heq & _).
    eexists. split; [|split; [exact Heq|apply lookup_delete_eq]].
    unfold session_revoke, revoke_session_of, str_key. py_unfold.
    destruct d; [done|]. cbn in *. rewrite Hd. cbn.
    case_bool_decide; [done|]. cbn. rewrite Heq. reflexivity.
Qed.

(** The three shapes of a result of [exchange_pake_message]. *)
Lemma exchange_pake_message_shape (code msg_in : pystr) (w w' : World) (r : pydict) :
  exchange_pake_message code msg_in w = (Ret r, w') ->
  r = waiting \/
  (exists msg, r = error_result msg) \/
  (exists sid pm aid,
     r = [(py "status", PStr (py "success")); (py "session_id", PStr sid);
          (py "pake_message", PStr pm); (py "agent_id", PStr aid)]).
Proof.
  unfold exchange_pake_message.
  intros (w0 & w1 & _ & H)%bind_ret_inv.
  destruct (pending_pairings (manager w0) !! code) as [pairing|];
    [|injection H as <- _; right; left; eexists; reflexivity].
  apply bind_ret_inv in H as (now & w2 & _ & H).
  destruct (now >? _).
  { apply bind_ret_inv in H as (? & w3 & _ & H). injection H as <- _.
    right; left; eauto. }
  apply bind_ret_inv in H as (msg & w3 & _ & H).
  apply bind_ret_inv in H as (? & w4 & _ & H).
  destruct (negb _); [injection H as <- _; by left|].
  apply bind_ret_inv in H as (handler0 & w5 & _ & H).
  apply bind_ret_inv in H as (seed & w6 & _ & H).
  apply bind_ret_inv in H as ([msg_out handler1] & w7 & _ & H).
  apply bind_ret_inv in H as (finished & w8 & Hf & H).
  destruct finished as [result|ph].
  - injection H as <- _.
    apply try_except_ret_inv in Hf as [Hf | (e & w9 & _ & Hf)].
    + apply bind_ret_inv in Hf as (? & ? & _ & Hf). discriminate Hf.
    + injection Hf as <- _. right; left; eauto.
  - apply bind_ret_inv in H as (token & w9 & _ & H).
    apply bind_ret_inv in H as (now' & w10 & _ & H).
    apply bind_ret_inv in H as (? & w11 & _ & H).
    apply bind_ret_inv in H as (? & w12 & _ & H).
    apply bind_ret_inv in H as (pm & w13 & _ & H).
    injection H as <- _. right; right; eauto.
Qed.

(** [POST /pairing/exchange] with a pairing code and a message that are
    non-empty strings: the status is 202 exactly when the manager says
    "waiting", 200 when it reports success (the body then holds the session
    id, the responder's message and the agent id, and no [status]), and 400
    for each of its errors, with the manager's error text. *)
Theorem pairing_exchange_codes (w w' : World) (d : pydict) (code msg_in : pystr)
    (result : pydict) :
  dict_lookup d (py "pairing_code") = Some (PStr code) -> code <> [] ->
  dict_lookup d (py "pake_message") = Some (PStr msg_in) -> msg_in <> [] ->
  exchange_pake_message code msg_in w = (Ret result, w') ->
  exists body status,
    pairing_exchange (PDict d) w = (Ret (body, status), w') /\
    ((result = waiting /\ body = PDict waiting /\ status = 202) \/
     (exists msg, result = error_result msg /\
                  body = PDict [(py "error", PStr msg)] /\ status = 400) \/
     (exists sid pm aid,
        result = [(py "status", PStr (py "success")); (py "session_id", PStr sid);
                  (py "pake_message", PStr pm); (py "agent_id", PStr aid)] /\
        body = PDict [(py "session_id", PStr sid); (py "pake_message", PStr pm);
                      (py "agent_id", PStr aid)] /\
        status = 200)).
Proof.
  intros Hc Hcn Hm Hmn Hx.
  assert (Hroute : pairing_exchange (PDict d) w =
    (let* status := lift (dict_subscript result "status") in
    if py_eq_str status (py "waiting") then
      ret (PDict [(py "status", PStr (py "waiting"))], 202)
    else
      let* status := lift (dict_subscript result "status") in
      if py_eq_str status (py "success") then
        let* session_id := lift (dict_subscript result "session_id") in
        let* pake_message := lift (dict_subscript result "pake_message") in
        let* agent_id := lift (dict_subscript result "agent_id") in
        ret (PDict [(py "session_id", session_id);
                    (py "pake_message", pake_message);
                    (py "agent_id", agent_id)], 200)
      else
        let* error := lift (dict_subscript result "error") in
        ret (PDict [(py "error", error)], 400)) w').
  { unfold pairing_exchange, exchange_pake_message_of, str_key, py_get.
    destruct d; [done|]. unfold bind, lift, ret.
    cbn -[exchange_pake_message dict_lookup dict_subscript].
    rewrite Hc, Hm. cbn -[exchange_pake_message dict_lookup dict_subscript].
    repeat case_bool_decide; try done.
    cbn -[exchange_pake_message dict_lookup dict_subscript].
    rewrite Hx. reflexivity. }
  rewrite Hroute.
  destruct (exchange_pake_message_shape _ _ _ _ _ Hx)
    as [-> | [(msg & ->) | (sid & pm & aid & ->)]].
  - eexists _, _. split; [reflexivity|]. by left.
  - eexists _, _. split; [reflexivity|]. right; left. eauto.
  - eexists _, _. split; [reflexivity|]. right; right. eauto 10.
Qed.

(** Every result of [handle_credential_request] starts with its
    [status]. *)
Lemma retrieve_credential_status (session : Session.t) (domain : pyval)
    (w w' : World) (r : pydict) :
  retrieve_credential session domain w = (Ret r, w') ->
  exists v rest, r = (py "status", PStr v) :: rest.
Proof.
  unfold retrieve_credential.
  intros (cli & w1 & _ & H)%bind_ret_inv.
  apply bind_ret_inv in H as (items & w2 & _ & H).
  apply bind_ret_inv in H as (login_item & w3 & _ & H).
  destruct login_item as [item|]; [|injection H as <- _; by eexists _, _].
  destruct (truthy item); cbn [negb] in H; [|injection H as <- _; by eexists _, _].
  apply bind_ret_inv in H as (login & w4 & _ & H).
  apply bind_ret_inv in H as (username & w5 & _ & H).
  apply bind_ret_inv in H as (login' & w6 & _ & H).
  apply bind_ret_inv in H as (password & w7 & _ & H).
  destruct (negb (truthy username) || negb (truthy password));
    [injection H as <- _; by eexists _, _|].
  apply bind_ret_inv in H as (now & w8 & _ & H).
  apply bind_ret_inv in H as (nonce & w9 & _ & H).
  apply bind_ret_inv in H as (text & w10 & _ & H).
  apply bind_ret_inv in H as (seed & w11 & _ & H).
  apply bind_ret_inv in H as (enc & w12 & _ & H).
  injection H as <- _. by eexists _, _.
Qed.

Lemma handle_credential_request_status (sid payload : pystr) (w w' : World)
    (r : pydict) :
  handle_credential_request sid payload w = (Ret r, w') ->
  exists v rest, r = (py "status", PStr v) :: rest.
Proof.
  unfold handle_credential_request.
  intros (w0 & w1 & _ & H)%bind_ret_inv.
  destruct (active_sessions (manager w0) !! sid) as [session0|];
    [|injection H as <- _; by eexists _, _].
  apply bind_ret_inv in H as (now1 & w2 & _ & H).
  apply bind_ret_inv in H as (? & w3 & _ & H).
  apply bind_ret_inv in H as (now2 & w4 & _ & H).
  destruct (now2 >? _).
  { apply bind_ret_inv in H as (? & w5 & _ & H). injection H as <- _.
    by eexists _, _. }
  apply bind_ret_inv in H as (decrypted & w5 & Hd & H).
  destruct decrypted as [result|d].
  { injection H as <- _.
    apply try_except_ret_inv in Hd as [Hd | (e & w6 & _ & Hd)].
    - apply bind_ret_inv in Hd as (? & ? & _ & Hd).
      apply bind_ret_inv in Hd as (v & ? & _ & Hd).
      destruct v; discriminate Hd.
    - injection Hd as <- _. by eexists _, _. }
  unfold process_request in H.
  apply bind_ret_inv in H as (ts & w6 & _ & H).
  apply bind_ret_inv in H as (text & w7 & _ & H).
  apply bind_ret_inv in H as (timestamp & w8 & _ & H).
  apply bind_ret_inv in H as (now & w9 & _ & H).
  apply bind_ret_inv in H as (stamp & w10 & _ & H).
  destruct (too_old now stamp); [injection H as <- _; by eexists _, _|].
  unfold request_approval in H.
  apply bind_ret_inv in H as (w11 & w12 & _ & H).
  destruct (_callback_handler (manager w11)) as [h|];
    [|injection H as <- _; by eexists _, _].
  apply bind_ret_inv in H as (domain & w13 & _ & H).
  apply bind_ret_inv in H as (reason & w14 & _ & H).
  apply bind_ret_inv in H as (result & w15 & _ & H).
  apply bind_ret_inv in H as (approved & w16 & _ & H).
  destruct (truthy approved).
  - apply try_except_ret_inv in H as [H | (e & w17 & _ & H)].
    + eapply retrieve_credential_status, H.
    + injection H as <- _. by eexists _, _.
  - injection H as <- _. by eexists _, _.
Qed.

(** [POST /credential/request], from the value [request.get_json()]
    returned.  A parsed body that is falsy (JSON null, false, 0, an empty
    string, list or object) is answered 400 "Missing request body", and an
    object in which [session_id] or [encrypted_payload] is absent or falsy
    400 "Missing session_id or encrypted_payload"; the manager is not
    called.  With a session id and a payload that are non-empty strings,
    whatever the manager answers (approved, denied or an error) is the
    body, as it is, with status 200, and what the manager raises is raised.
    What [get_json] does with a request that has no JSON body is Flask's
    and is not part of the statement. *)
Theorem credential_request_codes (w : World) :
  (forall data, truthy data = false ->
     credential_request data w =
       (Ret (error_response (py "Missing request body") 400), w)) /\
  (forall d : pydict,
     d <> [] ->
     truthy (default PNone (dict_lookup d (py "session_id"))) = false \/
     truthy (default PNone (dict_lookup d (py "encrypted_payload"))) = false ->
     credential_request (PDict d) w =
       (Ret (error_response (py "Missing session_id or encrypted_payload") 400), w)) /\
  (forall d sid payload,
     dict_lookup d (py "session_id") = Some (PStr sid) -> sid <> [] ->
     dict_lookup d (py "encrypted_payload") = Some (PStr payload) -> payload <> [] ->
     credential_request (PDict d) w =
       match handle_credential_request sid payload w with
       | (Ret result, w') => (Ret (PDict result, 200), w')
       | (Raise e, w') => (Raise e, w')
       end).
Proof.
  split; [|split].
  - intros data Hd. unfold credential_request. rewrite Hd. reflexivity.
  - intros d Hd Hf. unfold credential_request, py_get. destruct d; [done|].
    unfold bind, lift, ret. cbn -[dict_lookup].
    destruct Hf as [-> | ->]; [reflexivity|]. by rewrite orb_true_r.
  - intros d sid payload Hs Hsn Hp Hpn.
    unfold credential_request, handle_credential_request_of, str_key, py_get.
    destruct d; [done|]. unfold bind, lift, ret.
    cbn -[handle_credential_request dict_lookup dict_subscript].
    rewrite Hs, Hp. cbn -[handle_credential_request dict_lookup dict_subscript].
    repeat case_bool_decide; try done.
    cbn -[handle_credential_request dict_lookup dict_subscript].
    destruct (handle_credential_request sid payload w) as [[result|e] w'] eqn:Hh;
      [|reflexivity].
    destruct (handle_credential_request_status _ _ _ _ _ Hh) as (v & rest & ->).
    reflexivity.
Qed.

End Routes.

(* ===================================================================== *)
(** * The executable instance satisfies the library laws                  *)
(* ===================================================================== *)

Lemma hex_value_hex_digit (d : Z) :
  0 <= d < 16 -> standin.hex_value (hex_digit d) = Some d.
Proof.
  intros Hd. unfold standin.hex_value, hex_digit.
  destruct (d <? 10) eqn:E.
  - replace ((48 <=? 48 + d) && (48 + d <=? 57)) with true by lia.
    f_equal. lia.
  - replace ((48 <=? 87 + d) && (87 + d <=? 57)) with false by lia.
    replace ((97 <=? 87 + d) && (87 + d <=? 102)) with true by lia.
    f_equal. lia.
Qed.

Lemma unhexlify_hexlify (b : bytes) : standin.unhexlify (hexlify b) = Some b.
Proof.
  induction b as [|x b IH]; cbn [hexlify standin.unhexlify]; [reflexivity|].
  pose proof (Z_of_byte_range x) as Hx.
  rewrite !hex_value_hex_digit by zdiv. rewrite IH.
  replace (16 * (Z_of_byte x / 16) + Z_of_byte x mod 16) with (Z_of_byte x) by zdiv.
  rewrite byte_of_Z_of_byte. reflexivity.
Qed.

Lemma hexlify_ascii (b : bytes) : Forall (fun c => 0 <= c < 128) (hexlify b).
Proof.
  eapply Forall_impl; [apply hexlify_hex|].
  intros c Hc. cbn in Hc. unfold is_hex_digit in Hc. lia.
Qed.

Lemma b16_text (b : bytes) : map Z_of_byte (standin.b16encode b) = hexlify b.
Proof.
  unfold standin.b16encode. rewrite map_map.
  pose proof (hexlify_ascii b) as H.
  induction H as [|c l Hc _ IH]; cbn [map]; [reflexivity|].
  rewrite Z_of_byte_of_Z by lia. by rewrite IH.
Qed.

Lemma standin_laws (json_table : list (pystr * pyval))
    (iso_table : list (pystr * datetime)) :
  LibLaws (standin.libs json_table iso_table).
Proof.
  split; cbn.
  - intros b. unfold standin.b16encode. apply List.Forall_map.
    eapply Forall_impl; [apply hexlify_ascii|].
    intros c Hc. cbn in Hc. rewrite Z_of_byte_of_Z; lia.
  - intros b. unfold standin.b16decode. by rewrite b16_text, unhexlify_hexlify.
  - intros f seed m. unfold standin.unseal, standin.seal.
    replace (Z_of_byte Byte.x80 =? 128) with true by reflexivity.
    rewrite Z.eqb_refl. reflexivity.
Qed.

(* ===================================================================== *)
(** * Concrete runs: where the code departs from a claim, and instances  *)
(* ===================================================================== *)

Section Runs.
Import pairing_manager statements examples.

(** Decides a closed statement by evaluation: by conversion where the
    statement holds handlers or worlds, on the virtual machine otherwise. *)
Ltac run := first [ reflexivity | vm_compute; first [ reflexivity | discriminate ] ].

(** C1, counterexample.  A request stamped ten minutes in the future
    (2026-01-01T00:10:00Z against a clock at 2026-01-01T00:00:00) passes
    the replay check: it reaches the approver, who here denies it. *)
Lemma replay_future_timestamp_accepted :
  fromisoformat (rstrip_Z (py "2026-01-01T00:10:00Z"))
    = Ret (Naive (epoch_2026 + minutes 10)) /\
  (epoch_2026 + minutes 10) - reading (os (live (Some denying))) 2 > minutes 5 /\
  fst (handle_credential_request sid (payload_of future_request) (live (Some denying)))
    = Ret [(py "status", PStr (py "denied")); (py "error", PStr (py "User denied"))].
Proof. repeat split; run. Qed.

(** C1, an instance: the request stamped ten minutes in the past is
    rejected as a replay. *)
Lemma replay_rejected_witness :
  reading (os (live (Some denying))) 2 - (epoch_2026 - minutes 10) > minutes 5 /\
  fst (handle_credential_request sid (payload_of old_request) (live (Some denying)))
    = Ret replay_error.
Proof.
  split; [run|].
  apply (replay_rejected_iff_older_than_five_minutes
           (live (Some denying)) sid (payload_of old_request)
           (session (epoch_2026 + minutes 29)) (object_text old_request)
           (map (fun kv => (py (fst kv), PStr (py (snd kv)))) old_request));
    [run | run | run | run |].
  exists (py "2025-12-31T23:50:00Z"), (epoch_2026 - minutes 10).
  repeat split; run.
Defined.

(** C2, counterexample.  A request that is a JSON object without a
    [timestamp] is not answered with "Decryption failed": the call raises
    [KeyError]. *)
Lemma missing_timestamp_raises_KeyError :
  json_loads (object_text unstamped_request) = Ret (object_value unstamped_request) /\
  fst (handle_credential_request sid (payload_of unstamped_request) (live (Some denying)))
    = Raise (Exn KeyError (py "'timestamp'")).
Proof. repeat split; run. Qed.

(** C2, an instance: a payload that is not base64 text of a token. *)
Lemma decryption_failure_witness :
  fst (handle_credential_request sid (py "XXXXX") (live None))
    = Ret (error_result (py "Decryption failed")).
Proof.
  destruct (decryption_failure_cases (live None) sid
              (session (epoch_2026 + minutes 29))) as (Hraise & _);
    [run | run |].
  rewrite (Hraise (py "XXXXX")
             (Exn ValueError (py "Decryption failed (wrong key or tampered data): "
                              ++ py "Incorrect padding"))); run.
Defined.



(** C4, an instance: the pairing on code 100000 after the human has
    unlocked the vault with token T. *)
Lemma promotion_witness :
  exists token w',
    length token = 32%nat /\
    Forall (fun c => is_hex_digit c = true) token /\
    exchange_pake_message (py "100000") agent_message
      (pending true (Some (py "T")) quiet_host) =
      (Ret [(py "status", PStr (py "success"));
            (py "session_id", PStr (py "sess_" ++ token));
            (py "pake_message",
             PStr (map Z_of_byte (b64encode (message_of responder_started))));
            (py "agent_id", PStr (py "a1"))], w') /\
    active_sessions (manager w') !! (py "sess_" ++ token) =
      Some (promoted (pairing true (Some (py "T"))) (py "sess_" ++ token) responder
              (reading quiet_host 1)) /\
    Session.bitwarden_session_token
      (promoted (pairing true (Some (py "T"))) (py "sess_" ++ token) responder
         (reading quiet_host 1)) = Some (py "T") /\
    Session.expires_at
      (promoted (pairing true (Some (py "T"))) (py "sess_" ++ token) responder
         (reading quiet_host 1)) = reading quiet_host 1 + minutes 30 /\
    pending_pairings (manager w') !! py "100000" = None.
Proof.
  apply (@promotion_creates_session libs (standin_laws _ _)
           (pending true (Some (py "T")) quiet_host) (py "100000") agent_message
           (pairing true (Some (py "T"))) (message_of agent_started)
           (message_of responder_started) (snd responder_started) responder);
    run.
Defined.

(** C5, counterexample.  A session that expired a minute ago and is still
    stored is reported active. *)
Lemma expired_session_reported_active :
  Session.expires_at (session (epoch_2026 - minutes 1)) < reading (os expired) 0 /\
  active_sessions (manager expired) !! sid = Some (session (epoch_2026 - minutes 1)) /\
  option_map (fun status => dict_lookup status (py "active"))
             (get_session_status (manager expired) sid)
    = Some (Some (PBool true)).
Proof. repeat split; run. Qed.

(** C5, an instance: the same session on a credential request. *)
Lemma session_expiry_witness :
  (exists status,
     get_session_status (manager expired) sid = Some status /\
     dict_lookup status (py "active") = Some (PBool true)) /\
  (exists w',
     handle_credential_request sid (payload_of fresh_request) expired =
       (Ret (error_result (py "Session expired")), w') /\
     active_sessions (manager w') = delete sid (active_sessions (manager expired)) /\
     get_session_status (manager w') sid = None).
Proof.
  destruct (session_expiry expired sid (session (epoch_2026 - minutes 1)))
    as (Hstatus & Hrequest); [run|].
  split; [exact Hstatus|].
  apply (Hrequest (payload_of fresh_request)). run.
Defined.

(** C6, counterexample.  With a pairing of agent a1 pending on code 100000,
    a draw of 0 gives the new pairing of agent a2 the same code, and the
    entry of a1 is replaced. *)
Lemma create_pairing_overwrites_on_collision :
  PairingState.agent_id <$>
    (pending_pairings (manager (pending false None quiet_host)) !! py "100000")
    = Some (py "a1") /\
  fst (create_pairing (py "a2") (py "A2") (pending false None quiet_host))
    = Ret (py "100000", epoch_2026 + minutes 5) /\
  PairingState.agent_id <$>
    (pending_pairings
       (manager (snd (create_pairing (py "a2") (py "A2") (pending false None quiet_host))))
     !! py "100000")
    = Some (py "a2") /\
  size (pending_pairings
          (manager (snd (create_pairing (py "a2") (py "A2")
                           (pending false None quiet_host))))) = 1%nat.
Proof. repeat split; run. Qed.

(** C6, an instance: the same call. *)
Lemma create_pairing_witness :
  pending_pairings
    (manager (snd (create_pairing (py "a2") (py "A2") (pending false None quiet_host))))
    !! py "100000"
    = Some (new_pairing (pending false None quiet_host) (py "a2") (py "A2")) /\
  fst (create_pairing (py "a2") (py "A2") (pending false None quiet_host))
    = Ret (py "100000", epoch_2026 + minutes 5).
Proof.
  destruct (create_pairing_inserts (pending false None quiet_host) (py "a2") (py "A2"))
    as (_ & _ & Hlookup & _ & Hret).
  split; [exact Hlookup|].
  rewrite Hret; [run|]. intros h Hh. discriminate Hh.
Defined.

(** C7, an instance: [bw unlock] answers "Invalid master password." *)
Lemma unlock_failure_witness :
  exists h',
    mark_user_entered_code (py "100000") (py "wrong") (pending false None locked_host)
      = (Ret false, {| manager := manager (pending false None locked_host); os := h' |}) /\
    length (invocations h') = 3%nat /\
    fst (exchange_pake_message (py "100000") agent_message
           {| manager := manager (pending false None locked_host); os := h' |})
      = Ret waiting.
Proof.
  eexists.
  destruct (unlock_failure_leaves_pairing (pending false None locked_host)
              (py "100000") (py "wrong") (pairing false None)
              (Exn BitwardenCLIError (py "Invalid master password"))
              (snd (unlock_vault (py "wrong") (tick locked_host))))
    as (Hmark & _ & Hwait); [run | run | run |].
  split; [exact Hmark|]. split; [run|].
  apply (proj2 (Hwait agent_message (message_of agent_started)
                  ltac:(run) ltac:(run))).
  reflexivity.
Defined.

(** C7, counterexample.  A pairing the human has already unlocked: a later
    attempt with a wrong password returns [False] and leaves the pairing as
    it was, entered and with its token, and the agent's next exchange
    succeeds; it does not return waiting. *)
Lemma failed_retry_does_not_wait :
  fst (unlock_vault (py "wrong") (tick locked_host))
    = Raise (Exn BitwardenCLIError (py "Invalid master password")) /\
  fst (mark_user_entered_code (py "100000") (py "wrong")
         (pending true (Some (py "T")) locked_host)) = Ret false /\
  option_map PairingState.user_entered
    (pending_pairings
       (manager (snd (mark_user_entered_code (py "100000") (py "wrong")
                        (pending true (Some (py "T")) locked_host))))
       !! py "100000") = Some true /\
  option_map PairingState.bitwarden_session_token
    (pending_pairings
       (manager (snd (mark_user_entered_code (py "100000") (py "wrong")
                        (pending true (Some (py "T")) locked_host))))
       !! py "100000") = Some (Some (py "T")) /\
  match fst (exchange_pake_message (py "100000") agent_message
               (snd (mark_user_entered_code (py "100000") (py "wrong")
                       (pending true (Some (py "T")) locked_host)))) with
  | Ret result => dict_lookup result (py "status")
  | Raise _ => None
  end = Some (PStr (py "success")).
Proof. repeat split; run. Qed.

(** C8, an instance: the started server handler of the run on 123456, and
    the handler that has finished. *)
Lemma state_machine_witness :
  pake_handler.start_exchange 1 code (snd server_started)
    = (Raise (Exn RuntimeError (py "PAKE exchange already started")), snd server_started) /\
  pake_handler.encrypt 1 (py "x") (snd server_started)
    = (Raise pake_handler.not_completed, snd server_started) /\
  pake_handler.finish_exchange [] server
    = (Raise (Exn RuntimeError (py "PAKE exchange already completed")), server).
Proof.
  destruct (state_machine_boundaries (snd server_started))
    as (Hstart & _ & _ & Hfinish & Hcrypt & _).
  split; [apply Hstart; run|].
  split; [exact (proj1 (Hcrypt eq_refl 1 (py "x") []))|].
  apply (Hfinish (message_of client_started)). run.
Defined.

(** C9, counterexample.  The string made of the lone surrogate U+D800 is a
    [str], and [encrypt] raises on it: there is nothing to decrypt. *)
Lemma lone_surrogate_does_not_encrypt :
  pake_handler.is_ready server = true /\
  fst (pake_handler.encrypt 5 [55296] server)
    = Raise (Exn UnicodeEncodeError (encode_error_text [55296])).
Proof. repeat split; run. Qed.

(** C9, an instance: a string with CJK characters and one beyond the basic
    plane. *)
Lemma encrypt_decrypt_roundtrip_witness :
  exists c,
    pake_handler.encrypt 5 [72; 101; 108; 108; 111; 32; 19990; 30028; 32; 128272] server
      = (Ret c, server) /\
    pake_handler.decrypt c server
      = (Ret [72; 101; 108; 108; 111; 32; 19990; 30028; 32; 128272], server).
Proof.
  apply (@encrypt_decrypt_roundtrip libs (standin_laws _ _) server 5
           [72; 101; 108; 108; 111; 32; 19990; 30028; 32; 128272]).
  - run.
  - repeat constructor.
Defined.

(** C10, an instance: a timely request on the live session, no handler. *)
Lemma no_handler_registered_witness :
  exists w',
    handle_credential_request sid (payload_of fresh_request) (live None) =
      (Ret (error_result (py "No approval handler registered")), w') /\
    invocations (os w') = [] /\
    active_sessions (manager w') =
      <[sid := Session.set_last_access epoch_2026 (session (epoch_2026 + minutes 29))]>
        (active_sessions (manager (live None))) /\
    pending_pairings (manager w') = ∅ /\
    _callback_handler (manager w') = None.
Proof.
  apply (no_handler_registered (live None) sid (payload_of fresh_request)
           (session (epoch_2026 + minutes 29)) (object_text fresh_request)
           (map (fun kv => (py (fst kv), PStr (py (snd kv)))) fresh_request)
           (py "2026-01-01T00:00:00Z") epoch_2026);
    run.
Defined.

(** [encrypt] on a string with a surrogate in second place. *)
Lemma encrypt_surrogate_witness :
  pake_handler.encrypt 5 [104; 56832] server
    = (Raise (Exn UnicodeEncodeError (encode_error_text [104; 56832])), server).
Proof.
  apply (encrypt_surrogate server 5 [104; 56832]); [run|].
  right. left. reflexivity.
Defined.

(** [unlock] on the host whose [bw unlock] exits with status 1. *)
Lemma unlock_nonzero_exit_witness :
  exists text,
    bitwarden_cli.unlock {| bitwarden_cli.cli_path := py "bw" |} (py "wrong") locked_host
      = (Raise (Exn BitwardenCLIError text),
         invoked [PStr (py "bw"); PStr (py "unlock"); PStr (py "wrong"); PStr (py "--raw")]
           locked_host).
Proof.
  apply (unlock_nonzero_exit {| bitwarden_cli.cli_path := py "bw" |} (py "wrong")
           locked_host
           {| returncode := 1; stdout := []; stderr := py "Invalid master password." |});
    [run | discriminate].
Defined.

End Runs.

(* ===================================================================== *)
(** * Concrete runs that reach the vault                                  *)
(* ===================================================================== *)

Section VaultRuns.
Import pairing_manager statements approvals approval_server scenarios.

Ltac run := first [ reflexivity | vm_compute; first [ reflexivity | discriminate ] ].

(** A run is its result and the state it leaves. *)
Lemma run_result {A B} (p : A * B) (a : A) : fst p = a -> p = (a, snd p).
Proof. intros <-. by destruct p. Qed.

(** No [bw] on the host. *)
Lemma init_cli_not_found_witness :
  bitwarden_cli.init examples.quiet_host =
    (Raise (Exn BitwardenCLIError
              (py "Bitwarden CLI not found at 'bw'. "
               ++ py "Please install from https://bitwarden.com/help/cli/")),
     invoked [PStr (py "bw"); PStr (py "--version")] examples.quiet_host).
Proof.
  apply (init_cli_not_found examples.quiet_host
           (Exn FileNotFoundError (py "No such file or directory: 'bw'"))); run.
Defined.

(** A [bw] that exits with status 1 on [--version]. *)
Lemma init_version_failure_escapes_witness :
  exists text,
    bitwarden_cli.init broken_host =
      (Raise (Exn (CalledProcessError (py "bw: cannot execute")) text),
       invoked [PStr (py "bw"); PStr (py "--version")] broken_host).
Proof.
  eexists.
  apply (init_version_failure_escapes broken_host
           {| returncode := 1; stdout := []; stderr := py "bw: cannot execute" |});
    [run | discriminate].
Defined.

(** A [bw] that is logged in, its vault locked. *)
Lemma init_login_status_witness :
  bitwarden_cli.init (vault_host []) =
    (Ret {| bitwarden_cli.cli_path := py "bw" |},
     invoked [PStr (py "bw"); PStr (py "status")]
       (invoked [PStr (py "bw"); PStr (py "--version")] (vault_host []))).
Proof.
  apply (init_login_status (vault_host [])
           {| returncode := 0; stdout := py "2024.1.0"; stderr := [] |}
           {| returncode := 0; stdout := status_text; stderr := [] |}
           [(py "status", PStr (py "locked"))]); run.
Defined.

(** [bw unlock] prints the key with white space around it. *)
Lemma unlock_session_key_witness :
  fst (bitwarden_cli.unlock {| bitwarden_cli.cli_path := py "bw" |} (py "hunter2")
         (vault_host [])) = Ret (py "TOKEN").
Proof.
  destruct (unlock_session_key {| bitwarden_cli.cli_path := py "bw" |} (py "hunter2")
              (vault_host [])
              {| returncode := 0; stdout := [32; 32] ++ py "TOKEN" ++ [10];
                 stderr := [] |}) as [Heq _]; [run | run |].
  rewrite Heq. run.
Defined.

(** A failed search does not surface as [CalledProcessError]. *)
Lemma list_items_translates_errors_witness :
  fst (bitwarden_cli.list_items {| bitwarden_cli.cli_path := py "bw" |}
         (PStr (py "example.com")) (PStr (py "TOKEN")) broken_host)
    = Raise (Exn BitwardenCLIError (py "Failed to list items: bw: cannot execute")) /\
  is_CalledProcessError (Exn BitwardenCLIError
                           (py "Failed to list items: bw: cannot execute"))
  || is_TimeoutExpired (Exn BitwardenCLIError
                          (py "Failed to list items: bw: cannot execute"))
  || is_JSONDecodeError (Exn BitwardenCLIError
                           (py "Failed to list items: bw: cannot execute")) = false.
Proof.
  destruct (list_items_translates_errors {| bitwarden_cli.cli_path := py "bw" |}
              (PStr (py "example.com")) (PStr (py "TOKEN")) broken_host)
    as (_ & Hexit & _ & _ & Hnever).
  split.
  - rewrite (Hexit {| returncode := 1; stdout := [];
                      stderr := py "bw: cannot execute" |});
      [reflexivity | run | discriminate].
  - apply (Hnever _
             (snd (bitwarden_cli.list_items {| bitwarden_cli.cli_path := py "bw" |}
                     (PStr (py "example.com")) (PStr (py "TOKEN")) broken_host))).
    apply run_result. run.
Defined.

(** A search that prints a note and a login. *)
Lemma list_items_outcomes_witness :
  fst (bitwarden_cli.list_items {| bitwarden_cli.cli_path := py "bw" |}
         (PStr (py "example.com")) (PStr (py "TOKEN"))
         (vault_host (array [note_text; login_text]))) = Ret [note; login].
Proof.
  destruct (list_items_outcomes {| bitwarden_cli.cli_path := py "bw" |}
              (PStr (py "example.com")) (PStr (py "TOKEN"))
              (vault_host (array [note_text; login_text]))
              {| returncode := 0; stdout := array [note_text; login_text];
                 stderr := [] |}) as (_ & Hlist & _); [run|].
  rewrite (Hlist [note; login]); run.
Defined.

(** [status] with no [bw] on the host. *)
Lemma status_wraps_every_error_witness :
  fst (bitwarden_cli.status {| bitwarden_cli.cli_path := py "bw" |} examples.quiet_host)
    = Raise (Exn BitwardenCLIError
               (py "Failed to get status: " ++ py "No such file or directory: 'bw'")) /\
  exists text,
    Exn BitwardenCLIError
        (py "Failed to get status: " ++ py "No such file or directory: 'bw'")
      = Exn BitwardenCLIError (py "Failed to get status: " ++ text).
Proof.
  destruct (status_wraps_every_error {| bitwarden_cli.cli_path := py "bw" |}
              examples.quiet_host) as (Hraise & _ & _ & _ & Hany).
  split.
  - rewrite (Hraise (Exn FileNotFoundError (py "No such file or directory: 'bw'")));
      [reflexivity | run].
  - apply (Hany _
             (snd (bitwarden_cli.status {| bitwarden_cli.cli_path := py "bw" |}
                     examples.quiet_host))).
    apply run_result. run.
Defined.

(** Text that is not base64, on the server's handler. *)
Lemma decrypt_failure_is_ValueError_witness :
  fst (pake_handler.decrypt (py "XXXXX") responder)
    = Raise (Exn ValueError (py "Decryption failed (wrong key or tampered data): "
                             ++ py "Incorrect padding")) /\
  snd (pake_handler.decrypt (py "XXXXX") responder) = responder /\
  exists text,
    Exn ValueError (py "Decryption failed (wrong key or tampered data): "
                    ++ py "Incorrect padding")
      = Exn ValueError (py "Decryption failed (wrong key or tampered data): "
                        ++ text).
Proof.
  destruct (decrypt_failure_is_ValueError (py "XXXXX") responder)
    as (Hb64 & _ & _ & _ & Hany); [run|].
  split.
  - rewrite (Hb64 (Exn binascii_Error (py "Incorrect padding"))); [reflexivity | run].
  - apply (Hany _ (snd (pake_handler.decrypt (py "XXXXX") responder))).
    apply run_result. run.
Defined.

(** What the agent encrypts, the server decrypts. *)
Lemma encrypt_decrypt_across_handlers_witness :
  exists c,
    pake_handler.encrypt 5 [72; 105; 32; 128272] agent = (Ret c, agent) /\
    pake_handler.decrypt c responder = (Ret [72; 105; 32; 128272], responder).
Proof.
  apply (@encrypt_decrypt_across_handlers libs (standin_laws _ _)
           (snd agent_started) agent (snd responder_started) responder
           (message_of responder_started) (message_of agent_started)).
  - run.
  - run.
  - run.
  - repeat constructor.
Defined.

(** The human enters the code 100000 and the master password. *)
Lemma mark_user_entered_code_unlocks_witness :
  exists w',
    mark_user_entered_code (py "100000") (py "hunter2")
      (pending false None (vault_host [])) = (Ret true, w') /\
    pending_pairings (manager w') !! py "100000"
      = Some (examples.pairing true (Some (py "TOKEN"))) /\
    length (invocations (os w')) = 3%nat.
Proof.
  destruct (mark_user_entered_code_unlocks (pending false None (vault_host []))
              (py "100000") (py "hunter2") (py "TOKEN")
              (examples.pairing false None)
              (snd (unlock_vault (py "hunter2") (tick (vault_host [])))))
    as (w' & Hm & Hp & _ & _ & _ & Ho); [run | run | apply run_result; run |].
  exists w'. split; [exact Hm|]. split; [exact Hp|]. rewrite Ho. run.
Defined.

(** A message that is not base64. *)
Lemma exchange_pake_message_undecodable_witness :
  exchange_pake_message (py "100000") (py "XXXXX") (pending true (Some (py "T"))
                                                    examples.quiet_host)
    = (Raise (Exn binascii_Error (py "Incorrect padding")),
       {| manager := manager (pending true (Some (py "T")) examples.quiet_host);
          os := tick examples.quiet_host |}).
Proof.
  apply (exchange_pake_message_undecodable
           (pending true (Some (py "T")) examples.quiet_host)
           (py "100000") (py "XXXXX") (examples.pairing true (Some (py "T")))); run.
Defined.

(** The whole pairing on a manager that has nothing yet: the draw gives
    the code 100000, the master password opens the vault, and the agent's
    message completes the exchange. *)
Lemma pairing_flow_witness :
  exists w2 sid session w3,
    mark_user_entered_code (py "100000") (py "hunter2")
      (snd (create_pairing (py "a1") (py "A1") (empty (vault_host []))))
      = (Ret true, w2) /\
    exchange_pake_message (py "100000") agent_message w2 =
      (Ret [(py "status", PStr (py "success"));
            (py "session_id", PStr sid);
            (py "pake_message",
             PStr (map Z_of_byte (b64encode (message_of responder_started))));
            (py "agent_id", PStr (py "a1"))], w3) /\
    active_sessions (manager w3) !! sid = Some session /\
    Session.agent_id session = py "a1" /\
    Session.agent_name session = py "A1" /\
    Session.bitwarden_session_token session = Some (py "TOKEN") /\
    Session.pake_handler session = responder /\
    Session.expires_at session
      = reading (snd (unlock_vault (py "hunter2")
                        (tick (os (snd (create_pairing (py "a1") (py "A1")
                                          (empty (vault_host []))))))))
                1 + minutes 30 /\
    pending_pairings (manager w3) !! py "100000" = None.
Proof.
  apply (@pairing_flow libs (standin_laws _ _) (empty (vault_host []))
           (py "a1") (py "A1") (py "hunter2") (py "TOKEN") agent_message
           (message_of agent_started) (message_of responder_started)
           (snd (unlock_vault (py "hunter2")
                   (tick (os (snd (create_pairing (py "a1") (py "A1")
                                     (empty (vault_host []))))))))
           (snd responder_started) responder); run.
Defined.

(** The human says no. *)
Lemma denial_keeps_vault_closed_witness :
  exists w',
    handle_credential_request examples.sid payload (world denying (vault_host [])) =
      (Ret [(py "status", PStr (py "denied")); (py "error", PStr (py "User denied"))],
       w') /\
    invocations (os w') = [] /\
    active_sessions (manager w') !! examples.sid
      = Some (stamped (world denying (vault_host [])) session).
Proof.
  apply (denial_keeps_vault_closed (world denying (vault_host [])) examples.sid payload
           session (examples.object_text examples.fresh_request)
           (map (fun kv => (py (fst kv), PStr (py (snd kv)))) examples.fresh_request)
           (py "2026-01-01T00:00:00Z") examples.epoch_2026 denying
           (PStr (py "example.com")) (PStr (py "login")) (PBool false)
           [(py "approved", PBool false)]); run.
Defined.

(** A note before a login: the login is picked. *)
Lemma first_login_picks_first_witness :
  exists before after ty,
    [note; login] = before ++ login :: after /\
    py_get login "type" PNone = Ret ty /\ py_eq_int ty 1 = true /\
    Forall (fun i => exists t, py_get i "type" PNone = Ret t /\ py_eq_int t 1 = false)
           before.
Proof. apply (first_login_picks_first [note; login] login). run. Defined.

(** The human says yes, and there is no [bw] on the host. *)
Lemma vault_failure_is_answered_witness :
  fst (handle_credential_request examples.sid payload
         (world approving examples.quiet_host))
    = Ret (error_result
             (py "Vault access failed: Bitwarden CLI not found at 'bw'. "
              ++ py "Please install from https://bitwarden.com/help/cli/")).
Proof.
  rewrite (vault_failure_is_answered (world approving examples.quiet_host)
             examples.sid payload
             session (examples.object_text examples.fresh_request)
             (map (fun kv => (py (fst kv), PStr (py (snd kv)))) examples.fresh_request)
             (py "2026-01-01T00:00:00Z") examples.epoch_2026 approving
             (PStr (py "example.com")) (PStr (py "login")) (PBool true)
             [(py "approved", PBool true)]
             ltac:(run) ltac:(run) ltac:(run) ltac:(run) ltac:(run) ltac:(run)
             ltac:(run) ltac:(run) ltac:(run) ltac:(run) ltac:(run) ltac:(run)
             ltac:(run)
             (Exn BitwardenCLIError
                (py "Bitwarden CLI not found at 'bw'. "
                 ++ py "Please install from https://bitwarden.com/help/cli/"))
             (snd (fetch_items
                     (stamped (world approving examples.quiet_host) session)
                     (PStr (py "example.com"))
                     (os (asked (world approving examples.quiet_host)
                            examples.sid session))))
             (run_result _ _ ltac:(run))); run.
Defined.


(** The human says yes, and the login has no password. *)
Lemma incomplete_credential_is_answered_witness :
  fst (handle_credential_request examples.sid payload
         half_login)
    = Ret (error_result (py "Incomplete credential (missing username or password)")).
Proof.
  rewrite (incomplete_credential_is_answered
             half_login
             examples.sid payload
             session (examples.object_text examples.fresh_request)
             (map (fun kv => (py (fst kv), PStr (py (snd kv)))) examples.fresh_request)
             (py "2026-01-01T00:00:00Z") examples.epoch_2026 approving
             (PStr (py "example.com")) (PStr (py "login")) (PBool true)
             [(py "approved", PBool true)]
             ltac:(run) ltac:(run) ltac:(run) ltac:(run) ltac:(run) ltac:(run)
             ltac:(run) ltac:(run) ltac:(run) ltac:(run) ltac:(run) ltac:(run)
             ltac:(run)
             [note; partial]
             (snd (fetch_items (stamped half_login session)
                     (PStr (py "example.com"))
                     (os (asked half_login examples.sid session))))
             (run_result _ _ ltac:(run))
             partial
             (PDict [(py "username", PStr (py "alice")); (py "password", PNone)])
             (PStr (py "alice")) PNone); run.
Defined.

(** The human says yes, and the vault holds a login: the agent decrypts
    what the server returns. *)
Lemma approved_credential_is_encrypted_witness :
  exists c,
    fst (handle_credential_request examples.sid payload
           full_login)
      = Ret [(py "status", PStr (py "approved")); (py "encrypted_payload", PStr c)] /\
    pake_handler.decrypt c agent = (Ret (py "{}"), agent).
Proof.
  destruct (@approved_credential_is_encrypted libs
             full_login
             examples.sid payload
             session (examples.object_text examples.fresh_request)
             (map (fun kv => (py (fst kv), PStr (py (snd kv)))) examples.fresh_request)
             (py "2026-01-01T00:00:00Z") examples.epoch_2026 approving
             (PStr (py "example.com")) (PStr (py "login")) (PBool true)
             [(py "approved", PBool true)]
             ltac:(run) ltac:(run) ltac:(run) ltac:(run) ltac:(run) ltac:(run)
             ltac:(run) ltac:(run) ltac:(run) ltac:(run) ltac:(run) ltac:(run)
             ltac:(run)
             [note; login]
             (snd (fetch_items (stamped full_login session)
                     (PStr (py "example.com"))
                     (os (asked full_login examples.sid session))))
             (run_result _ _ ltac:(run))
             login
             (PDict [(py "username", PStr (py "alice"));
                     (py "password", PStr (py "s3cret"))])
             (PStr (py "alice")) (PStr (py "s3cret"))
             ltac:(run) ltac:(run) ltac:(run) ltac:(run)
             (standin_laws _ _)
             (py "{}")
             (match fst (pake_handler.encrypt 0 (py "{}") responder) with
              | Ret c => c
              | Raise _ => []
              end)
             ltac:(run) ltac:(run) ltac:(run)) as (Hres & _ & Hdec).
  eexists. split.
  - rewrite Hres. reflexivity.
  - apply Hdec. run.
Defined.

(** The agent polls before the human has entered the code. *)
Lemma pairing_exchange_codes_witness :
  fst (pairing_exchange
         (PDict [(py "pairing_code", PStr (py "100000"));
                 (py "pake_message", PStr agent_message)])
         (pending false None (vault_host [])))
    = Ret (PDict [(py "status", PStr (py "waiting"))], 202).
Proof.
  destruct (pairing_exchange_codes (pending false None (vault_host []))
              (snd (exchange_pake_message (py "100000") agent_message
                      (pending false None (vault_host []))))
              [(py "pairing_code", PStr (py "100000"));
               (py "pake_message", PStr agent_message)]
              (py "100000") agent_message waiting)
    as (body & status & Heq & Hcase); [run | discriminate | run | discriminate | run|].
  rewrite Heq. cbn [fst].
  destruct Hcase as [(_ & -> & ->) | [(msg & Hr & _) | (sid & pm & aid & Hr & _)]];
    [reflexivity | discriminate Hr | discriminate Hr].
Defined.

(** [bw lock] on a host where it succeeds. *)
Lemma lock_outcomes_witness :
  fst (bitwarden_cli.lock {| bitwarden_cli.cli_path := py "bw" |} (vault_host []))
    = Ret tt.
Proof.
  destruct (lock_outcomes {| bitwarden_cli.cli_path := py "bw" |} (vault_host []))
    as [Hret _].
  rewrite (Hret {| returncode := 0; stdout := py "Your vault is locked.";
                   stderr := [] |}); run.
Defined.

(** A code that is not pending, and the pending code ten minutes later. *)
Lemma mark_user_entered_code_rejects_witness :
  mark_user_entered_code (py "999999") (py "hunter2") (pending false None (vault_host []))
    = (Ret false, pending false None (vault_host [])) /\
  exists w',
    mark_user_entered_code (py "100000") (py "hunter2") (pending false None late_host)
      = (Ret false, w') /\
    pending_pairings (manager w') !! py "100000" = None /\
    invocations (os w') = [].
Proof.
  split.
  - apply (mark_user_entered_code_rejects (pending false None (vault_host []))
             (py "999999") (py "hunter2")). run.
  - eexists. split.
    + apply (mark_user_entered_code_rejects (pending false None late_host)
               (py "100000") (py "hunter2")) with (pairing := examples.pairing false None);
        run.
    + split; run.
Defined.

Lemma exchange_pake_message_rejects_witness :
  exchange_pake_message (py "999999") agent_message (pending false None (vault_host []))
    = (Ret (error_result (py "Invalid pairing code")), pending false None (vault_host [])) /\
  exists w',
    exchange_pake_message (py "100000") agent_message (pending false None late_host)
      = (Ret (error_result (py "Pairing code expired")), w') /\
    pending_pairings (manager w') !! py "100000" = None.
Proof.
  split.
  - apply (exchange_pake_message_rejects (pending false None (vault_host []))
             (py "999999") agent_message). run.
  - eexists. split.
    + apply (exchange_pake_message_rejects (pending false None late_host)
               (py "100000") agent_message) with (pairing := examples.pairing false None);
        run.
    + run.
Defined.

(** Revoking the live session: the vault is locked with three child
    processes, and the session is gone. *)
Lemma revoke_session_removes_witness :
  exists w',
    revoke_session examples.sid (world denying (vault_host [])) = (Ret tt, w') /\
    active_sessions (manager w') !! examples.sid = None /\
    get_session_status (manager w') examples.sid = None /\
    fst (handle_credential_request examples.sid payload w')
      = Ret (error_result (py "Invalid or expired session")).
Proof.
  destruct (revoke_session_removes (world denying (vault_host [])) examples.sid)
    as (w' & Heq & Hs & _ & _ & _ & _ & Hst & Hreq).
  exists w'. split; [exact Heq|]. split; [|split; [exact Hst|]].
  - rewrite Hs. apply lookup_delete_eq.
  - rewrite Hreq. reflexivity.
Defined.

(** Cleanup at 2026-01-01T00:00:00: the session that expired a minute
    earlier goes, the live session and the pending pairing stay. *)
Lemma cleanup_expired_keeps_unexpired_witness :
  exists w',
    cleanup_expired (mixed (vault_host [])) = (Ret tt, w') /\
    active_sessions (manager w') !! Session.session_id stale = None /\
    active_sessions (manager w') !! examples.sid = Some session /\
    pending_pairings (manager w') !! py "100000" = Some (examples.pairing false None).
Proof.
  destruct (cleanup_expired_keeps_unexpired (mixed (vault_host [])))
    as (w' & Heq & Hp & Hs & _).
  exists w'. split; [exact Heq|].
  rewrite !Hs, Hp. repeat split; run.
Defined.

(** The status of a stored session that has expired is served with 200. *)
Lemma session_status_codes_witness :
  fst (session_status (Some (Session.session_id stale)) (mixed (vault_host [])))
    = Ret (PDict [(py "active", PBool true);
                  (py "agent_name", PStr (py "A2"));
                  (py "last_access",
                   PStr (isoformat (examples.epoch_2026 - minutes 31) ++ py "Z"));
                  (py "expires_at",
                   PStr (isoformat (examples.epoch_2026 - minutes 1) ++ py "Z"))], 200) /\
  fst (session_status (Some (py "sess_none")) (mixed (vault_host [])))
    = Ret (error_response (py "Session not found") 404).
Proof.
  destruct (session_status_codes (mixed (vault_host []))) as (_ & _ & Hsid).
  split; (rewrite Hsid; [run | discriminate]).
Defined.

(** Revoking over HTTP, a session that is stored and one that is not. *)
Lemma session_revoke_codes_witness :
  fst (session_revoke (PDict [(py "session_id", PStr examples.sid)])
         (world denying (vault_host [])))
    = Ret (PDict [(py "revoked", PBool true); (py "session_id", PStr examples.sid)],
           200) /\
  fst (session_revoke (PDict [(py "session_id", PStr (py "sess_none"))])
         (world denying (vault_host [])))
    = Ret (PDict [(py "revoked", PBool true);
                  (py "session_id", PStr (py "sess_none"))], 200).
Proof.
  destruct (session_revoke_codes (world denying (vault_host []))) as (_ & _ & Hrevoke).
  split.
  - destruct (Hrevoke [(py "session_id", PStr examples.sid)] examples.sid)
      as (w' & -> & _); [run | discriminate | reflexivity].
  - destruct (Hrevoke [(py "session_id", PStr (py "sess_none"))] (py "sess_none"))
      as (w' & -> & _); [run | discriminate | reflexivity].
Defined.

(** A denied request over HTTP is a 200. *)
Lemma credential_request_codes_witness :
  fst (credential_request
         (PDict [(py "session_id", PStr examples.sid);
                 (py "encrypted_payload", PStr payload)])
         (world denying (vault_host [])))
    = Ret (PDict [(py "status", PStr (py "denied"));
                  (py "error", PStr (py "User denied"))], 200).
Proof.
  destruct (credential_request_codes (world denying (vault_host [])))
    as (_ & _ & Hcall).
  rewrite (Hcall [(py "session_id", PStr examples.sid);
                  (py "encrypted_payload", PStr payload)] examples.sid payload);
    [run | run | discriminate | run | vm_compute; discriminate].
Defined.

End VaultRuns.
